(** * cloudflare_dyndns: IP detection and DNS record reconciliation

    A shallow embedding of the Go sources of the dynamic DNS updater:

    - [internal/ipdetector.go]: [IsIPv4], [IsIPv6], [DetectIPv4],
      [DetectIPv6], [detectIPv6FromInterfaces];
    - the Cloudflare client ([GetDNSRecords], [CreateDNSRecord],
      [UpdateDNSRecord]);
    - the refactored updater ([Run], [detectIPs], [getCurrentRecord],
      [needsUpdate], [updateRecords], [updateRecord]), module [Refactored];
    - the single-file updater of [internal/updater.go], module [Legacy];
    - [main], and what [flag.Parse()] does before it, module [Command].

    Go strings are byte strings ([string]); a Go [error] is its message and
    a possibly-nil error is an [option].  Network collaborators (address
    lookup endpoints, the local interfaces, the Cloudflare API) are a
    [World] that answers requests; every request issued is recorded in a
    trace of [Call]s. *)

From Stdlib Require Import String Ascii List Bool NArith Arith Lia.
From ExtLib Require Import Structures.Monad.
Import ListNotations.
Import MonadNotation.
Local Open Scope string_scope.
Local Open Scope list_scope.
Local Open Scope nat_scope.
Local Open Scope monad_scope.

(** ** Bytes and byte strings *)

Definition byte_of (c : ascii) : N := N_of_ascii c.

Definition bytes (s : string) : list ascii := list_ascii_of_string s.

Definition is_digit (c : ascii) : bool :=
  ((48 <=? byte_of c) && (byte_of c <=? 57))%N.

Definition digit_val (c : ascii) : N := (byte_of c - 48)%N.

Definition is_nil {A : Type} (l : list A) : bool :=
  match l with [] => true | _ :: _ => false end.

(** ** Regular expressions (package [regexp])

    Only the operators the source pattern uses: character classes,
    concatenation, alternation and bounded repetition [x{lo,hi}].  A
    repetition is expanded into concatenations and nested optionals. *)

Module Regexp.

Inductive regex : Type :=
| Fail : regex
| Empty : regex
| Class (lo hi : ascii) : regex
| Cat (r1 r2 : regex) : regex
| Alt (r1 r2 : regex) : regex.

Definition Lit (c : ascii) : regex := Class c c.

Definition Opt (r : regex) : regex := Alt r Empty.

Fixpoint Times (n : nat) (r : regex) : regex :=
  match n with
  | O => Empty
  | S n' => Cat r (Times n' r)
  end.

Fixpoint UpTo (n : nat) (r : regex) : regex :=
  match n with
  | O => Empty
  | S n' => Opt (Cat r (UpTo n' r))
  end.

Definition Repeat (lo hi : nat) (r : regex) : regex :=
  Cat (Times lo r) (UpTo (hi - lo) r).

Definition in_class (lo hi c : ascii) : bool :=
  ((byte_of lo <=? byte_of c) && (byte_of c <=? byte_of hi))%N.

(** The language of a regular expression. *)
Fixpoint Lang (r : regex) (s : list ascii) : Prop :=
  match r with
  | Fail => False
  | Empty => s = []
  | Class lo hi => exists c, s = [c] /\ in_class lo hi c = true
  | Cat r1 r2 => exists s1 s2, s = s1 ++ s2 /\ Lang r1 s1 /\ Lang r2 s2
  | Alt r1 r2 => Lang r1 s \/ Lang r2 s
  end.

(** Matching by derivatives. *)
Fixpoint nullable (r : regex) : bool :=
  match r with
  | Fail => false
  | Empty => true
  | Class _ _ => false
  | Cat r1 r2 => nullable r1 && nullable r2
  | Alt r1 r2 => nullable r1 || nullable r2
  end.

Fixpoint deriv (c : ascii) (r : regex) : regex :=
  match r with
  | Fail => Fail
  | Empty => Fail
  | Class lo hi => if in_class lo hi c then Empty else Fail
  | Cat r1 r2 =>
      if nullable r1
      then Alt (Cat (deriv c r1) r2) (deriv c r2)
      else Cat (deriv c r1) r2
  | Alt r1 r2 => Alt (deriv c r1) (deriv c r2)
  end.

Fixpoint matches (r : regex) (s : list ascii) : bool :=
  match s with
  | [] => nullable r
  | c :: s' => matches (deriv c r) s'
  end.

(** [MatchString] for a pattern of the form [^r$]: without the multi-line
    flag both anchors refer to the ends of the text, so the whole string
    has to match [r]. *)
Definition MatchString (r : regex) (s : string) : bool := matches r (bytes s).

End Regexp.

(** ** Address validation ([internal/ipdetector.go]) *)

(** The pattern of [IsIPv4]:
    [^((25[0-5]|(2[0-4]|1{0,1}[0-9]){0,1}[0-9])\.){3,3}(25[0-5]|(2[0-4]|1{0,1}[0-9]){0,1}[0-9])$] *)
Definition octet_regex : Regexp.regex :=
  Regexp.Alt
    (Regexp.Cat (Regexp.Lit "2") (Regexp.Cat (Regexp.Lit "5") (Regexp.Class "0" "5")))
    (Regexp.Cat
       (Regexp.Repeat 0 1
          (Regexp.Alt
             (Regexp.Cat (Regexp.Lit "2") (Regexp.Class "0" "4"))
             (Regexp.Cat (Regexp.Repeat 0 1 (Regexp.Lit "1")) (Regexp.Class "0" "9"))))
       (Regexp.Class "0" "9")).

Definition ipv4_regex : Regexp.regex :=
  Regexp.Cat
    (Regexp.Repeat 3 3 (Regexp.Cat octet_regex (Regexp.Lit ".")))
    octet_regex.

Definition IsIPv4 (ip : string) : bool := Regexp.MatchString ipv4_regex ip.


(** ** [net.ParseIP] and [IP.To4] (Go standard library)

    The textual address parser of the standard library, as of the Go
    release the project builds with (1.24): [ParseIP] goes through
    [netip.ParseAddr] and rejects addresses with a zone.  An address is
    its 16-byte form. *)

Module net.

Definition IP : Type := list N.

Definition is_dot (c : ascii) : bool := (byte_of c =? 46)%N.
Definition is_colon (c : ascii) : bool := (byte_of c =? 58)%N.
Definition is_percent (c : ascii) : bool := (byte_of c =? 37)%N.

(** [parseIPv4Fields]: the loop over the bytes of [s].  [first] says that
    the current byte is [s[0]], [prevDot] that the previous byte was a
    dot; [fields] holds the [pos] octets completed so far. *)
Fixpoint parseIPv4Fields (s : list ascii) (first prevDot : bool)
    (val : N) (digLen : nat) (pos : nat) (fields : list N) : option (list N) :=
  match s with
  | [] => if pos <? 3 then None else Some (fields ++ [val])
  | c :: rest =>
      if is_digit c then
        if (digLen =? 1) && (val =? 0)%N then None
        else
          let val' := (val * 10 + digit_val c)%N in
          if (255 <? val')%N then None
          else parseIPv4Fields rest false false val' (S digLen) pos fields
      else if is_dot c then
        if first || is_nil rest || prevDot then None
        else if pos =? 3 then None
        else parseIPv4Fields rest false true 0%N 0 (S pos) (fields ++ [val])
      else None
  end.

Definition v4InV6Prefix : list N :=
  [0; 0; 0; 0; 0; 0; 0; 0; 0; 0; 255; 255]%N.

(** [parseIPv4]: the four octets, returned in the 16-byte form that
    [Addr.As16] gives an IPv4 address. *)
Definition parseIPv4 (s : list ascii) : option IP :=
  match parseIPv4Fields s true false 0%N 0 0 [] with
  | Some fields => Some (v4InV6Prefix ++ fields)
  | None => None
  end.

Definition hex_val (c : ascii) : option N :=
  let b := byte_of c in
  if ((48 <=? b) && (b <=? 57))%N then Some (b - 48)%N
  else if ((97 <=? b) && (b <=? 102))%N then Some (b - 97 + 10)%N
  else if ((65 <=? b) && (b <=? 70))%N then Some (b - 65 + 10)%N
  else None.

(** The inner loop of [parseIPv6] that reads one hexadecimal group:
    the accumulated value, the number of digits read and the rest of the
    string; [None] when the group has more than four digits. *)
Fixpoint hex_group (s : list ascii) (off : nat) (acc : N)
    : option (N * nat * list ascii) :=
  match s with
  | [] => Some (acc, off, [])
  | c :: rest =>
      match hex_val c with
      | Some v =>
          let acc' := (acc * 16 + v)%N in
          if 3 <? off then None
          else if (65535 <? acc')%N then None
          else hex_group rest (S off) acc'
      | None => Some (acc, off, s)
      end
  end.

(** The outer loop of [parseIPv6] ([for i < 16]); [ip] holds the [i]
    bytes written so far.  The result is the unread rest of the string,
    [i], the bytes and the position of the ellipsis. *)
Fixpoint parseIPv6_loop (fuel : nat) (s : list ascii) (i : nat) (ip : list N)
    (ellipsis : option nat) : option (list ascii * nat * list N * option nat) :=
  match fuel with
  | O => Some (s, i, ip, ellipsis)
  | S fuel' =>
      if negb (i <? 16) then Some (s, i, ip, ellipsis)
      else
        match hex_group s 0 0%N with
        | None => None
        | Some (acc, off, rest) =>
            if off =? 0 then None
            else if (match rest with c :: _ => is_dot c | [] => false end) then
              if (match ellipsis with None => true | Some _ => false end)
                 && negb (i =? 12) then None
              else if 16 <? i + 4 then None
              else
                match parseIPv4Fields s true false 0%N 0 0 [] with
                | None => None
                | Some fields => Some ([], i + 4, ip ++ fields, ellipsis)
                end
            else
              let ip' := ip ++ [N.shiftr acc 8; N.land acc 255]%N in
              let i' := i + 2 in
              match rest with
              | [] => Some ([], i', ip', ellipsis)
              | c :: s1 =>
                  if negb (is_colon c) then None
                  else
                    match s1 with
                    | [] => None
                    | c1 :: s2 =>
                        if is_colon c1 then
                          match ellipsis with
                          | Some _ => None
                          | None =>
                              if is_nil s2 then Some ([], i', ip', Some i')
                              else parseIPv6_loop fuel' s2 i' ip' (Some i')
                          end
                        else parseIPv6_loop fuel' s1 i' ip' ellipsis
                    end
              end
        end
  end.

(** The end of [parseIPv6]: the whole string must have been read and the
    ellipsis, when there is one, is expanded to the missing zero bytes. *)
Definition parseIPv6_finish (r : list ascii * nat * list N * option nat)
    : option IP :=
  let '(s, i, ip, ellipsis) := r in
  if negb (is_nil s) then None
  else if i <? 16 then
    match ellipsis with
    | None => None
    | Some e => Some (firstn e ip ++ repeat 0%N (16 - i) ++ skipn e ip)
    end
  else
    match ellipsis with
    | Some _ => None
    | None => Some ip
    end.

Definition parseIPv6 (s : list ascii) : option IP :=
  match s with
  | c0 :: c1 :: s' =>
      if is_colon c0 && is_colon c1 then
        if is_nil s' then Some (repeat 0%N 16)
        else
          match parseIPv6_loop 8 s' 0 [] (Some 0) with
          | Some r => parseIPv6_finish r
          | None => None
          end
      else
        match parseIPv6_loop 8 s 0 [] None with
        | Some r => parseIPv6_finish r
        | None => None
        end
  | _ =>
      match parseIPv6_loop 8 s 0 [] None with
      | Some r => parseIPv6_finish r
      | None => None
      end
  end.

(** [netip.ParseAddr]: the first dot or colon decides the family. *)
Fixpoint ParseAddr_from (whole s : list ascii) : option IP :=
  match s with
  | [] => None
  | c :: rest =>
      if is_dot c then parseIPv4 whole
      else if is_colon c then parseIPv6 whole
      else if is_percent c then None
      else ParseAddr_from whole rest
  end.

(** [ParseIP]: [nil] ([None]) on a parse error and on an address with a
    zone, which is any string with a percent sign. *)
Definition ParseIP (s : string) : option IP :=
  if existsb is_percent (bytes s) then None
  else ParseAddr_from (bytes s) (bytes s).

(** [IP.To4]: the 4-byte form of an IPv4 address held in 16 bytes. *)
Definition To4 (ip : IP) : option (list N) :=
  if length ip =? 4 then Some ip
  else if (length ip =? 16)
          && forallb (N.eqb 0) (firstn 10 ip)
          && forallb (N.eqb 255) (firstn 2 (skipn 10 ip))
  then Some (skipn 12 ip)
  else None.

End net.

Definition is_none {A : Type} (o : option A) : bool :=
  match o with None => true | Some _ => false end.

Definition IsIPv6 (ip : string) : bool :=
  match net.ParseIP ip with
  | Some parsedIP => is_none (net.To4 parsedIP)
  | None => false
  end.

(** ** [strings.TrimSpace] (Go standard library)

    Leading and trailing white space is removed, as defined by Unicode:
    the ASCII bytes tab, line feed, vertical tab, form feed, carriage
    return and space, and the UTF-8 encodings of U+0085, U+00A0, U+1680,
    U+2000 to U+200A, U+2028, U+2029, U+202F, U+205F and U+3000. *)

Module strings.

Definition space_encodings : list (list N) :=
  [ [9]; [10]; [11]; [12]; [13]; [32];
    [194; 133]; [194; 160]; [225; 154; 128];
    [226; 128; 128]; [226; 128; 129]; [226; 128; 130]; [226; 128; 131];
    [226; 128; 132]; [226; 128; 133]; [226; 128; 134]; [226; 128; 135];
    [226; 128; 136]; [226; 128; 137]; [226; 128; 138];
    [226; 128; 168]; [226; 128; 169]; [226; 128; 175];
    [226; 129; 159]; [227; 128; 128] ]%N.

Fixpoint strip_prefix (p : list N) (s : list ascii) : option (list ascii) :=
  match p with
  | [] => Some s
  | b :: p' =>
      match s with
      | c :: s' => if (byte_of c =? b)%N then strip_prefix p' s' else None
      | [] => None
      end
  end.

Fixpoint strip_space (encs : list (list N)) (s : list ascii)
    : option (list ascii) :=
  match encs with
  | [] => None
  | p :: encs' =>
      match strip_prefix p s with
      | Some rest => Some rest
      | None => strip_space encs' s
      end
  end.

Fixpoint trim_left (encs : list (list N)) (fuel : nat) (s : list ascii)
    : list ascii :=
  match fuel with
  | O => s
  | S fuel' =>
      match strip_space encs s with
      | Some rest => trim_left encs fuel' rest
      | None => s
      end
  end.

Definition TrimLeft (s : list ascii) : list ascii :=
  trim_left space_encodings (length s) s.

Definition TrimRight (s : list ascii) : list ascii :=
  rev (trim_left (map (@rev N) space_encodings) (length s) (rev s)).

Definition TrimSpace (s : string) : string :=
  string_of_list_ascii (TrimRight (TrimLeft (bytes s))).

End strings.

(** ** Collaborators

    The outside world of one run: the address lookup endpoints, the local
    network interfaces and the Cloudflare API. *)

Definition error : Type := string.

Inductive Method : Type := GET | POST | PUT.

(** [DNSRecord], [CloudflareResponse], [CloudflareUpdateResponse]. *)
Module DNSRecord.
Record t : Type := mk {
  ID : string;
  Type_ : string;
  Name : string;
  Content : string;
  Proxied : bool
}.
End DNSRecord.

Record CloudflareResponse : Type := mkCloudflareResponse {
  Success : bool;
  Result : list DNSRecord.t
}.

Record CloudflareUpdateResponse : Type := mkCloudflareUpdateResponse {
  UpdateSuccess : bool;
  UpdateResult : DNSRecord.t
}.

(** The step of an API exchange that failed: building the request,
    [client.Do], reading the body, or decoding the JSON payload. *)
Inductive ApiFailure : Type :=
| RequestFailed (msg : error)
| ExecuteFailed (msg : error)
| ReadFailed (msg : error)
| UnmarshalFailed (msg : error).

(** An address of a network interface, as the detector observes it: whether
    it is a [*net.IPNet], and for its IP the results of [To4() != nil],
    [IsLinkLocalUnicast()], [To16() != nil], [IsGlobalUnicast()] and
    [String()]. *)
Record IfaceAddr : Type := mkIfaceAddr {
  isIPNet : bool;
  hasTo4 : bool;
  IsLinkLocalUnicast : bool;
  hasTo16 : bool;
  IsGlobalUnicast : bool;
  ipString : string
}.

Record Interface : Type := mkInterface {
  FlagUp : bool;
  FlagLoopback : bool;
  Addrs : error + list IfaceAddr
}.

Record World : Type := mkWorld {
  (** GET of a lookup endpoint: an error of the request or of reading the
      body, or the body. *)
  http_get : string -> error + string;
  (** [net.Interfaces()] *)
  net_Interfaces : error + list Interface;
  (** GET on the API: URL and bearer token. *)
  api_get : string -> string -> ApiFailure + CloudflareResponse;
  (** POST and PUT on the API: method, URL, bearer token and record. *)
  api_send : Method -> string -> string -> DNSRecord.t
             -> ApiFailure + CloudflareUpdateResponse
}.

(** The requests a run issues, in order. *)
Inductive Call : Type :=
| LookupCall (service : string)
| InterfacesCall
| ApiCall (m : Method) (url token : string) (body : option DNSRecord.t).

Definition is_mutation (c : Call) : bool :=
  match c with
  | ApiCall POST _ _ _ | ApiCall PUT _ _ _ => true
  | _ => false
  end.

Definition is_api (c : Call) : bool :=
  match c with
  | ApiCall _ _ _ _ => true
  | _ => false
  end.

Definition is_detection (c : Call) : bool :=
  match c with
  | LookupCall _ | InterfacesCall => true
  | _ => false
  end.

(** ** Effects

    [IO A] is a computation that talks to the world and records its calls;
    [M S A] also reads and updates a receiver of type [S] (the updater the
    methods are called on). *)

Definition IO (A : Type) : Type := World -> A * list Call.

#[export] Instance Monad_IO : Monad IO := {
  ret := fun A (a : A) (w : World) => (a, []);
  bind := fun A B (m : IO A) (f : A -> IO B) (w : World) =>
            let '(a, t1) := m w in
            let '(b, t2) := f a w in
            (b, t1 ++ t2)
}.

Definition M (S A : Type) : Type := World -> S -> A * S * list Call.

#[export] Instance Monad_M (S : Type) : Monad (M S) := {
  ret := fun A (a : A) (w : World) (u : S) => (a, u, []);
  bind := fun A B (m : M S A) (f : A -> M S B) (w : World) (u : S) =>
            let '(a, u1, t1) := m w u in
            let '(b, u2, t2) := f a w u1 in
            (b, u2, t1 ++ t2)
}.

Definition liftIO {S A : Type} (m : IO A) : M S A :=
  fun w u => let '(a, t) := m w in (a, u, t).

Definition this {S : Type} : M S S := fun _ u => (u, u, []).

Definition assign {S : Type} (f : S -> S) : M S unit :=
  fun _ u => (tt, f u, []).

Definition Get (service : string) : IO (error + string) :=
  fun w => (http_get w service, [LookupCall service]).

Definition Interfaces : IO (error + list Interface) :=
  fun w => (net_Interfaces w, [InterfacesCall]).

Definition DoGet (url token : string) : IO (ApiFailure + CloudflareResponse) :=
  fun w => (api_get w url token, [ApiCall GET url token None]).

Definition DoSend (m : Method) (url token : string) (body : DNSRecord.t)
    : IO (ApiFailure + CloudflareUpdateResponse) :=
  fun w => (api_send w m url token body, [ApiCall m url token (Some body)]).

(** ** The IP detector ([internal/ipdetector.go]) *)

Module IPDetector.

Definition ipv4Services : list string :=
  [ "https://api.ipify.org"; "https://v4.ident.me/";
    "https://ipv4.icanhazip.com/" ].

Definition ipv6Services : list string :=
  [ "https://api6.ipify.org"; "https://v6.ident.me/";
    "https://ipv6.icanhazip.com/" ].

(** The loop over the services, shared by [DetectIPv4] and [DetectIPv6]
    up to the validation function: a request or read error and a body that
    does not validate both go on to the next service. *)
Fixpoint tryServices (valid : string -> bool) (services : list string)
    : IO (option string) :=
  match services with
  | [] => ret None
  | service :: rest =>
      r <- Get service ;;
      match r with
      | inl _ => tryServices valid rest
      | inr ip =>
          let ipStr := strings.TrimSpace ip in
          if valid ipStr then ret (Some ipStr) else tryServices valid rest
      end
  end.

Definition DetectIPv4 : IO (string * option error) :=
  r <- tryServices IsIPv4 ipv4Services ;;
  match r with
  | Some ipStr => ret (ipStr, None)
  | None => ret ("", Some "failed to detect public IPv4 address")
  end.

(** The loops of [detectIPv6FromInterfaces] over the addresses of one
    interface and over the interfaces. *)
Fixpoint scanAddrs (addrs : list IfaceAddr) : option string :=
  match addrs with
  | [] => None
  | addr :: rest =>
      if negb (isIPNet addr) then scanAddrs rest
      else if hasTo4 addr || IsLinkLocalUnicast addr then scanAddrs rest
      else if hasTo16 addr && IsGlobalUnicast addr then Some (ipString addr)
      else scanAddrs rest
  end.

Fixpoint scanInterfaces (interfaces : list Interface) : option string :=
  match interfaces with
  | [] => None
  | iface :: rest =>
      if negb (FlagUp iface) || FlagLoopback iface then scanInterfaces rest
      else
        match Addrs iface with
        | inl _ => scanInterfaces rest
        | inr addrs =>
            match scanAddrs addrs with
            | Some ip => Some ip
            | None => scanInterfaces rest
            end
        end
  end.

Definition detectIPv6FromInterfaces : IO (string * option error) :=
  r <- Interfaces ;;
  match r with
  | inl err => ret ("", Some err)
  | inr interfaces =>
      match scanInterfaces interfaces with
      | Some ip => ret (ip, None)
      | None => ret ("", Some "no suitable IPv6 address found on interfaces")
      end
  end.

Definition DetectIPv6 : IO (string * option error) :=
  r <- tryServices IsIPv6 ipv6Services ;;
  match r with
  | Some ipStr => ret (ipStr, None)
  | None =>
      '(ipv6, err) <- detectIPv6FromInterfaces ;;
      match err with
      | None => ret (ipv6, None)
      | Some _ =>
          ret ("", Some "no IPv6 address found from external services or local interfaces")
      end
  end.

End IPDetector.

(** ** The Cloudflare client *)

Module CloudflareClient.

Definition CloudflareAPIBaseURL : string := "https://api.cloudflare.com/client/v4".

Record t : Type := mk { zoneID : string; apiToken : string }.

Definition NewCloudflareClient (zoneID apiToken : string) : t :=
  mk zoneID apiToken.

Definition failure_message (f : ApiFailure) : error :=
  match f with
  | RequestFailed e => ("create request: " ++ e)%string
  | ExecuteFailed e => ("execute request: " ++ e)%string
  | ReadFailed e => ("read response: " ++ e)%string
  | UnmarshalFailed e => ("unmarshal response: " ++ e)%string
  end.

Definition records_url (c : t) (recordType hostname : string) : string :=
  (CloudflareAPIBaseURL ++ "/zones/" ++ zoneID c ++ "/dns_records?type="
     ++ recordType ++ "&name=" ++ hostname)%string.

Definition create_url (c : t) : string :=
  (CloudflareAPIBaseURL ++ "/zones/" ++ zoneID c ++ "/dns_records")%string.

Definition update_url (c : t) (recordID : string) : string :=
  (CloudflareAPIBaseURL ++ "/zones/" ++ zoneID c ++ "/dns_records/"
     ++ recordID)%string.

Definition GetDNSRecords (c : t) (recordType hostname : string)
    : IO (list DNSRecord.t * option error) :=
  r <- DoGet (records_url c recordType hostname) (apiToken c) ;;
  match r with
  | inl f => ret ([], Some (failure_message f))
  | inr cfResp =>
      if negb (Success cfResp)
      then ret ([], Some "cloudflare API request failed")
      else ret (Result cfResp, None)
  end.

Definition CreateDNSRecord (c : t) (recordType hostname content : string)
    (proxied : bool) : IO (bool * option error) :=
  let recordData := DNSRecord.mk "" recordType hostname content proxied in
  r <- DoSend POST (create_url c) (apiToken c) recordData ;;
  match r with
  | inl f => ret (false, Some (failure_message f))
  | inr cfResp => ret (UpdateSuccess cfResp, None)
  end.

Definition UpdateDNSRecord (c : t) (recordID recordType hostname content : string)
    (proxied : bool) : IO (bool * option error) :=
  let recordData := DNSRecord.mk "" recordType hostname content proxied in
  r <- DoSend PUT (update_url c recordID) (apiToken c) recordData ;;
  match r with
  | inl f => ret (false, Some (failure_message f))
  | inr cfResp => ret (UpdateSuccess cfResp, None)
  end.

End CloudflareClient.

(** ** The refactored updater *)

Module Refactored.

Definition StatusNoChange : string := "no changes needed".
Definition StatusGood : string := "update successful".
Definition StatusAuthError : string := "authentication error".
Definition StatusMissingCredentials : string := "missing credentials".

Definition RecordTypeA : string := "A".
Definition RecordTypeAAAA : string := "AAAA".

Record DNSUpdater : Type := mkDNSUpdater {
  ZoneID : string;
  APIToken : string;
  Hostname : string;
  IPAddr : string;
  EnableIPv6 : bool;
  cfClient : CloudflareClient.t
}.

Definition NewDNSUpdater (zoneID apiToken hostname ipAddr : string)
    (enableIPv6 : bool) : DNSUpdater :=
  mkDNSUpdater zoneID apiToken hostname ipAddr enableIPv6
    (CloudflareClient.NewCloudflareClient zoneID apiToken).

(** The assignment [u.EnableIPv6 = b]. *)
Definition set_EnableIPv6 (b : bool) (u : DNSUpdater) : DNSUpdater :=
  mkDNSUpdater (ZoneID u) (APIToken u) (Hostname u) (IPAddr u) b (cfClient u).

Module DNSRecordInfo.
Record t : Type := mk {
  ID : string;
  Content : string;
  Proxied : bool
}.
End DNSRecordInfo.

(** [detectIPs]: the first [if] either returns early with an error or
    leaves [ipv4] and [ipv6]. *)
Definition detectIPs : M DNSUpdater (string * string * option error) :=
  u <- this ;;
  '(ipv4, ipv6, err) <-
    (if (IPAddr u =? "")%string then
       '(ipv4, err) <- liftIO IPDetector.DetectIPv4 ;;
       match err with
       | Some e => ret ("", "", Some ("detect IPv4: " ++ e)%string)
       | None => ret (ipv4, "", None)
       end
     else if IsIPv4 (IPAddr u) then ret (IPAddr u, "", None)
     else if IsIPv6 (IPAddr u) then
       assign (set_EnableIPv6 false) ;;
       ret ("", IPAddr u, None)
     else ret ("", "", Some "invalid IP address provided")) ;;
  match err with
  | Some e => ret ("", "", Some e)
  | None =>
      u <- this ;;
      if EnableIPv6 u && (ipv6 =? "")%string then
        '(ipv6, err) <- liftIO IPDetector.DetectIPv6 ;;
        match err with
        | Some _ =>
            assign (set_EnableIPv6 false) ;;
            ret (ipv4, ipv6, None)
        | None => ret (ipv4, ipv6, None)
        end
      else ret (ipv4, ipv6, None)
  end.

Definition getCurrentRecord (recordType : string)
    : M DNSUpdater (option DNSRecordInfo.t * option error) :=
  u <- this ;;
  '(records, err) <-
    liftIO (CloudflareClient.GetDNSRecords (cfClient u) recordType (Hostname u)) ;;
  match err with
  | Some e => ret (None, Some ("get " ++ recordType ++ " records: " ++ e)%string)
  | None =>
      match records with
      | [] => ret (None, None)
      | r :: _ =>
          ret (Some (DNSRecordInfo.mk (DNSRecord.ID r) (DNSRecord.Content r)
                       (DNSRecord.Proxied r)), None)
      end
  end.

(** [record == nil || record.Content != ip] *)
Definition nilOrDiffers (record : option DNSRecordInfo.t) (ip : string) : bool :=
  match record with
  | None => true
  | Some r => negb (DNSRecordInfo.Content r =? ip)%string
  end.

Definition needsUpdate (u : DNSUpdater) (ipv4 ipv6 : string)
    (v4Record v6Record : option DNSRecordInfo.t) : bool :=
  if negb (ipv4 =? "")%string && nilOrDiffers v4Record ipv4 then true
  else if EnableIPv6 u && negb (ipv6 =? "")%string && nilOrDiffers v6Record ipv6
  then true
  else false.

Definition updateRecord (recordType : string) (record : option DNSRecordInfo.t)
    (ipContent : string) : M DNSUpdater (bool * option error) :=
  u <- this ;;
  match record with
  | None =>
      liftIO (CloudflareClient.CreateDNSRecord (cfClient u) recordType
                (Hostname u) ipContent true)
  | Some r =>
      liftIO (CloudflareClient.UpdateDNSRecord (cfClient u) (DNSRecordInfo.ID r)
                recordType (Hostname u) ipContent (DNSRecordInfo.Proxied r))
  end.

Definition updateRecords (ipv4 ipv6 : string)
    (v4Record v6Record : option DNSRecordInfo.t)
    : M DNSUpdater (string * option error) :=
  '(v4Success, v4Err) <-
    (if negb (ipv4 =? "")%string && nilOrDiffers v4Record ipv4
     then updateRecord RecordTypeA v4Record ipv4
     else ret (true, None)) ;;
  u <- this ;;
  '(v6Success, v6Err) <-
    (if EnableIPv6 u && negb (ipv6 =? "")%string && nilOrDiffers v6Record ipv6
     then updateRecord RecordTypeAAAA v6Record ipv6
     else if negb (EnableIPv6 u) then ret (true, None)
     else ret (false, None)) ;;
  match v4Success, v4Err with
  | false, Some e => ret (StatusAuthError, Some ("update IPv4 record: " ++ e)%string)
  | _, _ =>
      match v6Success, v6Err with
      | false, Some e =>
          ret (StatusAuthError, Some ("update IPv6 record: " ++ e)%string)
      | _, _ =>
          if v4Success || v6Success then ret (StatusGood, None)
          else ret (StatusAuthError, Some "failed to update DNS records")
      end
  end.

Definition Run : M DNSUpdater (string * option error) :=
  '(ipv4, ipv6, err) <- detectIPs ;;
  match err with
  | Some e => ret (StatusAuthError, Some ("IP detection failed: " ++ e)%string)
  | None =>
      '(v4Record, err) <- getCurrentRecord RecordTypeA ;;
      match err with
      | Some e => ret (StatusAuthError, Some e)
      | None =>
          u <- this ;;
          '(v6Record, err) <-
            (if EnableIPv6 u && negb (ipv6 =? "")%string
             then getCurrentRecord RecordTypeAAAA
             else ret (None, None)) ;;
          match err with
          | Some e => ret (StatusAuthError, Some e)
          | None =>
              u <- this ;;
              if negb (needsUpdate u ipv4 ipv6 v4Record v6Record)
              then ret (StatusNoChange, None)
              else
                '(updateResult, err) <-
                  updateRecords ipv4 ipv6 v4Record v6Record ;;
                match err with
                | Some e => ret (StatusAuthError, Some e)
                | None => ret (updateResult, None)
                end
          end
      end
  end.

End Refactored.

(** ** The single-file updater ([internal/updater.go]) *)

Module Legacy.

Record DNSUpdater : Type := mkDNSUpdater {
  ZoneID : string;
  APIToken : string;
  Hostname : string;
  IPAddr : string;
  EnableIPv6 : bool
}.

Definition NewDNSUpdater (zoneID apiToken hostname ipAddr : string)
    (enableIPv6 : bool) : DNSUpdater :=
  mkDNSUpdater zoneID apiToken hostname ipAddr enableIPv6.

(** The assignment [u.EnableIPv6 = b]. *)
Definition set_EnableIPv6 (b : bool) (u : DNSUpdater) : DNSUpdater :=
  mkDNSUpdater (ZoneID u) (APIToken u) (Hostname u) (IPAddr u) b.

(** [isIPv4] and [isIPv6]: the same pattern and the same test as [IsIPv4]
    and [IsIPv6]. *)
Definition isIPv4 (ip : string) : bool := Regexp.MatchString ipv4_regex ip.

Definition isIPv6 (ip : string) : bool :=
  match net.ParseIP ip with
  | Some parsedIP => is_none (net.To4 parsedIP)
  | None => false
  end.

(** The methods return the error of the failing step as it is. *)
Definition failure_error (f : ApiFailure) : error :=
  match f with
  | RequestFailed e | ExecuteFailed e | ReadFailed e | UnmarshalFailed e => e
  end.

Definition getRecords (recordType : string)
    : M DNSUpdater (list DNSRecord.t * option error) :=
  u <- this ;;
  let url :=
    ("https://api.cloudflare.com/client/v4/zones/" ++ ZoneID u
       ++ "/dns_records?type=" ++ recordType ++ "&name=" ++ Hostname u)%string in
  r <- liftIO (DoGet url (APIToken u)) ;;
  match r with
  | inl f => ret ([], Some (failure_error f))
  | inr cfResp =>
      if negb (Success cfResp)
      then ret ([], Some "cloudflare API request failed")
      else ret (Result cfResp, None)
  end.

Definition createRecord (recordType content : string) (proxied : bool)
    : M DNSUpdater (bool * option error) :=
  u <- this ;;
  let url :=
    ("https://api.cloudflare.com/client/v4/zones/" ++ ZoneID u
       ++ "/dns_records")%string in
  let recordData := DNSRecord.mk "" recordType (Hostname u) content proxied in
  r <- liftIO (DoSend POST url (APIToken u) recordData) ;;
  match r with
  | inl f => ret (false, Some (failure_error f))
  | inr cfResp => ret (UpdateSuccess cfResp, None)
  end.

Definition updateRecord (recordType recordID content : string) (proxied : bool)
    : M DNSUpdater (bool * option error) :=
  u <- this ;;
  let url :=
    ("https://api.cloudflare.com/client/v4/zones/" ++ ZoneID u
       ++ "/dns_records/" ++ recordID)%string in
  let recordData := DNSRecord.mk "" recordType (Hostname u) content proxied in
  r <- liftIO (DoSend PUT url (APIToken u) recordData) ;;
  match r with
  | inl f => ret (false, Some (failure_error f))
  | inr cfResp => ret (UpdateSuccess cfResp, None)
  end.

(** [detectIPv4]: one endpoint; the body is returned as it is. *)
Definition detectIPv4 : M DNSUpdater (string * option error) :=
  r <- liftIO (Get "https://api.ipify.org") ;;
  match r with
  | inl err => ret ("", Some err)
  | inr ip => ret (ip, None)
  end.

Definition ipv6Services : list string :=
  [ "https://api6.ipify.org"; "https://v6.ident.me/";
    "https://ipv6.icanhazip.com/" ].

(** [detectIPv6]: the loop over the services and the loops over the
    interfaces are those of the detector ([IPDetector.tryServices],
    [IPDetector.scanInterfaces]). *)
Definition detectIPv6 : M DNSUpdater (string * option error) :=
  r <- liftIO (IPDetector.tryServices isIPv6 ipv6Services) ;;
  match r with
  | Some ipStr => ret (ipStr, None)
  | None =>
      r <- liftIO Interfaces ;;
      match r with
      | inl _ =>
          ret ("", Some "failed to get IPv6 address: both external services and local interfaces failed")
      | inr interfaces =>
          match IPDetector.scanInterfaces interfaces with
          | Some ip => ret (ip, None)
          | None =>
              ret ("", Some "no IPv6 address found from external services or local interfaces")
          end
      end
  end.

(** The record variables of [Run]: identifier, content and proxy flag of
    the first record, or their zero values. *)
Definition firstRecord (records : list DNSRecord.t) : string * string * bool :=
  match records with
  | [] => ("", "", false)
  | r :: _ => (DNSRecord.ID r, DNSRecord.Content r, DNSRecord.Proxied r)
  end.

(** [Run], lines 134 to 189: the two updates and the result. *)
Definition Run_update (ipv4 ipv6 : string)
    (recordID recordIP : string) (recordProxied : bool)
    (recordIDv6 recordIPv6 : string) (recordProxiedv6 : bool)
    : M DNSUpdater (string * option error) :=
  '(updateIPv4Success, err) <-
    (if negb (ipv4 =? "")%string
        && (negb (recordIP =? ipv4)%string || (recordID =? "")%string)
     then
       if (recordID =? "")%string then createRecord "A" ipv4 true
       else updateRecord "A" recordID ipv4 recordProxied
     else ret (true, None)) ;;
  match err with
  | Some e => ret ("", Some e)
  | None =>
      u <- this ;;
      '(updateIPv6Success, err) <-
        (if EnableIPv6 u && negb (ipv6 =? "")%string
            && (negb (recordIPv6 =? ipv6)%string || (recordIDv6 =? "")%string)
         then
           if (recordIDv6 =? "")%string then createRecord "AAAA" ipv6 true
           else updateRecord "AAAA" recordIDv6 ipv6 recordProxiedv6
         else if negb (EnableIPv6 u) then ret (true, None)
         else ret (false, None)) ;;
      match err with
      | Some e => ret ("", Some e)
      | None =>
          if updateIPv4Success || updateIPv6Success
          then ret ("update successful", None)
          else ret ("authentication_failed",
                    Some "failed to update DNS records due to authentication error")
      end
  end.

(** [Run], lines 92 to 132: the current records and the comparison. *)
Definition Run_records (ipv4 ipv6 : string)
    : M DNSUpdater (string * option error) :=
  '(records, err) <-
    (if negb (ipv4 =? "")%string then getRecords "A" else ret ([], None)) ;;
  match err with
  | Some e => ret ("", Some e)
  | None =>
      let '(recordID, recordIP, recordProxied) := firstRecord records in
      u <- this ;;
      '(records, err) <-
        (if EnableIPv6 u && negb (ipv6 =? "")%string
         then getRecords "AAAA" else ret ([], None)) ;;
      match err with
      | Some e => ret ("", Some e)
      | None =>
          let '(recordIDv6, recordIPv6, recordProxiedv6) := firstRecord records in
          u <- this ;;
          if (negb (ipv4 =? "")%string && (recordIP =? ipv4)%string)
             && (negb (ipv6 =? "")%string && (recordIPv6 =? ipv6)%string
                 || negb (EnableIPv6 u))
          then ret ("no changes needed", None)
          else Run_update ipv4 ipv6 recordID recordIP recordProxied
                 recordIDv6 recordIPv6 recordProxiedv6
      end
  end.

(** [Run], lines 60 to 90, followed by the rest. *)
Definition Run : M DNSUpdater (string * option error) :=
  u <- this ;;
  '(ipv4, ipv6, err) <-
    (if (IPAddr u =? "")%string then
       '(ipv4, err) <- detectIPv4 ;;
       match err with
       | Some e => ret ("", "", Some e)
       | None => ret (ipv4, "", None)
       end
     else if isIPv4 (IPAddr u) then ret (IPAddr u, "", None)
     else if isIPv6 (IPAddr u) then
       assign (set_EnableIPv6 false) ;;
       ret ("", IPAddr u, None)
     else ret ("", "", Some "invalid IP address provided")) ;;
  match err with
  | Some e => ret ("", Some e)
  | None =>
      u <- this ;;
      ipv6 <-
        (if EnableIPv6 u && (ipv6 =? "")%string then
           '(ipv6, err) <- detectIPv6 ;;
           if is_none err && negb (ipv6 =? "")%string then ret ipv6
           else
             assign (set_EnableIPv6 false) ;;
             ret ipv6
         else ret ipv6) ;;
      Run_records ipv4 ipv6
  end.

End Legacy.

(** ** The command ([main])

    What the process prints on standard output, line by line, its exit
    status and the requests it issued.  [NewDNSUpdater] and [Run] are
    those of the package the command is built with.

    [main] below is the body of the function from line 21 on, once
    [flag.Parse()] has returned with the values of the flags; what
    [flag.Parse()] itself does to the process is in [Command], further
    down. *)

Record Outcome : Type := mkOutcome {
  stdout : list string;
  exit_status : nat;
  calls : list Call
}.

Definition main {U : Type}
    (NewDNSUpdater : string -> string -> string -> string -> bool -> U)
    (Run : M U (string * option error))
    (w : World) (zoneID apiToken hostname ipAddr : string) (enableIPv6 : bool)
    : Outcome :=
  if (zoneID =? "")%string || (apiToken =? "")%string || (hostname =? "")%string
  then
    mkOutcome
      [ "missing-credentials";
        "Error: zone-id, api-token, and hostname are required" ] 1 []
  else
    let updater := NewDNSUpdater zoneID apiToken hostname ipAddr enableIPv6 in
    let '(result, err, _, trace) := Run w updater in
    match err with
    | Some e =>
        mkOutcome [ "authentication-error"; ("Error: " ++ e)%string ] 1 trace
    | None => mkOutcome [ result ] 0 trace
    end.

Definition main_refactored : World -> string -> string -> string -> string
                             -> bool -> Outcome :=
  main Refactored.NewDNSUpdater Refactored.Run.

Definition main_legacy : World -> string -> string -> string -> string
                         -> bool -> Outcome :=
  main Legacy.NewDNSUpdater Legacy.Run.

(** ** Example worlds *)

Module Examples.

Definition zone : string := "zone-1".
Definition token : string := "token-1".
Definition host : string := "home.example.org".

Definition client : CloudflareClient.t :=
  CloudflareClient.NewCloudflareClient zone token.

Definition newline : string := String "010"%char EmptyString.

(** A world in which the API answers by record type. *)
Definition world (lookups : string -> error + string)
    (interfaces : error + list Interface)
    (recordsA recordsAAAA : ApiFailure + CloudflareResponse)
    (writeA writeAAAA : ApiFailure + CloudflareUpdateResponse) : World :=
  mkWorld lookups interfaces
    (fun url _ =>
       if (url =? CloudflareClient.records_url client "AAAA" host)%string
       then recordsAAAA else recordsA)
    (fun _ _ _ body =>
       if (DNSRecord.Type_ body =? "AAAA")%string then writeAAAA else writeA).

(** Lookup endpoints: the first IPv4 endpoint is down, the second answers
    with a page, the third with the address and a line feed; the first IPv6
    endpoint answers with the address. *)
Definition lookups (service : string) : error + string :=
  if (service =? "https://api.ipify.org")%string then inl "connection refused"
  else if (service =? "https://v4.ident.me/")%string then inr "<html>busy</html>"
  else if (service =? "https://ipv4.icanhazip.com/")%string
  then inr ("203.0.113.7" ++ newline)%string
  else if (service =? "https://api6.ipify.org")%string then inr "2001:db8::7"
  else inl "no such host".

(** No endpoint answers. *)
Definition offline (service : string) : error + string := inl "network unreachable".

(** Only the IPv4 endpoints answer. *)
Definition lookups_v4_only (service : string) : error + string :=
  if (service =? "https://api.ipify.org")%string then inr "203.0.113.7"
  else inl "no such host".

Definition no_interfaces : error + list Interface := inl "permission denied".

Definition loopback_only : error + list Interface :=
  inr [ mkInterface true true
          (inr [ mkIfaceAddr true false false true false "::1" ]) ].

Definition found (records : list DNSRecord.t) : ApiFailure + CloudflareResponse :=
  inr (mkCloudflareResponse true records).

Definition answered (success : bool) : ApiFailure + CloudflareUpdateResponse :=
  inr (mkCloudflareUpdateResponse success (DNSRecord.mk "" "" "" "" false)).

Definition recordA (content : string) (proxied : bool) : DNSRecord.t :=
  DNSRecord.mk "abc" "A" host content proxied.

Definition recordAAAA (content : string) (proxied : bool) : DNSRecord.t :=
  DNSRecord.mk "def" "AAAA" host content proxied.

Definition updater (ipAddr : string) (enableIPv6 : bool) : Refactored.DNSUpdater :=
  Refactored.NewDNSUpdater zone token host ipAddr enableIPv6.

Definition legacy_updater (ipAddr : string) (enableIPv6 : bool) : Legacy.DNSUpdater :=
  Legacy.NewDNSUpdater zone token host ipAddr enableIPv6.

(** Both families are detected; the A record is out of date, there is no
    AAAA record. *)
Definition both_stale (writeA writeAAAA : ApiFailure + CloudflareUpdateResponse)
    : World :=
  world lookups no_interfaces
    (found [recordA "203.0.113.1" false]) (found [])
    writeA writeAAAA.

(** The A record has the detected address; IPv6 cannot be detected. *)
Definition up_to_date : World :=
  world lookups_v4_only loopback_only
    (found [recordA "203.0.113.7" true]) (found [])
    (answered false) (answered false).

(** No lookup endpoint answers and the interfaces cannot be listed. *)
Definition cut_off : World :=
  world offline no_interfaces
    (found []) (found [])
    (answered true) (answered true).

End Examples.

(** ** Vocabulary of the statements

    Observations of one step of a run, and the reading of the address
    grammar that the validation functions are compared with. *)

Import IPDetector.

(** An octet as [IsIPv4] reads it: one digit, two digits, or three digits
    that do not start with a zero and have a value of at most 255. *)
Definition octet_ok (o : list ascii) : bool :=
  match o with
  | [a] => is_digit a
  | [a; b] => is_digit a && is_digit b
  | [a; b; c] =>
      is_digit a && is_digit b && is_digit c
      && negb (byte_of a =? 48)%N
      && (100 * digit_val a + 10 * digit_val b + digit_val c <=? 255)%N
  | _ => false
  end.

Definition dot : ascii := "."%char.

(** Four such octets separated by dots. *)
Definition dotted_quad (s : list ascii) : Prop :=
  exists o1 o2 o3 o4,
    s = o1 ++ dot :: o2 ++ dot :: o3 ++ dot :: o4
    /\ octet_ok o1 = true /\ octet_ok o2 = true
    /\ octet_ok o3 = true /\ octet_ok o4 = true.

(** The dotted-quad grammar in the words of the specification: four
    fields separated by dots, each a decimal numeral of value at most 255;
    [leading_zeros] says whether a numeral may start with zeros. *)
Module Spec.

Fixpoint split_dots (field s : list ascii) : list (list ascii) :=
  match s with
  | [] => [rev field]
  | c :: rest =>
      if net.is_dot c then rev field :: split_dots [] rest
      else split_dots (c :: field) rest
  end.

Definition decimal_value (o : list ascii) : N :=
  fold_left (fun acc c => (acc * 10 + digit_val c)%N) o 0%N.

Definition decimal_octet (leading_zeros : bool) (o : list ascii) : bool :=
  negb (is_nil o) && forallb is_digit o && (decimal_value o <=? 255)%N
  && (leading_zeros || (length o =? 1)
      || match o with c :: _ => negb (byte_of c =? 48)%N | [] => false end).

Definition dotted_quad (leading_zeros : bool) (s : string) : bool :=
  let fields := split_dots [] (bytes s) in
  (length fields =? 4) && forallb (decimal_octet leading_zeros) fields.

End Spec.

(** Octets without a leading zero, as [net.ParseIP] requires them. *)
Definition canonical_octet (o : list ascii) : bool :=
  match o with
  | [a] => is_digit a
  | [a; b] => is_digit a && is_digit b && negb (byte_of a =? 48)%N
  | [a; b; c] =>
      is_digit a && is_digit b && is_digit c
      && negb (byte_of a =? 48)%N
      && (100 * digit_val a + 10 * digit_val b + digit_val c <=? 255)%N
  | _ => false
  end.

(** The value of an octet, and octets written one after the other with
    dots between them. *)
Definition octet_value (o : list ascii) : N :=
  fold_left (fun acc c => (acc * 10 + digit_val c)%N) o 0%N.

Fixpoint join_dots (octets : list (list ascii)) : list ascii :=
  match octets with
  | [] => []
  | [o] => o
  | o :: rest => o ++ dot :: join_dots rest
  end.

(** The state of the scan of [net.parseIPv4Fields] after it has read whole
    octets and then the characters [cur] of the next one, with [s] left to
    read and [pos] octets stored. *)
Definition scanning (cur : list ascii) (val : N) (digLen : nat)
    (first prevDot : bool) (s : list ascii) (pos : nat) : Prop :=
  (cur = [] /\ val = 0%N /\ digLen = 0 /\ first || prevDot = true
   /\ (s <> [] \/ pos < 3))
  \/ (canonical_octet cur = true /\ val = octet_value cur
      /\ digLen = length cur /\ first = false /\ prevDot = false).

(** An endpoint the detection loop goes past: the request fails, or the
    trimmed body does not validate. *)
Definition skipped (valid : string -> bool) (w : World) (service : string) : Prop :=
  match http_get w service with
  | inl _ => True
  | inr body => valid (strings.TrimSpace body) = false
  end.

(** The two detectors, by address family. *)
Inductive Family : Type := V4 | V6.

Definition services (f : Family) : list string :=
  match f with V4 => ipv4Services | V6 => ipv6Services end.

Definition validates (f : Family) : string -> bool :=
  match f with V4 => IsIPv4 | V6 => IsIPv6 end.

Definition Detect (f : Family) : IO (string * option error) :=
  match f with V4 => DetectIPv4 | V6 => DetectIPv6 end.

(** Observations on the refactored updater. *)
Module RefactoredNotions.
Import Refactored.

Definition ListCall (c : CloudflareClient.t) (recordType hostname : string) : Call :=
  ApiCall GET (CloudflareClient.records_url c recordType hostname)
    (CloudflareClient.apiToken c) None.

Definition CreateCall (c : CloudflareClient.t) (recordType hostname content : string)
    (proxied : bool) : Call :=
  ApiCall POST (CloudflareClient.create_url c) (CloudflareClient.apiToken c)
    (Some (DNSRecord.mk "" recordType hostname content proxied)).

Definition UpdateCall (c : CloudflareClient.t)
    (recordID recordType hostname content : string) (proxied : bool) : Call :=
  ApiCall PUT (CloudflareClient.update_url c recordID) (CloudflareClient.apiToken c)
    (Some (DNSRecord.mk "" recordType hostname content proxied)).

(** What the provider answers to the updater's query for the current
    record of a type, and to the mutation of a record. *)
Definition currentRecord (w : World) (u : DNSUpdater) (recordType : string)
    : option DNSRecordInfo.t * option error :=
  fst (fst (getCurrentRecord recordType w u)).

Definition mutation (w : World) (u : DNSUpdater) (recordType : string)
    (record : option DNSRecordInfo.t) (ipContent : string) : bool * option error :=
  fst (fst (updateRecord recordType record ipContent w u)).

(** The request [updateRecord] issues. *)
Definition mutationCall (u : DNSUpdater) (recordType : string)
    (record : option DNSRecordInfo.t) (ipContent : string) : Call :=
  match record with
  | None => CreateCall (cfClient u) recordType (Hostname u) ipContent true
  | Some r =>
      UpdateCall (cfClient u) (DNSRecordInfo.ID r) recordType (Hostname u)
        ipContent (DNSRecordInfo.Proxied r)
  end.

(** A family requires a change when it is enabled, an address was
    resolved and there is no record with that content. *)
Definition requiresChange (enabled : bool) (ip : string)
    (record : option DNSRecordInfo.t) : bool :=
  enabled && negb (ip =? "")%string && nilOrDiffers record ip.

(** The combination of the two results at the end of [updateRecords]. *)
Definition combine (r4 r6 : bool * option error) : string * option error :=
  match r4 with
  | (false, Some e) => (StatusAuthError, Some ("update IPv4 record: " ++ e)%string)
  | (v4Success, _) =>
      match r6 with
      | (false, Some e) =>
          (StatusAuthError, Some ("update IPv6 record: " ++ e)%string)
      | (v6Success, _) =>
          if v4Success || v6Success then (StatusGood, None)
          else (StatusAuthError, Some "failed to update DNS records")
      end
  end.

(** The IPv4 address of the run is [ipv4]: given explicitly, or the bare
    answer of the first IPv4 endpoint. *)
Definition resolves (w : World) (ipAddr ipv4 : string) : Prop :=
  IsIPv4 ipv4 = true
  /\ (ipAddr = ipv4
      \/ (ipAddr = "" /\ http_get w "https://api.ipify.org" = inr ipv4)).

(** The requests for the A record of the updater's host. *)
Definition typeA_call (u : DNSUpdater) (c : Call) : Prop :=
  c = ListCall (cfClient u) RecordTypeA (Hostname u)
  \/ exists record ip, c = mutationCall u RecordTypeA record ip.

End RefactoredNotions.

(** Observations on the single-file updater. *)
Module LegacyNotions.
Import Legacy.

(** What the provider answers to the three methods. *)
Definition records (w : World) (u : DNSUpdater) (recordType : string)
    : list DNSRecord.t * option error :=
  fst (fst (getRecords recordType w u)).

Definition created (w : World) (u : DNSUpdater) (recordType content : string)
    (proxied : bool) : bool * option error :=
  fst (fst (createRecord recordType content proxied w u)).

Definition updated (w : World) (u : DNSUpdater)
    (recordType recordID content : string) (proxied : bool)
    : bool * option error :=
  fst (fst (updateRecord recordType recordID content proxied w u)).

(** Whether a family is mutated, and the mutation's result. *)
Definition stale (enabled : bool) (ip recordID recordIP : string) : bool :=
  enabled && negb (ip =? "")%string
  && (negb (recordIP =? ip)%string || (recordID =? "")%string).

Definition mutated (w : World) (u : DNSUpdater) (recordType ip recordID : string)
    (recordProxied : bool) : bool * option error :=
  if (recordID =? "")%string then created w u recordType ip true
  else updated w u recordType recordID ip recordProxied.

(** The result of [Run_update]. *)
Definition update_result (enabled : bool) (r4 r6 : option (bool * option error))
    : string * option error :=
  match r4 with
  | Some (_, Some e) => ("", Some e)
  | _ =>
      let updateIPv4Success :=
        match r4 with Some (ok, _) => ok | None => true end in
      match r6 with
      | Some (_, Some e) => ("", Some e)
      | _ =>
          let updateIPv6Success :=
            match r6 with Some (ok, _) => ok | None => negb enabled end in
          if updateIPv4Success || updateIPv6Success
          then ("update successful", None)
          else ("authentication_failed",
                Some "failed to update DNS records due to authentication error")
      end
  end.

End LegacyNotions.

(** Comparing the two updaters. *)
Module AgreementNotions.

(** The outcome string of a run that returned no error. *)
Definition verdict (r : string * option error) : option string :=
  match r with
  | (outcome, None) => Some outcome
  | (_, Some _) => None
  end.

Definition same_config (lu : Legacy.DNSUpdater) (ru : Refactored.DNSUpdater) : Prop :=
  Legacy.ZoneID lu = Refactored.ZoneID ru
  /\ Legacy.APIToken lu = Refactored.APIToken ru
  /\ Legacy.Hostname lu = Refactored.Hostname ru
  /\ Legacy.IPAddr lu = Refactored.IPAddr ru
  /\ Legacy.EnableIPv6 lu = Refactored.EnableIPv6 ru
  /\ Refactored.cfClient ru
     = CloudflareClient.mk (Refactored.ZoneID ru) (Refactored.APIToken ru).

(** Every record the provider lists has an identifier. *)
Definition identified_records (w : World) : Prop :=
  forall url tok resp r rest,
    api_get w url tok = inr resp -> Result resp = r :: rest ->
    DNSRecord.ID r <> "".

(** Every interface address has a textual form. *)
Definition printable_addresses (w : World) : Prop :=
  forall interfaces iface addrs addr,
    net_Interfaces w = inr interfaces -> In iface interfaces ->
    Addrs iface = inr addrs -> In addr addrs ->
    ipString addr <> "".

Definition info (r : DNSRecord.t) : Refactored.DNSRecordInfo.t :=
  Refactored.DNSRecordInfo.mk (DNSRecord.ID r) (DNSRecord.Content r)
    (DNSRecord.Proxied r).

End AgreementNotions.

(** What the command prints. *)
Module MainNotions.

(** The results of [Run] without an error. *)
Definition status_result (r : string * option error) : Prop :=
  (exists e, snd r = Some e)
  \/ r = ("no changes needed", None) \/ r = ("update successful", None).

(** The tokens the documentation promises. *)
Definition public_token (line : string) : Prop :=
  line = "good" \/ line = "nochg" \/ line = "badauth".

(** What the command prints: a first line out of four, and no line that
    is a public token. *)
Definition prints_status (o : Outcome) : Prop :=
  (exists first rest,
     stdout o = first :: rest
     /\ (first = "missing-credentials" \/ first = "authentication-error"
         \/ first = "no changes needed" \/ first = "update successful"))
  /\ Forall (fun line => ~ public_token line) (stdout o).

End MainNotions.

(** ** Vocabulary of the detector's behaviour *)

Module DetectorNotions.

(** The loop over the endpoints stopped at [s]: the endpoints before it
    were skipped, [s] answered [body], and [ip], the trimmed body,
    validates; [t] are the lookups up to [s]. *)
Definition answered_by (valid : string -> bool) (w : World)
    (services : list string) (ip : string) (t : list Call) : Prop :=
  exists pre s post body,
    services = pre ++ s :: post
    /\ Forall (skipped valid w) pre
    /\ http_get w s = inr body
    /\ ip = strings.TrimSpace body
    /\ valid ip = true
    /\ t = map LookupCall (pre ++ [s]).

(** The interfaces the fallback looks at, the addresses it accepts, and
    the accepted addresses of a list of interfaces, in order. *)
Definition usable (iface : Interface) : bool :=
  FlagUp iface && negb (FlagLoopback iface).

Definition suitable (addr : IfaceAddr) : bool :=
  isIPNet addr
  && negb (hasTo4 addr) && negb (IsLinkLocalUnicast addr)
  && hasTo16 addr && IsGlobalUnicast addr.

Definition candidates (interfaces : list Interface) : list IfaceAddr :=
  flat_map
    (fun iface =>
       if usable iface then
         match Addrs iface with
         | inr addrs => filter suitable addrs
         | inl _ => []
         end
       else [])
    interfaces.

(** The result of the fallback on the interfaces, as [DetectIPv6] passes
    it on. *)
Definition fallback (w : World) : string * option error :=
  match net_Interfaces w with
  | inl _ =>
      ("", Some "no IPv6 address found from external services or local interfaces")
  | inr interfaces =>
      match candidates interfaces with
      | addr :: _ => (ipString addr, None)
      | [] =>
          ("", Some "no IPv6 address found from external services or local interfaces")
      end
  end.

End DetectorNotions.

(** ** Vocabulary of the requests of a run *)

Module RunNotions.
Import Refactored RefactoredNotions.

(** A write of the record of a type for a host, with a client. *)
Definition write_of (c : CloudflareClient.t) (recordType hostname : string)
    (call : Call) : Prop :=
  (exists content, call = CreateCall c recordType hostname content true)
  \/ (exists recordID content proxied,
        call = UpdateCall c recordID recordType hostname content proxied).

Definition at_most_one (P : Call -> Prop) (t : list Call) : Prop :=
  t = [] \/ exists call, t = [call] /\ P call.

(** The API requests of one run: none, or the query for the A record,
    then possibly the query for the AAAA record, then at most one write per
    record type, a AAAA write only after the AAAA query. *)
Definition api_requests (c : CloudflareClient.t) (hostname : string)
    (t : list Call) : Prop :=
  t = []
  \/ exists l6 m4 m6,
       t = ListCall c "A" hostname :: l6 ++ m4 ++ m6
       /\ (l6 = [] \/ l6 = [ListCall c "AAAA" hostname])
       /\ at_most_one (write_of c "A" hostname) m4
       /\ at_most_one (write_of c "AAAA" hostname) m6
       /\ (l6 = [] -> m6 = []).

(** A request of a run that only concerns IPv4: a lookup of an IPv4
    endpoint, or a request for the A record of the updater's host. *)
Definition IPv4_only (u : DNSUpdater) (call : Call) : Prop :=
  In call (map LookupCall IPDetector.ipv4Services) \/ typeA_call u call.

(** Worlds in which the provider refuses a write: the A record is out of
    date and the AAAA record is current, and the other way round. *)
Definition refused_A : World :=
  Examples.world Examples.lookups Examples.no_interfaces
    (Examples.found [Examples.recordA "203.0.113.1" false])
    (Examples.found [Examples.recordAAAA "2001:db8::7" false])
    (Examples.answered false) (Examples.answered true).

Definition refused_AAAA : World :=
  Examples.world Examples.lookups Examples.no_interfaces
    (Examples.found [Examples.recordA "203.0.113.7" false])
    (Examples.found [])
    (Examples.answered true) (Examples.answered false).

(** The provider refuses to list the AAAA records. *)
Definition unlisted_AAAA : World :=
  Examples.world Examples.lookups Examples.no_interfaces
    (Examples.found [Examples.recordA "203.0.113.1" false])
    (inr (mkCloudflareResponse false []))
    (Examples.answered true) (Examples.answered true).

End RunNotions.

(** ** Vocabulary of the single-file updater's runs and of the command *)

Module LegacyRunNotions.

(** The client a single-file updater stands for. *)
Definition client_of (u : Legacy.DNSUpdater) : CloudflareClient.t :=
  CloudflareClient.mk (Legacy.ZoneID u) (Legacy.APIToken u).

(** Every lookup endpoint answers with the same body; the provider lists
    no record and accepts every write. *)
Definition answering (body : string) : World :=
  Examples.world (fun _ => inr body) Examples.no_interfaces
    (Examples.found []) (Examples.found [])
    (Examples.answered true) (Examples.answered true).

End LegacyRunNotions.

Module CommandNotions.

(** What the command reports: exit status 0 and one line, the outcome of
    a run without an error; or exit status 1 and two lines, for missing
    parameters, before any request, or for a run that returned an error. *)
Definition reported (o : Outcome) : Prop :=
  (exit_status o = 0
   /\ (stdout o = [ "no changes needed" ] \/ stdout o = [ "update successful" ]))
  \/ (exit_status o = 1 /\ calls o = []
      /\ stdout o = [ "missing-credentials";
                      "Error: zone-id, api-token, and hostname are required" ])
  \/ (exit_status o = 1
      /\ exists e, stdout o = [ "authentication-error"; ("Error: " ++ e)%string ]).

End CommandNotions.

(** ** Vocabulary of the provider's answers *)

Module ProviderNotions.
Import RefactoredNotions.

(** The provider answers the query of a client for the records of a type
    and a host with the records [recs]. *)
Definition listed (w : World) (c : CloudflareClient.t)
    (recordType hostname : string) (recs : list DNSRecord.t) : Prop :=
  exists resp,
    api_get w (CloudflareClient.records_url c recordType hostname)
      (CloudflareClient.apiToken c) = inr resp
    /\ Success resp = true /\ Result resp = recs.

(** There is no first record, or its content is not [ip]. *)
Definition out_of_date (recs : list DNSRecord.t) (ip : string) : bool :=
  match recs with
  | [] => true
  | r :: _ => negb (DNSRecord.Content r =? ip)%string
  end.

(** The write that brings the listed records to [ip]: a create with the
    proxy flag [true] when nothing is listed, otherwise an update of the
    first record, by its identifier and with its proxy flag. *)
Definition write_for (c : CloudflareClient.t) (recordType hostname ip : string)
    (recs : list DNSRecord.t) : Call :=
  match recs with
  | [] => CreateCall c recordType hostname ip true
  | r :: _ =>
      UpdateCall c (DNSRecord.ID r) recordType hostname ip (DNSRecord.Proxied r)
  end.

(** The writes of a family: one when the family is enabled, an address
    was resolved and the listed records are out of date, none otherwise. *)
Definition writes_for (c : CloudflareClient.t) (recordType hostname : string)
    (enabled : bool) (ip : string) (recs : list DNSRecord.t) : list Call :=
  if enabled && negb (ip =? "")%string && out_of_date recs ip
  then [write_for c recordType hostname ip recs]
  else [].

(** The request of a write returns an error. *)
Definition write_failed (w : World) (call : Call) : bool :=
  match call with
  | ApiCall m url tok (Some body) =>
      match api_send w m url tok body with
      | inl _ => true
      | inr _ => false
      end
  | _ => false
  end.

(** The first listed record, if any, has an identifier. *)
Definition identified (recs : list DNSRecord.t) : Prop :=
  forall r rest, recs = r :: rest -> DNSRecord.ID r <> "".

End ProviderNotions.

(** ** Address resolution of the single-file updater

    [Run] of [internal/updater.go], lines 60 to 90, on its own: the
    addresses of the run and the error that ends it. *)

Module LegacyResolution.
Import Legacy.

Definition resolveIPs : M DNSUpdater (string * string * option error) :=
  u <- this ;;
  '(ipv4, ipv6, err) <-
    (if (IPAddr u =? "")%string then
       '(ipv4, err) <- detectIPv4 ;;
       match err with
       | Some e => ret ("", "", Some e)
       | None => ret (ipv4, "", None)
       end
     else if isIPv4 (IPAddr u) then ret (IPAddr u, "", None)
     else if isIPv6 (IPAddr u) then
       assign (set_EnableIPv6 false) ;;
       ret ("", IPAddr u, None)
     else ret ("", "", Some "invalid IP address provided")) ;;
  match err with
  | Some e => ret ("", "", Some e)
  | None =>
      u <- this ;;
      ipv6 <-
        (if EnableIPv6 u && (ipv6 =? "")%string then
           '(ipv6, err) <- detectIPv6 ;;
           if is_none err && negb (ipv6 =? "")%string then ret ipv6
           else
             assign (set_EnableIPv6 false) ;;
             ret ipv6
         else ret ipv6) ;;
      ret (ipv4, ipv6, None)
  end.

End LegacyResolution.

(** ** Worlds for the two updaters side by side *)

Module Scenes.

(** Only the first IPv6 endpoint answers; with an explicit IPv4 address
    both families are resolved. *)
Definition lookups_v6_only (service : string) : error + string :=
  if (service =? "https://api6.ipify.org")%string then inr "2001:db8::7"
  else inl "no such host".

Definition both_out_of_date
    (writeA writeAAAA : ApiFailure + CloudflareUpdateResponse) : World :=
  Examples.world lookups_v6_only Examples.no_interfaces
    (Examples.found [Examples.recordA "203.0.113.1" false])
    (Examples.found [Examples.recordAAAA "2001:db8::1" true])
    writeA writeAAAA.

(** Both records are listed and current. *)
Definition both_current : World :=
  Examples.world lookups_v6_only Examples.no_interfaces
    (Examples.found [Examples.recordA "203.0.113.7" false])
    (Examples.found [Examples.recordAAAA "2001:db8::7" true])
    (Examples.answered false) (Examples.answered false).

(** The first IPv4 endpoint answers with an empty body, the first IPv6
    endpoint with the address of the current AAAA record. *)
Definition empty_answer : World :=
  Examples.world
    (fun service =>
       if (service =? "https://api.ipify.org")%string then inr ""
       else lookups_v6_only service)
    Examples.no_interfaces
    (Examples.found [])
    (Examples.found [Examples.recordAAAA "2001:db8::7" true])
    (Examples.answered false) (Examples.answered false).

End Scenes.

(** ** The command line

    [main] starts with [flag.Parse()] on the default command line, whose
    error handling is [flag.ExitOnError]: after [-h] or [-help] the
    process exits with status 0, after a flag that does not parse with
    status 2, in both cases with the usage on standard error, nothing on
    standard output and before any request.  Otherwise the flags have
    their values, with the environment variables as defaults, and [main]
    goes on. *)

Module Command.

Inductive Invocation : Type :=
| Parsed (zoneID apiToken hostname ipAddr : string) (enableIPv6 : bool)
| HelpRequested
| BadFlag.

Definition command {U : Type}
    (NewDNSUpdater : string -> string -> string -> string -> bool -> U)
    (Run : M U (string * option error)) (w : World) (inv : Invocation)
    : Outcome :=
  match inv with
  | Parsed zoneID apiToken hostname ipAddr enableIPv6 =>
      main NewDNSUpdater Run w zoneID apiToken hostname ipAddr enableIPv6
  | HelpRequested => mkOutcome [] 0 []
  | BadFlag => mkOutcome [] 2 []
  end.

Definition command_refactored : World -> Invocation -> Outcome :=
  command Refactored.NewDNSUpdater Refactored.Run.

Definition command_legacy : World -> Invocation -> Outcome :=
  command Legacy.NewDNSUpdater Legacy.Run.

End Command.

(** ** The configured address *)

Module ConfigNotions.

(** The explicit address is an IPv6 address. *)
Definition explicit_IPv6 (ipAddr : string) : Prop :=
  ipAddr <> "" /\ IsIPv4 ipAddr = false /\ IsIPv6 ipAddr = true.

End ConfigNotions.

(** ** Vocabulary of the command line *)

Module InvocationNotions.
Import Command CommandNotions.

(** The flags were parsed and the three required parameters are there. *)
Definition complete (inv : Invocation) : Prop :=
  match inv with
  | Parsed zoneID apiToken hostname _ _ =>
      zoneID <> "" /\ apiToken <> "" /\ hostname <> ""
  | _ => False
  end.

(** What the command reports for an invocation: after a request for help
    or a flag that does not parse, nothing on standard output and no
    request, with status 0 and 2; with the flags parsed, what [main]
    reports, with status 0 or 1. *)
Definition reported_for (inv : Invocation) (o : Outcome) : Prop :=
  match inv with
  | Parsed _ _ _ _ _ => reported o
  | HelpRequested => stdout o = [] /\ calls o = [] /\ exit_status o = 0
  | BadFlag => stdout o = [] /\ calls o = [] /\ exit_status o = 2
  end.

End InvocationNotions.

(** * Properties *)

(** ** Matching by derivatives is matching *)

Module RegexpFacts.
Import Regexp.

Lemma nullable_Lang (r : regex) : nullable r = true <-> Lang r [].
Proof.
  induction r as [| | lo hi | r1 IH1 r2 IH2 | r1 IH1 r2 IH2]; simpl.
  - split; [discriminate | tauto].
  - split; reflexivity.
  - split; [discriminate | intros (c & H & _); discriminate].
  - rewrite andb_true_iff, IH1, IH2. split.
    + intros [H1 H2]. exists [], []. auto.
    + intros (s1 & s2 & H & H1 & H2). symmetry in H.
      apply app_eq_nil in H. destruct H; subst. auto.
  - rewrite orb_true_iff, IH1, IH2. reflexivity.
Qed.

Lemma deriv_Lang (c : ascii) (r : regex) :
  forall s, Lang (deriv c r) s <-> Lang r (c :: s).
Proof.
  induction r as [| | lo hi | r1 IH1 r2 IH2 | r1 IH1 r2 IH2]; intros s; simpl.
  - tauto.
  - split; [tauto | discriminate].
  - destruct (in_class lo hi c) eqn:E; simpl.
    + split.
      * intros ->. exists c. auto.
      * intros (c' & H & _). now inversion H.
    + split; [tauto |].
      intros (c' & H & H'). inversion H; subst. congruence.
  - assert (Hcat : Lang (Cat (deriv c r1) r2) s <->
                   exists s1 s2, c :: s = (c :: s1) ++ s2 /\ Lang r1 (c :: s1) /\ Lang r2 s2).
    { simpl. split.
      - intros (s1 & s2 & -> & H1 & H2). exists s1, s2. rewrite <- IH1. auto.
      - intros (s1 & s2 & H & H1 & H2). exists s1, s2. rewrite IH1.
        inversion H. auto. }
    destruct (nullable r1) eqn:E.
    + change (Lang (Alt (Cat (deriv c r1) r2) (deriv c r2)) s)
        with (Lang (Cat (deriv c r1) r2) s \/ Lang (deriv c r2) s).
      rewrite Hcat, IH2. split.
      * intros [(s1 & s2 & H & H1 & H2) | H].
        -- exists (c :: s1), s2. auto.
        -- exists [], (c :: s). apply nullable_Lang in E. auto.
      * intros (s1 & s2 & H & H1 & H2). destruct s1 as [| c' s1].
        -- right. simpl in H. now subst.
        -- left. inversion H; subst. exists s1, s2. auto.
    + rewrite Hcat. split.
      * intros (s1 & s2 & H & H1 & H2). exists (c :: s1), s2. auto.
      * intros (s1 & s2 & H & H1 & H2). destruct s1 as [| c' s1].
        -- apply nullable_Lang in H1. congruence.
        -- inversion H; subst. exists s1, s2. auto.
  - rewrite IH1, IH2. reflexivity.
Qed.

Lemma matches_Lang (s : list ascii) :
  forall r, matches r s = true <-> Lang r s.
Proof.
  induction s as [| c s IH]; intros r; simpl.
  - apply nullable_Lang.
  - rewrite IH. apply deriv_Lang.
Qed.

End RegexpFacts.

(** ** Address validation *)

Import Regexp.

Lemma byte_of_inj (a b : ascii) : byte_of a = byte_of b -> a = b.
Proof.
  unfold byte_of. intros H.
  rewrite <- (ascii_N_embedding a), <- (ascii_N_embedding b). now rewrite H.
Qed.

Ltac boolprop :=
  repeat match goal with
  | H : _ && _ = true |- _ => apply andb_true_iff in H; destruct H
  | H : negb _ = true |- _ => apply negb_true_iff in H
  | H : (_ <=? _)%N = true |- _ => apply N.leb_le in H
  | H : (_ =? _)%N = true |- _ => apply N.eqb_eq in H
  | H : (_ =? _)%N = false |- _ => apply N.eqb_neq in H
  | |- _ && _ = true => apply andb_true_iff; split
  | |- negb _ = true => apply negb_true_iff
  | |- (_ <=? _)%N = true => apply N.leb_le
  | |- (_ =? _)%N = true => apply N.eqb_eq
  | |- (_ =? _)%N = false => apply N.eqb_neq
  end.

Lemma Lang_Class lo hi c : in_class lo hi c = true -> Lang (Class lo hi) [c].
Proof. intros H. exists c. auto. Qed.

Lemma Lang_Cat r1 r2 s1 s2 :
  Lang r1 s1 -> Lang r2 s2 -> Lang (Cat r1 r2) (s1 ++ s2).
Proof. intros H1 H2. exists s1, s2. auto. Qed.

Lemma octet_Lang (o : list ascii) : Lang octet_regex o <-> octet_ok o = true.
Proof.
  split.
  - unfold octet_regex. cbn [Lang Repeat Times UpTo Opt Lit Nat.sub].
    intros H.
    repeat match goal with
    | H : exists _, _ |- _ => destruct H
    | H : _ /\ _ |- _ => destruct H
    | H : _ \/ _ |- _ => destruct H
    end; subst; cbn [app octet_ok];
    unfold in_class, is_digit, digit_val in *;
    change (byte_of "0") with 48%N in *; change (byte_of "1") with 49%N in *;
    change (byte_of "2") with 50%N in *; change (byte_of "4") with 52%N in *;
    change (byte_of "5") with 53%N in *; change (byte_of "9") with 57%N in *;
    boolprop; lia.
  - destruct o as [| a [| b [| c [| d o]]]]; cbn [octet_ok]; try discriminate;
      unfold is_digit, digit_val; intros H; boolprop.
    + right. apply (Lang_Cat _ _ [] [a]).
      * apply (Lang_Cat _ _ [] []); [reflexivity | right; reflexivity].
      * apply Lang_Class. unfold in_class.
        change (byte_of "0") with 48%N; change (byte_of "9") with 57%N.
        boolprop; lia.
    + right. apply (Lang_Cat _ _ [a] [b]).
      * apply (Lang_Cat _ _ [] [a]); [reflexivity |].
        left. apply (Lang_Cat _ _ [a] []); [| reflexivity].
        right. apply (Lang_Cat _ _ [] [a]).
        -- apply (Lang_Cat _ _ [] []); [reflexivity | right; reflexivity].
        -- apply Lang_Class. unfold in_class.
           change (byte_of "0") with 48%N; change (byte_of "9") with 57%N.
           boolprop; lia.
      * apply Lang_Class. unfold in_class.
        change (byte_of "0") with 48%N; change (byte_of "9") with 57%N.
        boolprop; lia.
    + assert (Hc : (byte_of a = 49 \/ (byte_of a = 50 /\ byte_of b <= 52)
                    \/ (byte_of a = 50 /\ byte_of b = 53 /\ byte_of c <= 53))%N)
        by lia.
      destruct Hc as [Ha | [[Ha Hb] | (Ha & Hb & Hc)]].
      * right. apply (Lang_Cat _ _ [a; b] [c]).
        -- apply (Lang_Cat _ _ [] [a; b]); [reflexivity |].
           left. apply (Lang_Cat _ _ [a; b] []); [| reflexivity].
           right. apply (Lang_Cat _ _ [a] [b]).
           ++ apply (Lang_Cat _ _ [] [a]); [reflexivity |].
              left. apply (Lang_Cat _ _ [a] []); [| reflexivity].
              apply Lang_Class. unfold in_class.
              change (byte_of "1") with 49%N. boolprop; lia.
           ++ apply Lang_Class. unfold in_class.
              change (byte_of "0") with 48%N; change (byte_of "9") with 57%N.
              boolprop; lia.
        -- apply Lang_Class. unfold in_class.
           change (byte_of "0") with 48%N; change (byte_of "9") with 57%N.
           boolprop; lia.
      * right. apply (Lang_Cat _ _ [a; b] [c]).
        -- apply (Lang_Cat _ _ [] [a; b]); [reflexivity |].
           left. apply (Lang_Cat _ _ [a; b] []); [| reflexivity].
           left. apply (Lang_Cat _ _ [a] [b]).
           ++ apply Lang_Class. unfold in_class.
              change (byte_of "2") with 50%N. boolprop; lia.
           ++ apply Lang_Class. unfold in_class.
              change (byte_of "0") with 48%N; change (byte_of "4") with 52%N.
              boolprop; lia.
        -- apply Lang_Class. unfold in_class.
           change (byte_of "0") with 48%N; change (byte_of "9") with 57%N.
           boolprop; lia.
      * left. apply (Lang_Cat _ _ [a] [b; c]).
        -- apply Lang_Class. unfold in_class.
           change (byte_of "2") with 50%N. boolprop; lia.
        -- apply (Lang_Cat _ _ [b] [c]).
           ++ apply Lang_Class. unfold in_class.
              change (byte_of "5") with 53%N. boolprop; lia.
           ++ apply Lang_Class. unfold in_class.
              change (byte_of "0") with 48%N; change (byte_of "5") with 53%N.
              boolprop; lia.
Qed.

Lemma Lang_dot (s : list ascii) : Lang (Lit ".") s <-> s = [dot].
Proof.
  unfold Lit. cbn [Lang]. unfold in_class. split.
  - intros (c & -> & H). boolprop. f_equal. apply byte_of_inj.
    change (byte_of ".") with 46%N in *. change (byte_of dot) with 46%N. lia.
  - intros ->. exists dot. split; [reflexivity | reflexivity].
Qed.

Lemma ipv4_Lang (s : list ascii) : Lang ipv4_regex s <-> dotted_quad s.
Proof.
  unfold ipv4_regex, dotted_quad.
  cbn [Lang Repeat Times UpTo Nat.sub]. split.
  - intros H.
    repeat match goal with
    | H : exists _, _ |- _ => destruct H
    | H : _ /\ _ |- _ => destruct H
    | H : Lang (Lit ".") _ |- _ => apply Lang_dot in H
    | H : Lang octet_regex _ |- _ => apply octet_Lang in H
    end; subst.
    match goal with
    | |- exists _ _ _ _, (((?a ++ _) ++ (?b ++ _) ++ (?c ++ _) ++ _) ++ _) ++ ?d = _ /\ _ =>
        exists a, b, c, d
    end.
    split; [| auto].
    repeat rewrite <- app_assoc. cbn [app]. rewrite ?app_nil_r. reflexivity.
  - intros (o1 & o2 & o3 & o4 & -> & H1 & H2 & H3 & H4).
    apply octet_Lang in H1, H2, H3, H4.
    exists ((o1 ++ [dot]) ++ (o2 ++ [dot]) ++ (o3 ++ [dot])), o4.
    split. { repeat rewrite <- app_assoc. reflexivity. }
    split; [| assumption].
    exists ((o1 ++ [dot]) ++ (o2 ++ [dot]) ++ (o3 ++ [dot])), [].
    split. { now rewrite app_nil_r. }
    split; [| reflexivity].
    exists (o1 ++ [dot]), ((o2 ++ [dot]) ++ (o3 ++ [dot])). split; [reflexivity |].
    split. { exists o1, [dot]. rewrite Lang_dot. auto. }
    exists (o2 ++ [dot]), (o3 ++ [dot]). split; [reflexivity |].
    split. { exists o2, [dot]. rewrite Lang_dot. auto. }
    exists (o3 ++ [dot]), []. split. { now rewrite app_nil_r. }
    split; [| reflexivity].
    exists o3, [dot]. rewrite Lang_dot. auto.
Qed.

Lemma IsIPv4_dotted_quad (a : string) : IsIPv4 a = true <-> dotted_quad (bytes a).
Proof.
  unfold IsIPv4, MatchString. rewrite RegexpFacts.matches_Lang. apply ipv4_Lang.
Qed.

Lemma octet_ok_digits (o : list ascii) :
  octet_ok o = true -> forallb is_digit o = true /\ o <> [].
Proof.
  destruct o as [| a [| b [| c [| d o]]]]; cbn [octet_ok forallb];
    try discriminate; intros H; boolprop;
    repeat match goal with E : is_digit _ = true |- _ => rewrite E; clear E end;
    (split; [reflexivity | discriminate]).
Qed.

Lemma digit_not_separator (c : ascii) :
  is_digit c = true ->
  net.is_dot c = false /\ net.is_colon c = false /\ net.is_percent c = false.
Proof.
  unfold is_digit, net.is_dot, net.is_colon, net.is_percent. intros H.
  boolprop. repeat split; boolprop; lia.
Qed.

Lemma ParseAddr_from_digits (whole o rest : list ascii) :
  forallb is_digit o = true ->
  net.ParseAddr_from whole (o ++ dot :: rest) = net.parseIPv4 whole.
Proof.
  induction o as [| c o IH]; cbn [app forallb net.ParseAddr_from].
  - reflexivity.
  - intros H. boolprop.
    destruct (digit_not_separator c) as (-> & -> & ->); auto.
Qed.

Lemma no_percent_digits (o : list ascii) :
  forallb is_digit o = true -> existsb net.is_percent o = false.
Proof.
  induction o as [| c o IH]; cbn [forallb existsb]; [reflexivity |].
  intros H. boolprop.
  destruct (digit_not_separator c) as (_ & _ & ->); auto.
Qed.

Lemma dotted_quad_ParseIP (a : string) :
  dotted_quad (bytes a) -> net.ParseIP a = net.parseIPv4 (bytes a).
Proof.
  intros (o1 & o2 & o3 & o4 & E & H1 & H2 & H3 & H4).
  apply octet_ok_digits in H1, H2, H3, H4.
  destruct H1 as [H1 _], H2 as [H2 _], H3 as [H3 _], H4 as [H4 _].
  unfold net.ParseIP.
  assert (P : existsb net.is_percent (bytes a) = false).
  { rewrite E. repeat (rewrite existsb_app; cbn [existsb]).
    rewrite !no_percent_digits by assumption. reflexivity. }
  rewrite P. rewrite E at 2. now apply ParseAddr_from_digits.
Qed.

Lemma parseIPv4Fields_length (s : list ascii) :
  forall first prevDot val digLen pos fields fs,
    net.parseIPv4Fields s first prevDot val digLen pos fields = Some fs ->
    length fields = pos -> pos <= 3 -> length fs = 4.
Proof.
  induction s as [| c s IH]; intros first prevDot val digLen pos fields fs;
    cbn [net.parseIPv4Fields].
  - destruct (Nat.ltb_spec pos 3); [discriminate |].
    intros [= <-] Hl Hp. rewrite length_app. cbn. lia.
  - destruct (is_digit c).
    + destruct ((digLen =? 1) && (val =? 0)%N); [discriminate |].
      destruct (255 <? val * 10 + digit_val c)%N; [discriminate |].
      apply IH.
    + destruct (net.is_dot c); [| discriminate].
      destruct (first || is_nil s || prevDot); [discriminate |].
      destruct (Nat.eqb_spec pos 3); [discriminate |].
      intros H Hl Hp. eapply IH; eauto.
      * rewrite length_app. cbn. lia.
      * lia.
Qed.

Lemma parseIPv4_To4 (s : list ascii) (ip : net.IP) :
  net.parseIPv4 s = Some ip -> net.To4 ip <> None.
Proof.
  unfold net.parseIPv4.
  destruct (net.parseIPv4Fields s true false 0 0 0 []) as [fs |] eqn:E;
    [| discriminate].
  intros [= <-].
  apply parseIPv4Fields_length in E; [| reflexivity | lia].
  destruct fs as [| a [| b [| c [| d [| e fs]]]]]; discriminate.
Qed.

Lemma IsIPv4_not_IsIPv6 (a : string) : IsIPv4 a = true -> IsIPv6 a = false.
Proof.
  intros H. apply IsIPv4_dotted_quad in H. unfold IsIPv6.
  rewrite (dotted_quad_ParseIP a H).
  destruct (net.parseIPv4 (bytes a)) as [ip |] eqn:E; [| reflexivity].
  apply parseIPv4_To4 in E. destruct (net.To4 ip); [reflexivity | congruence].
Qed.

Lemma canonical_octet_ok (o : list ascii) :
  canonical_octet o = true -> octet_ok o = true.
Proof.
  destruct o as [| a [| b [| c [| d o]]]]; cbn [canonical_octet octet_ok];
    try discriminate; auto.
  intros H. boolprop; assumption.
Qed.

Lemma canonical_snoc (cur : list ascii) (c : ascii) :
  canonical_octet cur = true -> is_digit c = true ->
  (length cur =? 1) && (octet_value cur =? 0)%N = false ->
  (255 <? octet_value cur * 10 + digit_val c)%N = false ->
  canonical_octet (cur ++ [c]) = true.
Proof.
  destruct cur as [| a [| b [| d [| e cur]]]];
    cbn [canonical_octet app length Nat.eqb andb]; try discriminate;
    unfold octet_value; cbn [fold_left]; unfold is_digit, digit_val;
    intros H Hc H1 H2; apply N.ltb_ge in H2; boolprop; try assumption; lia.
Qed.

Lemma parseIPv4Fields_octets (s : list ascii) :
  forall first prevDot val digLen pos fields fs cur,
    net.parseIPv4Fields s first prevDot val digLen pos fields = Some fs ->
    pos <= 3 ->
    scanning cur val digLen first prevDot s pos ->
    exists octets,
      cur ++ s = join_dots octets /\ length octets = 4 - pos
      /\ Forall (fun o => canonical_octet o = true) octets.
Proof.
  induction s as [| c s IH]; intros first prevDot val digLen pos fields fs cur;
    cbn [net.parseIPv4Fields].
  - destruct (Nat.ltb_spec pos 3); [discriminate |].
    intros _ Hp [(-> & _ & _ & _ & [Hs | Hs]) | (Hc & _)]; try congruence; try lia.
    exists [cur]. rewrite app_nil_r.
    split; [reflexivity |]. split; [cbn [length]; lia |]. constructor; auto.
  - destruct (is_digit c) eqn:Ed.
    + destruct ((digLen =? 1) && (val =? 0)%N) eqn:Ez; [discriminate |].
      destruct (255 <? val * 10 + digit_val c)%N eqn:Ev; [discriminate |].
      intros H Hp Hs.
      destruct (IH _ _ _ _ _ _ _ (cur ++ [c]) H Hp) as (octets & E & Hl & Hf).
      { right. destruct Hs as [(-> & -> & -> & _) | (Hc & -> & -> & _ & _)].
        - cbn [app canonical_octet]. repeat split; auto.
        - repeat split; auto.
          + now apply canonical_snoc.
          + unfold octet_value. now rewrite fold_left_app.
          + rewrite length_app. cbn [length]. lia. }
      exists octets. rewrite <- app_assoc in E. auto.
    + destruct (net.is_dot c) eqn:Edot; [| discriminate].
      destruct (first || is_nil s || prevDot) eqn:Eb; [discriminate |].
      destruct (Nat.eqb_spec pos 3); [discriminate |].
      apply orb_false_iff in Eb. destruct Eb as [Eb Ep].
      apply orb_false_iff in Eb. destruct Eb as [Ef En].
      intros H Hp Hs.
      assert (c = dot) as ->.
      { apply byte_of_inj. unfold net.is_dot in Edot. boolprop. exact Edot. }
      destruct (IH _ _ _ _ _ _ _ [] H) as (octets & E & Hl & Hf).
      { lia. }
      { left. repeat split; auto. left. destruct s; [discriminate | congruence]. }
      destruct Hs as [(_ & _ & _ & Hs & _) | (Hc & _)].
      { rewrite Ef, Ep in Hs. discriminate. }
      exists (cur :: octets). cbn [app] in E. repeat split.
      * destruct octets as [| o octets]; [cbn [length] in Hl; lia |].
        cbn [join_dots]. now rewrite E.
      * cbn [length]. lia.
      * constructor; auto.
Qed.

Lemma join_dots_four (octets : list (list ascii)) (s : list ascii) :
  s = join_dots octets -> length octets = 4 ->
  Forall (fun o => canonical_octet o = true) octets ->
  dotted_quad s.
Proof.
  destruct octets as [| o1 [| o2 [| o3 [| o4 [| o5 octets]]]]]; try discriminate.
  intros -> _ H.
  repeat match goal with
  | H : Forall _ (_ :: _) |- _ => inversion H; clear H; subst
  end.
  exists o1, o2, o3, o4. cbn [join_dots].
  repeat split; auto using canonical_octet_ok.
Qed.

Lemma parseIPv4_dotted_quad (s : list ascii) (ip : net.IP) :
  net.parseIPv4 s = Some ip -> dotted_quad s.
Proof.
  unfold net.parseIPv4.
  destruct (net.parseIPv4Fields s true false 0 0 0 []) as [fs |] eqn:E;
    [| discriminate].
  intros _.
  destruct (parseIPv4Fields_octets s _ _ _ _ _ _ _ [] E) as (octets & Hj & Hl & Hf).
  - lia.
  - left. repeat split; auto.
  - apply (join_dots_four octets); auto.
Qed.

Lemma dotted_quad_no_colon (s : list ascii) :
  dotted_quad s -> existsb net.is_colon s = false.
Proof.
  assert (D : forall o, octet_ok o = true -> existsb net.is_colon o = false).
  { intros o H. apply octet_ok_digits in H. destruct H as [H _].
    induction o as [| c o IH]; cbn [forallb existsb] in *; [reflexivity |].
    boolprop. destruct (digit_not_separator c) as (_ & -> & _); auto. }
  intros (o1 & o2 & o3 & o4 & -> & H1 & H2 & H3 & H4).
  repeat (rewrite existsb_app; cbn [existsb]).
  rewrite !D by assumption. reflexivity.
Qed.

Lemma ParseAddr_from_cases (whole s : list ascii) (ip : net.IP) :
  net.ParseAddr_from whole s = Some ip ->
  net.parseIPv4 whole = Some ip
  \/ (net.parseIPv6 whole = Some ip /\ existsb net.is_colon s = true).
Proof.
  induction s as [| c s IH]; cbn [net.ParseAddr_from existsb]; [discriminate |].
  destruct (net.is_dot c); [auto |].
  destruct (net.is_colon c); [auto |].
  destruct (net.is_percent c); [discriminate |].
  intros H. destruct (IH H) as [? | [? ?]]; auto.
Qed.

(** An address literal that [net.ParseIP] accepts satisfies exactly one of
    the two tests, unless it is written with colons and denotes an
    IPv4-mapped address: then neither holds. *)
Lemma ParseIP_family (a : string) (ip : net.IP) :
  net.ParseIP a = Some ip ->
  (IsIPv4 a = true /\ IsIPv6 a = false)
  \/ (IsIPv4 a = false /\ IsIPv6 a = true)
  \/ (IsIPv4 a = false /\ IsIPv6 a = false
      /\ existsb net.is_colon (bytes a) = true /\ net.To4 ip <> None).
Proof.
  intros H. assert (H' := H). unfold net.ParseIP in H'.
  destruct (existsb net.is_percent (bytes a)); [discriminate |].
  apply ParseAddr_from_cases in H'. destruct H' as [H4 | [H6 Hc]].
  - left. apply parseIPv4_dotted_quad in H4. apply IsIPv4_dotted_quad in H4.
    split; [assumption | now apply IsIPv4_not_IsIPv6].
  - right.
    assert (N4 : IsIPv4 a = false).
    { destruct (IsIPv4 a) eqn:E; [| reflexivity].
      apply IsIPv4_dotted_quad, dotted_quad_no_colon in E. congruence. }
    unfold IsIPv6. rewrite H.
    destruct (net.To4 ip) eqn:E4; cbn [is_none].
    + right. repeat split; auto. discriminate.
    + left. auto.
Qed.

(** A string whose first byte starts none of the encodings is left alone. *)
Lemma strip_space_first (encs : list (list N)) (c : ascii) (l : list ascii) :
  Forall (fun p => exists b p', p = b :: p' /\ byte_of c <> b) encs ->
  strings.strip_space encs (c :: l) = None.
Proof.
  induction 1 as [| p encs (b & p' & -> & Hb) _ IH]; [reflexivity |].
  cbn [strings.strip_space strings.strip_prefix].
  destruct (N.eqb_spec (byte_of c) b) as [E | _]; [contradiction | exact IH].
Qed.

Lemma strip_space_digit (c : ascii) (l : list ascii) :
  is_digit c = true ->
  strings.strip_space strings.space_encodings (c :: l) = None
  /\ strings.strip_space (map (@rev N) strings.space_encodings) (c :: l) = None.
Proof.
  unfold is_digit. intros H. boolprop.
  split; apply strip_space_first;
    cbn [strings.space_encodings map rev app];
    repeat (constructor; [do 2 eexists; split; [reflexivity | lia] |]);
    constructor.
Qed.

Lemma TrimLeft_digit (c : ascii) (l : list ascii) :
  is_digit c = true -> strings.TrimLeft (c :: l) = c :: l.
Proof.
  intros H. destruct (strip_space_digit c l H) as [S _].
  unfold strings.TrimLeft. cbn [length strings.trim_left]. now rewrite S.
Qed.

Lemma TrimRight_digit (s : list ascii) (c : ascii) (l : list ascii) :
  rev s = c :: l -> is_digit c = true -> strings.TrimRight s = s.
Proof.
  intros E H. destruct (strip_space_digit c l H) as [_ S].
  unfold strings.TrimRight. rewrite E.
  destruct (length s); cbn [strings.trim_left]; rewrite ?S, <- E;
    apply rev_involutive.
Qed.

Lemma rev_digits (o : list ascii) :
  forallb is_digit o = true -> o <> [] ->
  exists c l, rev o = c :: l /\ is_digit c = true.
Proof.
  intros H Hne. destruct (rev o) as [| c l] eqn:E.
  - apply (f_equal (@rev ascii)) in E. rewrite rev_involutive in E. now subst.
  - exists c, l. split; [reflexivity |].
    rewrite forallb_forall in H. apply H, in_rev. rewrite E. now left.
Qed.

(** An address that [IsIPv4] accepts has no white space to trim. *)
Lemma TrimSpace_IsIPv4 (a : string) :
  IsIPv4 a = true -> strings.TrimSpace a = a.
Proof.
  intros H. apply IsIPv4_dotted_quad in H.
  destruct H as (o1 & o2 & o3 & o4 & E & H1 & _ & _ & H4).
  apply octet_ok_digits in H1, H4.
  destruct H1 as [D1 N1], H4 as [D4 N4].
  destruct o1 as [| c1 o1]; [congruence |].
  cbn [forallb] in D1. apply andb_prop in D1. destruct D1 as [D1 _].
  destruct (rev_digits o4 D4 N4) as (c4 & l4 & Er & Dc).
  cbn [app] in E.
  assert (R : rev (bytes a)
              = c4 :: (l4 ++ rev (c1 :: o1 ++ dot :: o2 ++ dot :: o3 ++ [dot]))).
  { rewrite E.
    replace (c1 :: o1 ++ dot :: o2 ++ dot :: o3 ++ dot :: o4)
      with ((c1 :: o1 ++ dot :: o2 ++ dot :: o3 ++ [dot]) ++ o4)
      by (repeat (cbn [app]; rewrite <- app_assoc); reflexivity).
    rewrite rev_app_distr, Er. reflexivity. }
  unfold strings.TrimSpace.
  replace (strings.TrimLeft (bytes a)) with (bytes a)
    by (rewrite E; symmetry; now apply TrimLeft_digit).
  rewrite (TrimRight_digit _ _ _ R Dc).
  apply string_of_list_ascii_of_string.
Qed.

(** C9 (amended). The two tests never hold together.  [IsIPv4] holds
    exactly for four octets separated by dots, an octet being one digit,
    two digits, or three digits without a leading zero and of value at most
    255.  [IsIPv6] holds exactly for the strings [net.ParseIP] accepts whose
    address has no 4-byte form.  A string [net.ParseIP] accepts satisfies
    exactly one of the tests, unless it is written with colons and denotes
    an IPv4-mapped address: then neither holds.  [IsIPv6] is false for the
    strings [net.ParseIP] rejects. *)
Theorem address_family_tests (a : string) :
  ~ (IsIPv4 a = true /\ IsIPv6 a = true)
  /\ (IsIPv4 a = true <-> dotted_quad (bytes a))
  /\ (IsIPv6 a = true <->
      exists ip, net.ParseIP a = Some ip /\ net.To4 ip = None)
  /\ (forall ip, net.ParseIP a = Some ip ->
      (IsIPv4 a = true /\ IsIPv6 a = false)
      \/ (IsIPv4 a = false /\ IsIPv6 a = true)
      \/ (IsIPv4 a = false /\ IsIPv6 a = false
          /\ existsb net.is_colon (bytes a) = true /\ net.To4 ip <> None))
  /\ (net.ParseIP a = None -> IsIPv6 a = false).
Proof.
  split; [| split; [| split; [| split]]].
  - intros [H4 H6]. apply IsIPv4_not_IsIPv6 in H4. congruence.
  - apply IsIPv4_dotted_quad.
  - unfold IsIPv6. destruct (net.ParseIP a) as [ip |].
    + destruct (net.To4 ip) eqn:E; cbn [is_none]; split.
      * discriminate.
      * intros (ip' & [= <-] & H). congruence.
      * eauto.
      * reflexivity.
    + split; [discriminate | intros (ip & H & _); discriminate].
  - apply ParseIP_family.
  - unfold IsIPv6. now intros ->.
Qed.

(** C9, as stated, fails.  An IPv4-mapped address in IPv6 syntax is a
    literal of the IPv6 family only, and neither test holds for it.  An
    octet written "01" is accepted and one written "001" is refused, so
    [IsIPv4] is the dotted-quad grammar neither with nor without leading
    zeros; and "01.2.3.4", which [net.ParseIP] rejects, satisfies [IsIPv4]. *)
Lemma address_family_tests_fail :
  (net.parseIPv6 (bytes "::ffff:1.2.3.4") <> None
   /\ net.parseIPv4 (bytes "::ffff:1.2.3.4") = None
   /\ IsIPv4 "::ffff:1.2.3.4" = false /\ IsIPv6 "::ffff:1.2.3.4" = false)
  /\ (Spec.dotted_quad true "001.2.3.4" = true /\ IsIPv4 "001.2.3.4" = false)
  /\ (Spec.dotted_quad false "01.2.3.4" = false /\ IsIPv4 "01.2.3.4" = true)
  /\ (net.ParseIP "01.2.3.4" = None /\ IsIPv4 "01.2.3.4" = true).
Proof. vm_compute. repeat split; discriminate. Qed.

(** ** Detection *)

Ltac mstep :=
  repeat (progress (unfold liftIO;
                    cbn [bind ret Monad_M Monad_IO this assign Get Interfaces
                         DoGet DoSend app])).

Lemma tryServices_first_valid (valid : string -> bool) (w : World)
    (pre post : list string) (s body : string) :
  Forall (skipped valid w) pre ->
  http_get w s = inr body -> valid (strings.TrimSpace body) = true ->
  tryServices valid (pre ++ s :: post) w
  = (Some (strings.TrimSpace body), map LookupCall (pre ++ [s])).
Proof.
  intros Hpre Hs Hv. induction Hpre as [| p pre Hp _ IH];
    cbn [app tryServices map]; mstep.
  - rewrite Hs, Hv. reflexivity.
  - unfold skipped in Hp. destruct (http_get w p) as [e | b].
    + rewrite IH. reflexivity.
    + rewrite Hp, IH. reflexivity.
Qed.


(** Each family of the detector has at least three endpoints.  When the
    endpoints before [s] in the family's list fail or answer with a body that does
    not validate after trimming, and [s] answers with a body that
    validates after trimming, detection returns that trimmed body and has
    called exactly the endpoints up to [s], in order, and none after it. *)
Lemma detect_first_valid_endpoint (f : Family) (w : World)
    (pre post : list string) (s body : string) :
  services f = pre ++ s :: post ->
  Forall (skipped (validates f) w) pre ->
  http_get w s = inr body ->
  validates f (strings.TrimSpace body) = true ->
  3 <= length (services f)
  /\ Detect f w = ((strings.TrimSpace body, None), map LookupCall (pre ++ [s])).
Proof.
  intros E Hpre Hs Hv. split.
  - destruct f; cbn; lia.
  - destruct f; cbn [Detect services validates] in *;
      unfold DetectIPv4, DetectIPv6; mstep; rewrite E;
      rewrite (tryServices_first_valid _ w pre post s body Hpre Hs Hv);
      now rewrite app_nil_r.
Qed.

(** ** The refactored updater *)

Module RefactoredFacts.
Import Refactored RefactoredNotions.

Lemma getCurrentRecord_run (recordType : string) (w : World) (u : DNSUpdater) :
  getCurrentRecord recordType w u
  = (currentRecord w u recordType, u,
     [ListCall (cfClient u) recordType (Hostname u)]).
Proof.
  unfold currentRecord, getCurrentRecord, CloudflareClient.GetDNSRecords, ListCall.
  mstep.
  destruct (api_get w _ _) as [f | cfResp]; [reflexivity |].
  destruct (negb (Success cfResp)); [reflexivity |].
  destruct (Result cfResp); reflexivity.
Qed.

Lemma updateRecord_run (recordType : string) (record : option DNSRecordInfo.t)
    (ipContent : string) (w : World) (u : DNSUpdater) :
  updateRecord recordType record ipContent w u
  = (mutation w u recordType record ipContent, u,
     [mutationCall u recordType record ipContent]).
Proof.
  unfold mutation, updateRecord, mutationCall, CreateCall, UpdateCall,
    CloudflareClient.CreateDNSRecord, CloudflareClient.UpdateDNSRecord.
  mstep. destruct record as [r |]; mstep;
    destruct (api_send w _ _ _ _) as [f | cfResp]; reflexivity.
Qed.

(** A mutation either reports the provider's success flag without an
    error, or fails with an error and no success. *)
Lemma mutation_cases (w : World) (u : DNSUpdater) (recordType : string)
    (record : option DNSRecordInfo.t) (ipContent : string) :
  (exists ok, mutation w u recordType record ipContent = (ok, None))
  \/ (exists e, mutation w u recordType record ipContent = (false, Some e)).
Proof.
  unfold mutation, updateRecord, CloudflareClient.CreateDNSRecord,
    CloudflareClient.UpdateDNSRecord.
  mstep. destruct record as [r |]; mstep;
    destruct (api_send w _ _ _ _) as [f | cfResp]; cbn [fst]; eauto.
Qed.

Lemma needsUpdate_requiresChange (u : DNSUpdater) (ipv4 ipv6 : string)
    (v4Record v6Record : option DNSRecordInfo.t) :
  needsUpdate u ipv4 ipv6 v4Record v6Record
  = requiresChange true ipv4 v4Record
    || requiresChange (EnableIPv6 u) ipv6 v6Record.
Proof.
  unfold needsUpdate, requiresChange. cbn [andb].
  destruct (negb (ipv4 =? "")%string && nilOrDiffers v4Record ipv4);
    [reflexivity |].
  destruct (EnableIPv6 u && negb (ipv6 =? "")%string && nilOrDiffers v6Record ipv6);
    reflexivity.
Qed.

Lemma updateRecords_run (ipv4 ipv6 : string)
    (v4Record v6Record : option DNSRecordInfo.t) (w : World) (u : DNSUpdater) :
  updateRecords ipv4 ipv6 v4Record v6Record w u
  = (combine
       (if requiresChange true ipv4 v4Record
        then mutation w u RecordTypeA v4Record ipv4 else (true, None))
       (if requiresChange (EnableIPv6 u) ipv6 v6Record
        then mutation w u RecordTypeAAAA v6Record ipv6
        else (negb (EnableIPv6 u), None)),
     u,
     (if requiresChange true ipv4 v4Record
      then [mutationCall u RecordTypeA v4Record ipv4] else [])
     ++ (if requiresChange (EnableIPv6 u) ipv6 v6Record
         then [mutationCall u RecordTypeAAAA v6Record ipv6] else [])).
Proof.
  unfold updateRecords, requiresChange. cbn [andb]. mstep.
  destruct (negb (ipv4 =? "")%string && nilOrDiffers v4Record ipv4);
    [rewrite updateRecord_run; destruct (mutation w u RecordTypeA v4Record ipv4)
       as [ok4 e4] |];
    mstep;
    (destruct (EnableIPv6 u && negb (ipv6 =? "")%string && nilOrDiffers v6Record ipv6);
     [rewrite updateRecord_run;
      destruct (mutation w u RecordTypeAAAA v6Record ipv6) as [ok6 e6] |]);
    mstep; unfold combine.
  all: try (destruct ok4, e4); try (destruct ok6, e6);
    try (destruct (EnableIPv6 u)); reflexivity.
Qed.

(** [Run], step by step. *)
Lemma Run_steps (w : World) (u : DNSUpdater) :
  Run w u =
  let '(ipv4, ipv6, err, u1, t1) := detectIPs w u in
  match err with
  | Some e =>
      (StatusAuthError, Some ("IP detection failed: " ++ e)%string, u1, t1)
  | None =>
      let qA := ListCall (cfClient u1) RecordTypeA (Hostname u1) in
      let qAAAA := ListCall (cfClient u1) RecordTypeAAAA (Hostname u1) in
      match currentRecord w u1 RecordTypeA with
      | (_, Some e) => (StatusAuthError, Some e, u1, t1 ++ [qA])
      | (v4Record, None) =>
          let fetch6 := EnableIPv6 u1 && negb (ipv6 =? "")%string in
          let t3 := if fetch6 then [qAAAA] else [] in
          match (if fetch6 then currentRecord w u1 RecordTypeAAAA
                 else (None, None)) with
          | (_, Some e) => (StatusAuthError, Some e, u1, t1 ++ qA :: t3)
          | (v6Record, None) =>
              if negb (needsUpdate u1 ipv4 ipv6 v4Record v6Record)
              then (StatusNoChange, None, u1, t1 ++ qA :: t3)
              else
                let '(r, _, t4) :=
                  updateRecords ipv4 ipv6 v4Record v6Record w u1 in
                (match snd r with
                 | Some e => (StatusAuthError, Some e)
                 | None => (fst r, None)
                 end, u1, t1 ++ qA :: t3 ++ t4)
          end
      end
  end.
Proof.
  unfold Run. mstep.
  destruct (detectIPs w u) as [[[[ipv4 ipv6] [e |]] u1] t1]; mstep.
  { now rewrite app_nil_r. }
  rewrite getCurrentRecord_run.
  destruct (currentRecord w u1 RecordTypeA) as [v4Record [e |]]; mstep.
  { reflexivity. }
  destruct (EnableIPv6 u1 && negb (ipv6 =? "")%string).
  - rewrite getCurrentRecord_run.
    destruct (currentRecord w u1 RecordTypeAAAA) as [v6Record [e |]]; mstep.
    { reflexivity. }
    destruct (negb (needsUpdate u1 ipv4 ipv6 v4Record v6Record)).
    { reflexivity. }
    rewrite updateRecords_run. mstep.
    destruct (combine _ _) as [res [e |]]; cbn [fst snd];
      now rewrite ?app_nil_r.
  - mstep.
    destruct (negb (needsUpdate u1 ipv4 ipv6 v4Record None)).
    { reflexivity. }
    rewrite updateRecords_run. mstep.
    destruct (combine _ _) as [res [e |]]; cbn [fst snd];
      now rewrite ?app_nil_r.
Qed.

Lemma tryServices_calls (valid : string -> bool) (services : list string) (w : World) :
  filter is_api (snd (tryServices valid services w)) = [].
Proof.
  induction services as [| s rest IH]; cbn [tryServices]; mstep; [reflexivity |].
  destruct (http_get w s) as [e | body].
  - destruct (tryServices valid rest w) as [r t]. exact IH.
  - destruct (valid (strings.TrimSpace body)); [reflexivity |].
    destruct (tryServices valid rest w) as [r t]. exact IH.
Qed.

Lemma DetectIPv4_calls (w : World) : filter is_api (snd (DetectIPv4 w)) = [].
Proof.
  unfold DetectIPv4. mstep.
  pose proof (tryServices_calls IsIPv4 ipv4Services w) as H.
  destruct (tryServices IsIPv4 ipv4Services w) as [[ip |] t]; cbn [snd] in *;
    now rewrite app_nil_r.
Qed.

Lemma DetectIPv6_calls (w : World) : filter is_api (snd (DetectIPv6 w)) = [].
Proof.
  unfold DetectIPv6, detectIPv6FromInterfaces. mstep.
  pose proof (tryServices_calls IsIPv6 ipv6Services w) as H.
  destruct (tryServices IsIPv6 ipv6Services w) as [[ip |] t]; cbn [snd] in *.
  - now rewrite app_nil_r.
  - destruct (net_Interfaces w) as [e | ifaces];
      [| destruct (scanInterfaces ifaces)]; cbn [snd];
      rewrite filter_app, H; reflexivity.
Qed.

(** A failed IPv6 detection returns the empty string. *)
Lemma DetectIPv6_failure (w : World) (ip : string) (e : error) (t : list Call) :
  DetectIPv6 w = (ip, Some e, t) -> ip = "".
Proof.
  unfold DetectIPv6, detectIPv6FromInterfaces. mstep.
  destruct (tryServices IsIPv6 ipv6Services w) as [[ipStr |] t1].
  - intros H. discriminate H.
  - destruct (net_Interfaces w) as [e' | ifaces];
      [| destruct (scanInterfaces ifaces)]; intros H; congruence.
Qed.

Lemma detectIPs_state (w : World) (u : DNSUpdater) :
  snd (fst (detectIPs w u)) = u
  \/ snd (fst (detectIPs w u)) = set_EnableIPv6 false u.
Proof.
  unfold detectIPs. mstep.
  destruct (IPAddr u =? "")%string.
  - mstep. destruct (DetectIPv4 w) as [[ipv4 [e |]] t]; mstep; [auto |].
    destruct (EnableIPv6 u); cbn [andb]; [| auto].
    cbn [String.eqb]. mstep.
    destruct (DetectIPv6 w) as [[ipv6 [e |]] t6]; mstep; auto.
  - destruct (IsIPv4 (IPAddr u)); mstep.
    + destruct (EnableIPv6 u); cbn [andb]; [| auto].
      cbn [String.eqb]. mstep.
      destruct (DetectIPv6 w) as [[ipv6 [e |]] t6]; mstep; auto.
    + destruct (IsIPv6 (IPAddr u)); mstep; auto.
Qed.

Lemma detectIPs_invalid (w : World) (u : DNSUpdater) :
  IPAddr u <> "" -> IsIPv4 (IPAddr u) = false -> IsIPv6 (IPAddr u) = false ->
  detectIPs w u = ("", "", Some "invalid IP address provided", u, []).
Proof.
  intros Hne H4 H6. unfold detectIPs. mstep.
  apply String.eqb_neq in Hne. rewrite Hne, H4, H6. reflexivity.
Qed.

Lemma detectIPs_explicit_IPv6 (w : World) (u : DNSUpdater) :
  IPAddr u <> "" -> IsIPv4 (IPAddr u) = false -> IsIPv6 (IPAddr u) = true ->
  detectIPs w u = ("", IPAddr u, None, set_EnableIPv6 false u, []).
Proof.
  intros Hne H4 H6. unfold detectIPs. mstep.
  apply String.eqb_neq in Hne. rewrite Hne, H4, H6. reflexivity.
Qed.

Lemma detectIPs_explicit_IPv4 (w : World) (u : DNSUpdater) :
  IPAddr u <> "" -> IsIPv4 (IPAddr u) = true ->
  detectIPs w u =
  if EnableIPv6 u then
    let '(ipv6, err, t) := DetectIPv6 w in
    (IPAddr u, ipv6, None,
     match err with Some _ => set_EnableIPv6 false u | None => u end, t)
  else (IPAddr u, "", None, u, []).
Proof.
  intros Hne H4. unfold detectIPs. mstep.
  apply String.eqb_neq in Hne. rewrite Hne, H4. mstep.
  destruct (EnableIPv6 u); cbn [andb String.eqb]; [| reflexivity].
  mstep. destruct (DetectIPv6 w) as [[ipv6 [e |]] t]; mstep;
    now rewrite app_nil_r.
Qed.

Lemma detectIPs_detect (w : World) (u : DNSUpdater) :
  IPAddr u = "" ->
  detectIPs w u =
  let '(ipv4, err4, t4) := DetectIPv4 w in
  match err4 with
  | Some e => ("", "", Some ("detect IPv4: " ++ e)%string, u, t4)
  | None =>
      if EnableIPv6 u then
        let '(ipv6, err, t) := DetectIPv6 w in
        (ipv4, ipv6, None,
         match err with Some _ => set_EnableIPv6 false u | None => u end,
         t4 ++ t)
      else (ipv4, "", None, u, t4)
  end.
Proof.
  intros He. unfold detectIPs. mstep. rewrite He. cbn [String.eqb]. mstep.
  destruct (DetectIPv4 w) as [[ipv4 [e |]] t4]; mstep.
  { now rewrite !app_nil_r. }
  destruct (EnableIPv6 u); cbn [andb String.eqb]; mstep.
  - destruct (DetectIPv6 w) as [[ipv6 [e |]] t]; mstep;
      now rewrite !app_nil_r.
  - now rewrite !app_nil_r.
Qed.

(** The first IPv4 endpoint answers with a bare IPv4 address. *)
Lemma DetectIPv4_first (w : World) (body : string) :
  http_get w "https://api.ipify.org" = inr body -> IsIPv4 body = true ->
  DetectIPv4 w = (body, None, [LookupCall "https://api.ipify.org"]).
Proof.
  intros Hg H4. unfold DetectIPv4, ipv4Services. cbn [tryServices]. mstep.
  rewrite Hg, (TrimSpace_IsIPv4 body H4), H4. mstep. reflexivity.
Qed.

Lemma detectIPs_IPv4 (w : World) (u : DNSUpdater) (ipv4 : string) :
  resolves w (IPAddr u) ipv4 ->
  exists t4,
    detectIPs w u =
    if EnableIPv6 u then
      let '(ipv6, err, t) := DetectIPv6 w in
      (ipv4, ipv6, None,
       match err with Some _ => set_EnableIPv6 false u | None => u end, t4 ++ t)
    else (ipv4, "", None, u, t4).
Proof.
  intros [H4 [E | [E Hg]]].
  - exists []. subst ipv4. apply detectIPs_explicit_IPv4; [| exact H4].
    intros E. rewrite E in H4. discriminate H4.
  - exists [LookupCall "https://api.ipify.org"].
    rewrite (detectIPs_detect w u E), (DetectIPv4_first w ipv4 Hg H4).
    reflexivity.
Qed.

Lemma no_api_no_mutation (t : list Call) :
  filter is_api t = [] -> filter is_mutation t = [].
Proof.
  induction t as [| c t IH]; cbn [filter]; [reflexivity |].
  destruct c as [s | | m url tok body]; cbn [is_api is_mutation]; auto.
  discriminate.
Qed.

Lemma detectIPs_calls (w : World) (u : DNSUpdater) :
  filter is_api (snd (detectIPs w u)) = [].
Proof.
  pose proof (DetectIPv4_calls w) as H4. pose proof (DetectIPv6_calls w) as H6.
  destruct (String.eqb_spec (IPAddr u) "") as [E | E].
  - rewrite (detectIPs_detect w u E).
    destruct (DetectIPv4 w) as [[ipv4 [e |]] t4]; cbn [snd] in *; [assumption |].
    destruct (EnableIPv6 u); [| assumption].
    destruct (DetectIPv6 w) as [[ipv6 err] t6]; cbn [snd] in *.
    now rewrite filter_app, H4, H6.
  - destruct (IsIPv4 (IPAddr u)) eqn:E4.
    + rewrite (detectIPs_explicit_IPv4 w u E E4).
      destruct (EnableIPv6 u); [| reflexivity].
      destruct (DetectIPv6 w) as [[ipv6 err] t6]; assumption.
    + destruct (IsIPv6 (IPAddr u)) eqn:E6.
      * now rewrite (detectIPs_explicit_IPv6 w u E E4 E6).
      * now rewrite (detectIPs_invalid w u E E4 E6).
Qed.

Lemma Run_state (w : World) (u : DNSUpdater) :
  snd (fst (Run w u)) = snd (fst (detectIPs w u)).
Proof.
  rewrite Run_steps.
  destruct (detectIPs w u) as [[[[ipv4 ipv6] [e |]] u1] t1]; [reflexivity |].
  cbv zeta.
  destruct (currentRecord w u1 RecordTypeA) as [v4 [e |]]; [reflexivity |].
  destruct (if EnableIPv6 u1 && negb (ipv6 =? "")%string
            then currentRecord w u1 RecordTypeAAAA else (None, None))
    as [v6 [e |]]; [reflexivity |].
  destruct (negb (needsUpdate u1 ipv4 ipv6 v4 v6)); [reflexivity |].
  destruct (updateRecords ipv4 ipv6 v4 v6 w u1) as [[r u2] t4]. reflexivity.
Qed.

Lemma detectIPs_fields (w : World) (u : DNSUpdater) :
  let u1 := snd (fst (detectIPs w u)) in
  ZoneID u1 = ZoneID u /\ APIToken u1 = APIToken u /\ Hostname u1 = Hostname u
  /\ IPAddr u1 = IPAddr u /\ cfClient u1 = cfClient u.
Proof.
  cbv zeta. destruct (detectIPs_state w u) as [-> | ->]; repeat split.
Qed.

(** When the current record of every resolved and enabled family has
    exactly the resolved address as its content, [Run] returns "no changes
    needed" without an error and issues no POST and no PUT. *)
Lemma no_change_when_records_match (w : World) (u u1 : DNSUpdater)
    (ipv4 ipv6 : string) (t1 : list Call) :
  detectIPs w u = (ipv4, ipv6, None, u1, t1) ->
  snd (currentRecord w u1 RecordTypeA) = None ->
  (ipv4 <> "" ->
   exists r, fst (currentRecord w u1 RecordTypeA) = Some r
             /\ DNSRecordInfo.Content r = ipv4) ->
  (EnableIPv6 u1 = true -> ipv6 <> "" ->
   exists r, currentRecord w u1 RecordTypeAAAA = (Some r, None)
             /\ DNSRecordInfo.Content r = ipv6) ->
  fst (fst (Run w u)) = (StatusNoChange, None)
  /\ filter is_mutation (snd (Run w u)) = [].
Proof.
  intros Hd HA H4 H6. rewrite Run_steps, Hd. cbv zeta.
  pose proof (detectIPs_calls w u) as Hc. rewrite Hd in Hc. cbn [snd] in Hc.
  apply no_api_no_mutation in Hc.
  destruct (currentRecord w u1 RecordTypeA) as [v4 e4]. cbn [fst snd] in *.
  subst e4.
  assert (N4 : requiresChange true ipv4 v4 = false).
  { unfold requiresChange. cbn [andb].
    destruct (String.eqb_spec ipv4 "") as [E | E]; [reflexivity |].
    destruct (H4 E) as (r & -> & Hr). cbn [negb andb nilOrDiffers].
    now rewrite Hr, String.eqb_refl. }
  destruct (EnableIPv6 u1) eqn:E6; cbn [andb].
  - destruct (String.eqb_spec ipv6 "") as [E | E]; cbn [negb].
    + rewrite needsUpdate_requiresChange, N4, E6. unfold requiresChange.
      rewrite E. cbn. split; [reflexivity |].
      rewrite filter_app, Hc. reflexivity.
    + destruct (H6 eq_refl E) as (r & -> & Hr).
      rewrite needsUpdate_requiresChange, N4, E6. unfold requiresChange.
      cbn [andb nilOrDiffers orb]. rewrite Hr, String.eqb_refl.
      rewrite andb_false_r. cbn. split; [reflexivity |].
      rewrite filter_app, Hc. reflexivity.
  - rewrite needsUpdate_requiresChange, N4, E6. cbn. split; [reflexivity |].
    rewrite filter_app, Hc. reflexivity.
Qed.

(** The mutating calls of a run that reaches the comparison. *)
Lemma Run_mutations (w : World) (u u1 : DNSUpdater) (ipv4 ipv6 : string)
    (t1 : list Call) (v4Record v6Record : option DNSRecordInfo.t) :
  detectIPs w u = (ipv4, ipv6, None, u1, t1) ->
  currentRecord w u1 RecordTypeA = (v4Record, None) ->
  (if EnableIPv6 u1 && negb (ipv6 =? "")%string
   then currentRecord w u1 RecordTypeAAAA = (v6Record, None)
   else v6Record = None) ->
  filter is_mutation (snd (Run w u))
  = (if requiresChange true ipv4 v4Record
     then [mutationCall u1 RecordTypeA v4Record ipv4] else [])
    ++ (if requiresChange (EnableIPv6 u1) ipv6 v6Record
        then [mutationCall u1 RecordTypeAAAA v6Record ipv6] else []).
Proof.
  intros Hd HA H6. rewrite Run_steps, Hd. cbv zeta. rewrite HA.
  pose proof (detectIPs_calls w u) as Hc. rewrite Hd in Hc. cbn [snd] in Hc.
  apply no_api_no_mutation in Hc.
  assert (F : (if EnableIPv6 u1 && negb (ipv6 =? "")%string
               then currentRecord w u1 RecordTypeAAAA else (None, None))
              = (v6Record, None)).
  { destruct (EnableIPv6 u1 && negb (ipv6 =? "")%string); congruence. }
  rewrite F. rewrite needsUpdate_requiresChange.
  destruct (requiresChange true ipv4 v4Record) eqn:R4;
    destruct (requiresChange (EnableIPv6 u1) ipv6 v6Record) eqn:R6;
    cbn [orb negb].
  4: { cbn [snd]. rewrite filter_app, Hc. cbn [app].
       destruct (EnableIPv6 u1 && negb (ipv6 =? "")%string); reflexivity. }
  all: rewrite updateRecords_run, R4, R6; cbn [snd];
    rewrite filter_app, Hc; cbn [app filter is_mutation ListCall];
    rewrite filter_app;
    destruct (EnableIPv6 u1 && negb (ipv6 =? "")%string);
    destruct v4Record, v6Record; reflexivity.
Qed.

(** In a run that reaches the comparison, the POST and PUT requests
    are, per family that requires a change: a create with the proxy flag
    [true] when there is no current record, and otherwise an update of the
    current record's identifier with the current record's proxy flag. *)
Lemma create_or_update_per_family (w : World) (u u1 : DNSUpdater)
    (ipv4 ipv6 : string) (t1 : list Call)
    (v4Record v6Record : option DNSRecordInfo.t) :
  detectIPs w u = (ipv4, ipv6, None, u1, t1) ->
  currentRecord w u1 RecordTypeA = (v4Record, None) ->
  (if EnableIPv6 u1 && negb (ipv6 =? "")%string
   then currentRecord w u1 RecordTypeAAAA = (v6Record, None)
   else v6Record = None) ->
  filter is_mutation (snd (Run w u))
  = (if negb (ipv4 =? "")%string && nilOrDiffers v4Record ipv4
     then
       [ match v4Record with
         | None => CreateCall (cfClient u) "A" (Hostname u) ipv4 true
         | Some r =>
             UpdateCall (cfClient u) (DNSRecordInfo.ID r) "A" (Hostname u)
               ipv4 (DNSRecordInfo.Proxied r)
         end ]
     else [])
    ++ (if EnableIPv6 u1 && negb (ipv6 =? "")%string && nilOrDiffers v6Record ipv6
        then
          [ match v6Record with
            | None => CreateCall (cfClient u) "AAAA" (Hostname u) ipv6 true
            | Some r =>
                UpdateCall (cfClient u) (DNSRecordInfo.ID r) "AAAA" (Hostname u)
                  ipv6 (DNSRecordInfo.Proxied r)
            end ]
        else []).
Proof.
  intros Hd HA H6. rewrite (Run_mutations w u u1 ipv4 ipv6 t1 _ _ Hd HA H6).
  destruct (detectIPs_fields w u) as (_ & _ & Hh & _ & Hc).
  rewrite Hd in Hh, Hc. cbn [fst snd] in Hh, Hc.
  unfold requiresChange, mutationCall. cbn [andb]. rewrite Hh, Hc.
  reflexivity.
Qed.

(** C1 (amended). When both families are enabled and each requires a
    mutation, both mutations are attempted whatever their results.  The run
    succeeds when at least one of them succeeds and none returned an error;
    a mutation that returns an error makes the run fail with that error,
    the IPv4 one first. *)
Theorem both_mutations_attempted (w : World) (u u1 : DNSUpdater)
    (ipv4 ipv6 : string) (t1 : list Call)
    (v4Record v6Record : option DNSRecordInfo.t) (r4 r6 : bool * option error) :
  detectIPs w u = (ipv4, ipv6, None, u1, t1) ->
  currentRecord w u1 RecordTypeA = (v4Record, None) ->
  currentRecord w u1 RecordTypeAAAA = (v6Record, None) ->
  EnableIPv6 u1 = true ->
  requiresChange true ipv4 v4Record = true ->
  requiresChange true ipv6 v6Record = true ->
  mutation w u1 RecordTypeA v4Record ipv4 = r4 ->
  mutation w u1 RecordTypeAAAA v6Record ipv6 = r6 ->
  filter is_mutation (snd (Run w u))
  = [ mutationCall u1 RecordTypeA v4Record ipv4;
      mutationCall u1 RecordTypeAAAA v6Record ipv6 ]
  /\ fst (fst (Run w u))
     = match r4, r6 with
       | (_, Some e), _ =>
           (StatusAuthError, Some ("update IPv4 record: " ++ e)%string)
       | (_, None), (_, Some e) =>
           (StatusAuthError, Some ("update IPv6 record: " ++ e)%string)
       | (ok4, None), (ok6, None) =>
           if ok4 || ok6 then (StatusGood, None)
           else (StatusAuthError, Some "failed to update DNS records")
       end.
Proof.
  intros Hd HA HAAAA E6 R4 R6 M4 M6.
  assert (Q : EnableIPv6 u1 && negb (ipv6 =? "")%string = true).
  { rewrite E6. unfold requiresChange in R6. cbn [andb] in *.
    now apply andb_true_iff in R6. }
  split.
  - rewrite (Run_mutations w u u1 ipv4 ipv6 t1 v4Record v6Record Hd HA).
    + now rewrite E6, R4, R6.
    + now rewrite Q.
  - rewrite Run_steps, Hd. cbv zeta. rewrite HA, Q, HAAAA.
    rewrite needsUpdate_requiresChange, R4. cbn [orb negb].
    rewrite updateRecords_run, E6, R4, R6. subst r4 r6.
    destruct (mutation_cases w u1 RecordTypeA v4Record ipv4) as [[ok4 C4] | [e4 C4]];
      destruct (mutation_cases w u1 RecordTypeAAAA v6Record ipv6)
        as [[ok6 C6] | [e6 C6]];
      rewrite C4, C6; cbn [combine fst snd].
    + destruct ok4, ok6; reflexivity.
    + destruct ok4; reflexivity.
    + reflexivity.
    + reflexivity.
Qed.

Lemma detection_only (t : list Call) :
  filter is_api t = [] -> filter is_detection t = t.
Proof.
  induction t as [| c t IH]; cbn [filter]; [reflexivity |].
  destruct c as [s | | m url tok body]; cbn [is_api is_detection];
    intros H; try discriminate; now rewrite IH.
Qed.


(** What follows address resolution depends on its result alone. *)
Lemma Run_continuation (w : World) (u u1 : DNSUpdater) (ipv4 ipv6 : string)
    (t1 : list Call) :
  detectIPs w u = (ipv4, ipv6, None, u1, t1) ->
  exists r t2,
    Run w u = (r, u1, t1 ++ t2)
    /\ (forall u' t1',
          detectIPs w u' = (ipv4, ipv6, None, u1, t1') ->
          Run w u' = (r, u1, t1' ++ t2))
    /\ (EnableIPv6 u1 = false -> Forall (typeA_call u1) t2).
Proof.
  intros Hd.
  assert (A : typeA_call u1 (ListCall (cfClient u1) RecordTypeA (Hostname u1)))
    by (left; reflexivity).
  rewrite Run_steps, Hd. cbv zeta.
  destruct (currentRecord w u1 RecordTypeA) as [v4 [e |]] eqn:EA.
  { do 2 eexists. split; [reflexivity |]. split.
    - intros u' t1' Hd'. rewrite Run_steps, Hd'. cbv zeta. rewrite EA. reflexivity.
    - intros _. repeat constructor. }
  destruct (if EnableIPv6 u1 && negb (ipv6 =? "")%string
            then currentRecord w u1 RecordTypeAAAA else (None, None))
    as [v6 [e |]] eqn:E6.
  { do 2 eexists. split; [reflexivity |]. split.
    - intros u' t1' Hd'. rewrite Run_steps, Hd'. cbv zeta. rewrite EA, E6.
      reflexivity.
    - intros ->. cbn [andb]. repeat constructor. }
  destruct (negb (needsUpdate u1 ipv4 ipv6 v4 v6)) eqn:EN.
  { do 2 eexists. split; [reflexivity |]. split.
    - intros u' t1' Hd'. rewrite Run_steps, Hd'. cbv zeta.
      rewrite EA, E6, EN. reflexivity.
    - intros ->. cbn [andb]. repeat constructor. }
  rewrite updateRecords_run.
  do 2 eexists. split; [reflexivity |]. split.
  - intros u' t1' Hd'. rewrite Run_steps, Hd'. cbv zeta.
    rewrite EA, E6, EN, updateRecords_run. reflexivity.
  - intros ->. unfold requiresChange. cbn [andb app].
    constructor; [exact A |].
    destruct (negb (ipv4 =? "")%string && nilOrDiffers v4 ipv4);
      cbn [app]; [| constructor].
    constructor; [| constructor]. right. eauto.
Qed.

Lemma set_EnableIPv6_idem (b : bool) (u : DNSUpdater) :
  set_EnableIPv6 b (set_EnableIPv6 b u) = set_EnableIPv6 b u.
Proof. reflexivity. Qed.

Lemma set_EnableIPv6_same (u : DNSUpdater) :
  set_EnableIPv6 (EnableIPv6 u) u = u.
Proof. destruct u. reflexivity. Qed.



Lemma detectIPs_state_cases (w : World) (u : DNSUpdater) :
  snd (fst (detectIPs w u)) = u
  \/ (snd (fst (detectIPs w u)) = set_EnableIPv6 false u
      /\ ((IPAddr u <> "" /\ IsIPv4 (IPAddr u) = false
           /\ IsIPv6 (IPAddr u) = true)
          \/ exists e, snd (fst (DetectIPv6 w)) = Some e)).
Proof.
  destruct (String.eqb_spec (IPAddr u) "") as [E | E].
  - rewrite (detectIPs_detect w u E).
    destruct (DetectIPv4 w) as [[ipv4 [e |]] t4]; [auto |].
    destruct (EnableIPv6 u); [| auto].
    destruct (DetectIPv6 w) as [[ipv6 [e |]] t6]; cbn [fst snd]; eauto.
  - destruct (IsIPv4 (IPAddr u)) eqn:E4.
    + rewrite (detectIPs_explicit_IPv4 w u E E4).
      destruct (EnableIPv6 u); [| auto].
      destruct (DetectIPv6 w) as [[ipv6 [e |]] t6]; cbn [fst snd]; eauto.
    + destruct (IsIPv6 (IPAddr u)) eqn:E6.
      * rewrite (detectIPs_explicit_IPv6 w u E E4 E6). cbn [fst snd].
        right. split; [reflexivity |]. left. auto.
      * rewrite (detectIPs_invalid w u E E4 E6). auto.
Qed.

(** C7, as stated, fails: with an explicit IPv6 address, [Run] changes
    the IPv6 flag of the updater from [true] to [false]. *)
Lemma configuration_changed_by_run :
  let w := Examples.world Examples.offline Examples.no_interfaces
             (Examples.found []) (Examples.found [])
             (Examples.answered true) (Examples.answered true) in
  let u := Examples.updater "2001:db8::1" true in
  EnableIPv6 u = true /\ EnableIPv6 (snd (fst (Run w u))) = false.
Proof. vm_compute. split; reflexivity. Qed.

(** C1, as stated, fails: the IPv4 update fails with an error, the IPv6
    create succeeds, both are attempted and [Run] returns the
    authentication error, not success.  The single-file updater, in the
    same world, returns the error of the IPv4 update without attempting
    the IPv6 create. *)
Lemma failed_update_fails_run :
  let w := Examples.both_stale (inl (ExecuteFailed "timeout")) (Examples.answered true) in
  let u := Examples.updater "" true in
  let lu := Examples.legacy_updater "203.0.113.7" true in
  (mutation w u RecordTypeA
     (Some (DNSRecordInfo.mk "abc" "203.0.113.1" false)) "203.0.113.7"
   = (false, Some "execute request: timeout")
   /\ mutation w u RecordTypeAAAA None "2001:db8::7" = (true, None)
   /\ filter is_mutation (snd (Run w u))
      = [ UpdateCall Examples.client "abc" "A" Examples.host "203.0.113.7" false;
          CreateCall Examples.client "AAAA" Examples.host "2001:db8::7" true ]
   /\ fst (fst (Run w u))
      = (StatusAuthError, Some "update IPv4 record: execute request: timeout")
   /\ fst (fst (Run w u)) <> (StatusGood, None))
  /\ (fst (fst (Legacy.Run w lu)) = ("", Some "timeout")
      /\ filter is_mutation (snd (Legacy.Run w lu))
         = [ UpdateCall Examples.client "abc" "A" Examples.host "203.0.113.7"
               false ]).
Proof. vm_compute. repeat split; discriminate. Qed.

Lemma both_mutations_attempted_witness :
  let w := Examples.both_stale (Examples.answered false) (Examples.answered true) in
  let u := Examples.updater "" true in
  filter is_mutation (snd (Run w u))
  = [ UpdateCall Examples.client "abc" "A" Examples.host "203.0.113.7" false;
      CreateCall Examples.client "AAAA" Examples.host "2001:db8::7" true ]
  /\ fst (fst (Run w u)) = (StatusGood, None).
Proof.
  cbv zeta.
  exact (both_mutations_attempted
           (Examples.both_stale (Examples.answered false) (Examples.answered true))
           (Examples.updater "" true) (Examples.updater "" true)
           "203.0.113.7" "2001:db8::7"
           (map LookupCall ipv4Services ++ [LookupCall "https://api6.ipify.org"])
           (Some (DNSRecordInfo.mk "abc" "203.0.113.1" false)) None
           (false, None) (true, None)
           eq_refl eq_refl eq_refl eq_refl eq_refl eq_refl eq_refl eq_refl).
Defined.



End RefactoredFacts.

(** ** The single-file updater *)

Module LegacyFacts.
Import Legacy LegacyNotions.

Lemma getRecords_run (recordType : string) (w : World) (u : DNSUpdater) :
  getRecords recordType w u = (records w u recordType, u, snd (getRecords recordType w u)).
Proof.
  unfold records, getRecords. mstep.
  destruct (api_get w _ _) as [f | cfResp]; [reflexivity |].
  destruct (negb (Success cfResp)); reflexivity.
Qed.

Lemma createRecord_run (recordType content : string) (proxied : bool)
    (w : World) (u : DNSUpdater) :
  createRecord recordType content proxied w u
  = (created w u recordType content proxied, u,
     snd (createRecord recordType content proxied w u)).
Proof.
  unfold created, createRecord. mstep.
  destruct (api_send w _ _ _ _) as [f | cfResp]; reflexivity.
Qed.

Lemma legacy_updateRecord_run (recordType recordID content : string) (proxied : bool)
    (w : World) (u : DNSUpdater) :
  updateRecord recordType recordID content proxied w u
  = (updated w u recordType recordID content proxied, u,
     snd (updateRecord recordType recordID content proxied w u)).
Proof.
  unfold updated, updateRecord. mstep.
  destruct (api_send w _ _ _ _) as [f | cfResp]; reflexivity.
Qed.

Lemma Run_update_result (ipv4 ipv6 recordID recordIP : string)
    (recordProxied : bool) (recordIDv6 recordIPv6 : string)
    (recordProxiedv6 : bool) (w : World) (u : DNSUpdater) :
  fst (Run_update ipv4 ipv6 recordID recordIP recordProxied
         recordIDv6 recordIPv6 recordProxiedv6 w u)
  = (update_result (EnableIPv6 u)
       (if stale true ipv4 recordID recordIP
        then Some (mutated w u "A" ipv4 recordID recordProxied) else None)
       (if stale (EnableIPv6 u) ipv6 recordIDv6 recordIPv6
        then Some (mutated w u "AAAA" ipv6 recordIDv6 recordProxiedv6) else None),
     u).
Proof.
  unfold Run_update, stale, mutated. cbn [andb]. mstep.
  destruct (negb (ipv4 =? "")%string
            && (negb (recordIP =? ipv4)%string || (recordID =? "")%string)).
  - destruct (recordID =? "")%string;
      [rewrite createRecord_run; destruct (created w u "A" ipv4 true) as [ok4 [e4 |]]
      | rewrite legacy_updateRecord_run;
        destruct (updated w u "A" recordID ipv4 recordProxied) as [ok4 [e4 |]]];
      mstep; try reflexivity;
      (destruct (EnableIPv6 u && negb (ipv6 =? "")%string
                 && (negb (recordIPv6 =? ipv6)%string || (recordIDv6 =? "")%string));
       [destruct (recordIDv6 =? "")%string;
        [rewrite createRecord_run;
         destruct (created w u "AAAA" ipv6 true) as [ok6 [e6 |]]
        | rewrite legacy_updateRecord_run;
          destruct (updated w u "AAAA" recordIDv6 ipv6 recordProxiedv6)
            as [ok6 [e6 |]]]
       | destruct (EnableIPv6 u)]);
      mstep; cbn [update_result negb]; try reflexivity;
      repeat match goal with b : bool |- _ => destruct b end; reflexivity.
  - mstep.
    destruct (EnableIPv6 u && negb (ipv6 =? "")%string
              && (negb (recordIPv6 =? ipv6)%string || (recordIDv6 =? "")%string));
      [destruct (recordIDv6 =? "")%string;
       [rewrite createRecord_run;
        destruct (created w u "AAAA" ipv6 true) as [ok6 [e6 |]]
       | rewrite legacy_updateRecord_run;
         destruct (updated w u "AAAA" recordIDv6 ipv6 recordProxiedv6)
           as [ok6 [e6 |]]]
      | destruct (EnableIPv6 u)];
      mstep; reflexivity.
Qed.

Lemma Run_records_result (ipv4 ipv6 : string) (w : World) (u : DNSUpdater) :
  fst (Run_records ipv4 ipv6 w u)
  = match (if negb (ipv4 =? "")%string then records w u "A" else ([], None)) with
    | (_, Some e) => ("", Some e, u)
    | (recordsA, None) =>
        let '(recordID, recordIP, recordProxied) := firstRecord recordsA in
        match (if EnableIPv6 u && negb (ipv6 =? "")%string
               then records w u "AAAA" else ([], None)) with
        | (_, Some e) => ("", Some e, u)
        | (recordsAAAA, None) =>
            let '(recordIDv6, recordIPv6, recordProxiedv6) :=
              firstRecord recordsAAAA in
            if (negb (ipv4 =? "")%string && (recordIP =? ipv4)%string)
               && (negb (ipv6 =? "")%string && (recordIPv6 =? ipv6)%string
                   || negb (EnableIPv6 u))
            then ("no changes needed", None, u)
            else
              (update_result (EnableIPv6 u)
                 (if stale true ipv4 recordID recordIP
                  then Some (mutated w u "A" ipv4 recordID recordProxied)
                  else None)
                 (if stale (EnableIPv6 u) ipv6 recordIDv6 recordIPv6
                  then Some (mutated w u "AAAA" ipv6 recordIDv6 recordProxiedv6)
                  else None),
               u)
        end
    end.
Proof.
  unfold Run_records. mstep.
  assert (A : exists t,
             (if negb (ipv4 =? "")%string then getRecords "A"
              else fun (_ : World) (u0 : DNSUpdater) => ([], None, u0, [])) w u
             = ((if negb (ipv4 =? "")%string then records w u "A" else ([], None)),
                u, t)).
  { destruct (negb (ipv4 =? "")%string); [rewrite getRecords_run |]; eauto. }
  destruct A as [tA ->].
  destruct (if negb (ipv4 =? "")%string then records w u "A" else ([], None))
    as [recordsA [e |]]; mstep; [reflexivity |].
  destruct (firstRecord recordsA) as [[recordID recordIP] recordProxied]. mstep.
  assert (B : exists t,
             (if EnableIPv6 u && negb (ipv6 =? "")%string then getRecords "AAAA"
              else fun (_ : World) (u0 : DNSUpdater) => ([], None, u0, [])) w u
             = ((if EnableIPv6 u && negb (ipv6 =? "")%string
                 then records w u "AAAA" else ([], None)), u, t)).
  { destruct (EnableIPv6 u && negb (ipv6 =? "")%string);
      [rewrite getRecords_run |]; eauto. }
  destruct B as [tB ->].
  destruct (if EnableIPv6 u && negb (ipv6 =? "")%string
            then records w u "AAAA" else ([], None))
    as [recordsAAAA [e |]]; mstep; [reflexivity |].
  destruct (firstRecord recordsAAAA) as [[recordIDv6 recordIPv6] recordProxiedv6].
  mstep.
  destruct ((negb (ipv4 =? "")%string && (recordIP =? ipv4)%string)
            && (negb (ipv6 =? "")%string && (recordIPv6 =? ipv6)%string
                || negb (EnableIPv6 u))); [reflexivity |].
  pose proof (Run_update_result ipv4 ipv6 recordID recordIP recordProxied
                recordIDv6 recordIPv6 recordProxiedv6 w u) as H.
  destruct (Run_update ipv4 ipv6 recordID recordIP recordProxied
              recordIDv6 recordIPv6 recordProxiedv6 w u) as [[r u'] t].
  cbn [fst] in *. exact H.
Qed.

(** [detectIPv6] next to the detector's [DetectIPv6]: the same address,
    the same calls, and an error exactly when the detector has one. *)
Lemma detectIPv6_DetectIPv6 (w : World) (u : DNSUpdater) :
  exists err,
    detectIPv6 w u = (fst (fst (DetectIPv6 w)), err, u, snd (DetectIPv6 w))
    /\ (err = None <-> snd (fst (DetectIPv6 w)) = None).
Proof.
  unfold detectIPv6, DetectIPv6, detectIPv6FromInterfaces. mstep.
  change (tryServices isIPv6 ipv6Services w)
    with (tryServices IsIPv6 IPDetector.ipv6Services w).
  destruct (tryServices IsIPv6 IPDetector.ipv6Services w) as [[ipStr |] t].
  - mstep. eexists. split; [reflexivity |]. cbn [fst snd]. tauto.
  - mstep. destruct (net_Interfaces w) as [e | ifaces];
      [| destruct (scanInterfaces ifaces)]; mstep; cbn [fst snd];
      (eexists; split; [reflexivity |]); split; intros H; try exact H;
      try reflexivity; discriminate H.
Qed.

Lemma Run_explicit_IPv4 (w : World) (u : DNSUpdater) :
  IPAddr u <> "" -> isIPv4 (IPAddr u) = true ->
  fst (Run w u)
  = if EnableIPv6 u then
      let ipv6 := fst (fst (DetectIPv6 w)) in
      if is_none (snd (fst (DetectIPv6 w))) && negb (ipv6 =? "")%string
      then fst (Run_records (IPAddr u) ipv6 w u)
      else fst (Run_records (IPAddr u) ipv6 w (set_EnableIPv6 false u))
    else fst (Run_records (IPAddr u) "" w u).
Proof.
  intros E E4. unfold Run. mstep.
  apply String.eqb_neq in E. rewrite E, E4. mstep.
  destruct (EnableIPv6 u); cbn [andb String.eqb]; mstep.
  - destruct (detectIPv6_DetectIPv6 w u) as (err & -> & Herr). mstep.
    assert (N : is_none err = is_none (snd (fst (DetectIPv6 w)))).
    { destruct err, (snd (fst (DetectIPv6 w))); try reflexivity;
        destruct Herr as [H1 H2];
        [specialize (H2 eq_refl) | specialize (H1 eq_refl)]; discriminate. }
    rewrite N.
    destruct (is_none (snd (fst (DetectIPv6 w)))
              && negb (fst (fst (DetectIPv6 w)) =? "")%string); mstep.
    + destruct (Run_records _ _ w u) as [[r u'] t]. reflexivity.
    + destruct (Run_records _ _ w (set_EnableIPv6 false u)) as [[r u'] t].
      reflexivity.
  - destruct (Run_records _ _ w u) as [[r u'] t]. reflexivity.
Qed.

Lemma Run_detected_IPv4 (w : World) (u : DNSUpdater) (body : string) :
  IPAddr u = "" -> http_get w "https://api.ipify.org" = inr body ->
  fst (Run w u)
  = if EnableIPv6 u then
      let ipv6 := fst (fst (DetectIPv6 w)) in
      if is_none (snd (fst (DetectIPv6 w))) && negb (ipv6 =? "")%string
      then fst (Run_records body ipv6 w u)
      else fst (Run_records body ipv6 w (set_EnableIPv6 false u))
    else fst (Run_records body "" w u).
Proof.
  intros E Hg. unfold Run. mstep. rewrite E. cbn [String.eqb].
  unfold detectIPv4. mstep. rewrite Hg. mstep.
  destruct (EnableIPv6 u); cbn [andb String.eqb]; mstep.
  - destruct (detectIPv6_DetectIPv6 w u) as (err & -> & Herr). mstep.
    assert (N : is_none err = is_none (snd (fst (DetectIPv6 w)))).
    { destruct err, (snd (fst (DetectIPv6 w))); try reflexivity;
        destruct Herr as [H1 H2];
        [specialize (H2 eq_refl) | specialize (H1 eq_refl)]; discriminate. }
    rewrite N.
    destruct (is_none (snd (fst (DetectIPv6 w)))
              && negb (fst (fst (DetectIPv6 w)) =? "")%string); mstep.
    + destruct (Run_records _ _ w u) as [[r u'] t]. reflexivity.
    + destruct (Run_records _ _ w (set_EnableIPv6 false u)) as [[r u'] t].
      reflexivity.
  - destruct (Run_records _ _ w u) as [[r u'] t]. reflexivity.
Qed.

End LegacyFacts.

(** ** The two updaters side by side *)

Module Agreement.
Import RefactoredNotions RefactoredFacts AgreementNotions.

Lemma records_agree (w : World) (lu : Legacy.DNSUpdater)
    (ru : Refactored.DNSUpdater) (recordType : string) :
  same_config lu ru ->
  (exists recs,
     LegacyNotions.records w lu recordType = (recs, None)
     /\ currentRecord w ru recordType = (option_map info (hd_error recs), None)
     /\ (identified_records w ->
         forall r rest, recs = r :: rest -> DNSRecord.ID r <> ""))
  \/ (exists recs e e',
        LegacyNotions.records w lu recordType = (recs, Some e)
        /\ currentRecord w ru recordType = (None, Some e')).
Proof.
  intros (Hz & Ht & Hh & _ & _ & Hc).
  unfold LegacyNotions.records, currentRecord, Legacy.getRecords,
    Refactored.getCurrentRecord, CloudflareClient.GetDNSRecords,
    CloudflareClient.records_url, CloudflareClient.CloudflareAPIBaseURL.
  mstep. rewrite Hz, Ht, Hh, Hc. cbn [CloudflareClient.zoneID CloudflareClient.apiToken].
  cbn [String.append].
  destruct (api_get w _ _) as [f | cfResp] eqn:E; mstep; cbn [fst].
  - right. eauto.
  - destruct (negb (Success cfResp)); mstep; cbn [fst].
    + right. eauto.
    + left. exists (Result cfResp). split; [reflexivity |]. split.
      * destruct (Result cfResp); reflexivity.
      * intros Hw r rest Hr. eapply Hw; eauto.
Qed.

Lemma created_agree (w : World) (lu : Legacy.DNSUpdater)
    (ru : Refactored.DNSUpdater) (recordType ip : string) :
  same_config lu ru ->
  (exists ok,
     LegacyNotions.created w lu recordType ip true = (ok, None)
     /\ mutation w ru recordType None ip = (ok, None))
  \/ (exists e e',
        LegacyNotions.created w lu recordType ip true = (false, Some e)
        /\ mutation w ru recordType None ip = (false, Some e')).
Proof.
  intros (Hz & Ht & Hh & _ & _ & Hc).
  unfold LegacyNotions.created, mutation, Legacy.createRecord,
    Refactored.updateRecord, CloudflareClient.CreateDNSRecord,
    CloudflareClient.create_url, CloudflareClient.CloudflareAPIBaseURL.
  mstep. rewrite Hz, Ht, Hh, Hc. cbn [CloudflareClient.zoneID CloudflareClient.apiToken].
  cbn [String.append].
  destruct (api_send w _ _ _ _) as [f | cfResp]; mstep; cbn [fst]; eauto.
Qed.

Lemma updated_agree (w : World) (lu : Legacy.DNSUpdater)
    (ru : Refactored.DNSUpdater) (recordType ip : string)
    (r : Refactored.DNSRecordInfo.t) :
  same_config lu ru ->
  (exists ok,
     LegacyNotions.updated w lu recordType (Refactored.DNSRecordInfo.ID r) ip
       (Refactored.DNSRecordInfo.Proxied r) = (ok, None)
     /\ mutation w ru recordType (Some r) ip = (ok, None))
  \/ (exists e e',
        LegacyNotions.updated w lu recordType (Refactored.DNSRecordInfo.ID r) ip
          (Refactored.DNSRecordInfo.Proxied r) = (false, Some e)
        /\ mutation w ru recordType (Some r) ip = (false, Some e')).
Proof.
  intros (Hz & Ht & Hh & _ & _ & Hc).
  unfold LegacyNotions.updated, mutation, Legacy.updateRecord,
    Refactored.updateRecord, CloudflareClient.UpdateDNSRecord,
    CloudflareClient.update_url, CloudflareClient.CloudflareAPIBaseURL.
  mstep. rewrite Hz, Ht, Hh, Hc. cbn [CloudflareClient.zoneID CloudflareClient.apiToken].
  cbn [String.append].
  destruct (api_send w _ _ _ _) as [f | cfResp]; mstep; cbn [fst]; eauto.
Qed.

Lemma after_resolution_agree (w : World) (lu : Legacy.DNSUpdater)
    (ru ru0 : Refactored.DNSUpdater) (ipv4 ipv6 : string) (t1 : list Call) :
  same_config lu ru -> identified_records w ->
  ipv4 <> "" -> (Refactored.EnableIPv6 ru = true -> ipv6 <> "") ->
  Refactored.detectIPs w ru0 = (ipv4, ipv6, None, ru, t1) ->
  verdict (fst (fst (Legacy.Run_records ipv4 ipv6 w lu)))
  = verdict (fst (fst (Refactored.Run w ru0))).
Proof.
  intros Hs Hw H4 H6 Hd.
  rewrite Run_steps, Hd, LegacyFacts.Run_records_result. cbv zeta.
  unfold Refactored.RecordTypeA, Refactored.RecordTypeAAAA.
  apply String.eqb_neq in H4. rewrite H4. cbn [negb andb].
  assert (He : Legacy.EnableIPv6 lu = Refactored.EnableIPv6 ru) by apply Hs.
  rewrite He.
  destruct (records_agree w lu ru "A" Hs)
    as [(recsA & -> & -> & IdA) | (recsA & e & e' & -> & ->)];
    [| reflexivity].
  specialize (IdA Hw).
  assert (Q6 : Refactored.EnableIPv6 ru && negb (ipv6 =? "")%string
               = Refactored.EnableIPv6 ru).
  { destruct (Refactored.EnableIPv6 ru); [| reflexivity].
    specialize (H6 eq_refl). apply String.eqb_neq in H6. now rewrite H6. }
  rewrite Q6.
  assert (R6 : (exists recs6,
             (if Refactored.EnableIPv6 ru then LegacyNotions.records w lu "AAAA"
              else ([], None)) = (recs6, None)
             /\ (if Refactored.EnableIPv6 ru then currentRecord w ru "AAAA"
                 else (None, None)) = (option_map info (hd_error recs6), None)
             /\ (forall r rest, recs6 = r :: rest -> DNSRecord.ID r <> ""))
           \/ exists recs6 e e',
               (if Refactored.EnableIPv6 ru then LegacyNotions.records w lu "AAAA"
                else ([], None)) = (recs6, Some e)
               /\ (if Refactored.EnableIPv6 ru then currentRecord w ru "AAAA"
                   else (None, None)) = (None, Some e')).
  { destruct (Refactored.EnableIPv6 ru).
    - destruct (records_agree w lu ru "AAAA" Hs)
        as [(recs6 & E1 & E2 & Id6) | (recs6 & e & e' & E1 & E2)].
      + left. exists recs6. split; [exact E1 |]. split; [exact E2 |].
        exact (Id6 Hw).
      + right. eauto.
    - left. exists []. repeat split; discriminate. }
  destruct R6 as [(recs6 & -> & -> & Id6) | (recs6 & e & e' & -> & ->)].
  2: { destruct (Legacy.firstRecord recsA) as [[a b] c]. reflexivity. }
  rewrite needsUpdate_requiresChange, updateRecords_run.
  unfold requiresChange, LegacyNotions.stale, LegacyNotions.mutated.
  rewrite H4. cbn [negb andb].
  unfold Refactored.RecordTypeA, Refactored.RecordTypeAAAA.
  destruct recsA as [| rA restA], recs6 as [| rB restB];
    cbn [Legacy.firstRecord hd_error option_map Refactored.nilOrDiffers];
    unfold info; cbn [Refactored.DNSRecordInfo.Content];
    repeat match goal with
    | H : forall r rest, ?x :: ?l = r :: rest -> _ |- _ =>
        let N := fresh "N" in
        pose proof (H x l eq_refl) as N; apply String.eqb_neq in N;
        rewrite ?N; clear H
    | H : forall r rest, [] = r :: rest -> _ |- _ => clear H
    end;
    rewrite ?(String.eqb_sym "" ipv4), ?H4, ?String.eqb_refl;
    (destruct (Refactored.EnableIPv6 ru) eqn:En;
     [specialize (H6 eq_refl); apply String.eqb_neq in H6;
      rewrite ?(String.eqb_sym "" ipv6), ?H6 |]);
    cbn [orb andb negb];
    repeat match goal with
    | |- context [(DNSRecord.Content ?r =? ?ip)%string] =>
        destruct (DNSRecord.Content r =? ip)%string; cbn [orb andb negb]
    end;
    repeat match goal with
    | |- context [LegacyNotions.created w lu ?rt ?ip true] =>
        destruct (created_agree w lu ru rt ip Hs)
          as [(? & -> & ->) | (? & ? & -> & ->)]
    | |- context [LegacyNotions.updated w lu ?rt (DNSRecord.ID ?r) ?ip
                    (DNSRecord.Proxied ?r)] =>
        let X := fresh "X" in
        pose proof (updated_agree w lu ru rt ip (info r) Hs) as X;
        unfold info in X;
        cbn [Refactored.DNSRecordInfo.ID Refactored.DNSRecordInfo.Proxied] in X;
        destruct X as [(? & -> & ->) | (? & ? & -> & ->)]
    end;
    rewrite ?orb_true_r, ?andb_false_r;
    cbn [combine LegacyNotions.update_result verdict fst snd orb andb negb];
    repeat match goal with b : bool |- _ => destruct b end;
    reflexivity.
Qed.

Lemma tryServices_valid (valid : string -> bool) (services : list string)
    (w : World) (ip : string) (t : list Call) :
  tryServices valid services w = (Some ip, t) -> valid ip = true.
Proof.
  revert t. induction services as [| s rest IH]; intros t; cbn [tryServices];
    mstep; [discriminate |].
  destruct (http_get w s) as [e | body].
  - destruct (tryServices valid rest w) as [r t'] eqn:E. intros [= -> _]. eauto.
  - destruct (valid (strings.TrimSpace body)) eqn:V.
    + intros [= <- _]. exact V.
    + destruct (tryServices valid rest w) as [r t'] eqn:E. intros [= -> _]. eauto.
Qed.

Lemma scanAddrs_In (addrs : list IfaceAddr) (ip : string) :
  scanAddrs addrs = Some ip -> exists addr, In addr addrs /\ ipString addr = ip.
Proof.
  induction addrs as [| a addrs IH]; cbn [scanAddrs]; [discriminate |].
  destruct (negb (isIPNet a)).
  { intros H. destruct (IH H) as (x & ? & ?). exists x. split; [now right | auto]. }
  destruct (hasTo4 a || IsLinkLocalUnicast a).
  { intros H. destruct (IH H) as (x & ? & ?). exists x. split; [now right | auto]. }
  destruct (hasTo16 a && IsGlobalUnicast a).
  - intros [= <-]. exists a. split; [now left | reflexivity].
  - intros H. destruct (IH H) as (x & ? & ?). exists x. split; [now right | auto].
Qed.

Lemma scanInterfaces_In (interfaces : list Interface) (ip : string) :
  scanInterfaces interfaces = Some ip ->
  exists iface addrs addr,
    In iface interfaces /\ Addrs iface = inr addrs /\ In addr addrs
    /\ ipString addr = ip.
Proof.
  induction interfaces as [| i rest IH]; cbn [scanInterfaces]; [discriminate |].
  assert (K : scanInterfaces rest = Some ip ->
              exists iface addrs addr,
                In iface (i :: rest) /\ Addrs iface = inr addrs /\ In addr addrs
                /\ ipString addr = ip).
  { intros H. destruct (IH H) as (x & a & b & ? & ? & ? & ?).
    exists x, a, b. repeat split; auto. now right. }
  destruct (negb (FlagUp i) || FlagLoopback i); [exact K |].
  destruct (Addrs i) as [e | addrs] eqn:Ea; [exact K |].
  destruct (scanAddrs addrs) as [ip' |] eqn:Es; [| exact K].
  intros [= ->]. destruct (scanAddrs_In addrs ip Es) as (addr & Hin & Hip).
  exists i, addrs, addr. repeat split; auto. now left.
Qed.

Lemma DetectIPv6_success (w : World) (ip : string) (t : list Call) :
  printable_addresses w -> DetectIPv6 w = (ip, None, t) -> ip <> "".
Proof.
  intros Hp. unfold DetectIPv6, detectIPv6FromInterfaces. mstep.
  destruct (tryServices IsIPv6 ipv6Services w) as [[ipStr |] t1] eqn:E.
  - intros [= <- _]. apply tryServices_valid in E. intros ->. discriminate E.
  - destruct (net_Interfaces w) as [e | ifaces] eqn:Ei; [discriminate |].
    destruct (scanInterfaces ifaces) as [ip' |] eqn:Es; [| discriminate].
    intros [= <- _].
    destruct (scanInterfaces_In ifaces ip' Es) as (iface & addrs & addr & H1 & H2 & H3 & <-).
    eapply Hp; eauto.
Qed.

Lemma verdict_agree (l r : string * option error) :
  verdict l = verdict r ->
  (snd l = None <-> snd r = None) /\ (snd l = None -> fst l = fst r).
Proof.
  destruct l as [ls [le |]], r as [rs [re |]]; cbn [verdict fst snd];
    intros H; try discriminate; split; try tauto; try (split; discriminate);
    try discriminate.
  intros _. congruence.
Qed.

(** C10 (amended). When the IPv4 address of the run is given explicitly,
    or is the bare answer of the first IPv4 endpoint, the two updaters agree
    on whether [Run] returns an error and, when it returns none, on the
    outcome string, provided that the records the provider lists have
    identifiers and that interface addresses have a textual form. *)
Theorem updaters_agree_on_IPv4 (w : World)
    (zoneID apiToken hostname ipAddr : string) (enableIPv6 : bool)
    (ipv4 : string) :
  resolves w ipAddr ipv4 ->
  identified_records w -> printable_addresses w ->
  let legacy :=
    fst (fst (Legacy.Run w
                (Legacy.NewDNSUpdater zoneID apiToken hostname ipAddr enableIPv6))) in
  let refactored :=
    fst (fst (Refactored.Run w
                (Refactored.NewDNSUpdater zoneID apiToken hostname ipAddr
                   enableIPv6))) in
  (snd legacy = None <-> snd refactored = None)
  /\ (snd legacy = None -> fst legacy = fst refactored).
Proof.
  intros Hr Hw Hp. cbv zeta. apply verdict_agree.
  set (lu := Legacy.NewDNSUpdater zoneID apiToken hostname ipAddr enableIPv6).
  set (ru := Refactored.NewDNSUpdater zoneID apiToken hostname ipAddr enableIPv6).
  destruct (detectIPs_IPv4 w ru ipv4 Hr) as [t4 Hd].
  destruct Hr as [H4 Hr].
  assert (Hne : ipv4 <> "") by (intros ->; discriminate H4).
  assert (Hs : same_config lu ru) by (repeat split).
  assert (Hs' : same_config (Legacy.set_EnableIPv6 false lu)
                  (Refactored.set_EnableIPv6 false ru)) by (repeat split).
  assert (HL : fst (Legacy.Run w lu)
               = if enableIPv6 then
                   let ipv6 := fst (fst (DetectIPv6 w)) in
                   if is_none (snd (fst (DetectIPv6 w)))
                      && negb (ipv6 =? "")%string
                   then fst (Legacy.Run_records ipv4 ipv6 w lu)
                   else fst (Legacy.Run_records ipv4 ipv6 w
                               (Legacy.set_EnableIPv6 false lu))
                 else fst (Legacy.Run_records ipv4 "" w lu)).
  { destruct Hr as [E | [E Hg]].
    - subst ipv4. apply (LegacyFacts.Run_explicit_IPv4 w lu Hne H4).
    - apply (LegacyFacts.Run_detected_IPv4 w lu ipv4 E Hg). }
  rewrite HL. clear HL Hr.
  cbn [Refactored.EnableIPv6 ru Refactored.NewDNSUpdater] in Hd.
  fold ru in Hd.
  destruct enableIPv6.
  - destruct (DetectIPv6 w) as [[ip6 [e |]] t6] eqn:D6; cbn [fst snd is_none andb].
    + pose proof (DetectIPv6_failure w ip6 e t6 D6) as ->.
      eapply after_resolution_agree; eauto. intros E. discriminate E.
    + pose proof (DetectIPv6_success w ip6 t6 Hp D6) as N6.
      apply String.eqb_neq in N6. rewrite N6. cbn [negb].
      eapply after_resolution_agree; eauto.
      intros _. now apply String.eqb_neq.
  - eapply after_resolution_agree; eauto. intros E. discriminate E.
Qed.

(** C10, as stated, fails. With the same configuration and the same
    collaborator responses: when the first IPv4 endpoint is down and a later
    one answers, the legacy updater returns an error and the refactored one
    succeeds; for an explicit IPv6 address the legacy updater reports an
    update, without sending any request, and the refactored one reports no
    change; when both mutations are refused the two outcome strings
    differ. *)
Lemma updaters_disagree :
  let w := Examples.both_stale (Examples.answered true) (Examples.answered true) in
  let refused := Examples.both_stale (Examples.answered false) (Examples.answered false) in
  (fst (fst (Legacy.Run w (Examples.legacy_updater "" true)))
   = ("", Some "connection refused")
   /\ fst (fst (Refactored.Run w (Examples.updater "" true)))
      = (Refactored.StatusGood, None))
  /\ (fst (fst (Legacy.Run w (Examples.legacy_updater "2001:db8::1" true)))
      = ("update successful", None)
      /\ fst (fst (Refactored.Run w (Examples.updater "2001:db8::1" true)))
         = ("no changes needed", None))
  /\ (fst (fst (Legacy.Run refused (Examples.legacy_updater "203.0.113.7" true)))
      = ("authentication_failed",
         Some "failed to update DNS records due to authentication error")
      /\ fst (fst (Refactored.Run refused (Examples.updater "203.0.113.7" true)))
         = ("authentication error", Some "failed to update DNS records")).
Proof. vm_compute. repeat split. Qed.

Lemma updaters_agree_on_IPv4_witness :
  let w := Examples.both_stale (Examples.answered true) (Examples.answered true) in
  let agree (l r : string * option error) :=
    (snd l = None <-> snd r = None) /\ (snd l = None -> fst l = fst r) in
  agree (fst (fst (Legacy.Run w (Examples.legacy_updater "203.0.113.7" true))))
    (fst (fst (Refactored.Run w (Examples.updater "203.0.113.7" true))))
  /\ agree (fst (fst (Legacy.Run Examples.up_to_date (Examples.legacy_updater "" true))))
       (fst (fst (Refactored.Run Examples.up_to_date (Examples.updater "" true)))).
Proof.
  cbv zeta. split.
  - apply (updaters_agree_on_IPv4
             (Examples.both_stale (Examples.answered true) (Examples.answered true))
             Examples.zone Examples.token Examples.host "203.0.113.7" true
             "203.0.113.7").
    + split; [reflexivity | left; reflexivity].
    + intros url tok resp r rest H E. cbn in H.
      destruct (url =? _)%string; injection H as <-; cbn in E.
      * discriminate E.
      * injection E as <- _. discriminate.
    + intros interfaces iface addrs addr H. discriminate H.
  - apply (updaters_agree_on_IPv4 Examples.up_to_date
             Examples.zone Examples.token Examples.host "" true "203.0.113.7").
    + split; [reflexivity | right; split; reflexivity].
    + intros url tok resp r rest H E. cbn in H.
      destruct (url =? _)%string; injection H as <-; cbn in E.
      * discriminate E.
      * injection E as <- _. discriminate.
    + intros interfaces iface addrs addr H Hi Ha Hin. injection H as <-.
      destruct Hi as [<- | []]. injection Ha as <-.
      destruct Hin as [<- | []]. discriminate.
Defined.

End Agreement.

(** ** The command *)

Module MainFacts.
Import RefactoredNotions RefactoredFacts MainNotions.

Lemma Refactored_Run_results (w : World) (u : Refactored.DNSUpdater) :
  status_result (fst (fst (Refactored.Run w u))).
Proof.
  unfold status_result. rewrite Run_steps.
  destruct (Refactored.detectIPs w u) as [[[[ipv4 ipv6] [e |]] u1] t1];
    [cbn; eauto |].
  cbv zeta.
  destruct (currentRecord w u1 Refactored.RecordTypeA) as [v4 [e |]];
    [cbn; eauto |].
  destruct (if Refactored.EnableIPv6 u1 && negb (ipv6 =? "")%string
            then currentRecord w u1 Refactored.RecordTypeAAAA else (None, None))
    as [v6 [e |]]; [cbn; eauto |].
  destruct (negb (Refactored.needsUpdate u1 ipv4 ipv6 v4 v6)); [cbn; auto |].
  rewrite updateRecords_run.
  match goal with |- context [combine ?a ?b] =>
    destruct a as [[|] [e4 |]], b as [[|] [e6 |]] end;
    cbn [combine fst snd orb];
    first [ left; eexists; reflexivity
          | right; left; reflexivity
          | right; right; reflexivity ].
Qed.

Lemma update_result_status (enabled : bool)
    (r4 r6 : option (bool * option error)) :
  status_result (LegacyNotions.update_result enabled r4 r6).
Proof.
  unfold status_result.
  destruct enabled, r4 as [[[|] [e4 |]] |], r6 as [[[|] [e6 |]] |];
    cbn [LegacyNotions.update_result fst snd orb negb];
    first [ left; eexists; reflexivity
          | right; left; reflexivity
          | right; right; reflexivity ].
Qed.

Lemma Legacy_Run_records_results (ipv4 ipv6 : string) (w : World)
    (u : Legacy.DNSUpdater) :
  status_result (fst (fst (Legacy.Run_records ipv4 ipv6 w u))).
Proof.
  rewrite LegacyFacts.Run_records_result.
  destruct (if negb (ipv4 =? "")%string then LegacyNotions.records w u "A"
            else ([], None)) as [recsA [e |]];
    [left; cbn; eauto |].
  destruct (Legacy.firstRecord recsA) as [[a b] c].
  destruct (if Legacy.EnableIPv6 u && negb (ipv6 =? "")%string
            then LegacyNotions.records w u "AAAA" else ([], None))
    as [recs6 [e |]]; [left; cbn; eauto |].
  destruct (Legacy.firstRecord recs6) as [[a6 b6] c6].
  match goal with |- context [if ?c then _ else _] => destruct c end;
    [right; left; reflexivity |].
  cbn [fst].
  apply update_result_status.
Qed.

Lemma Legacy_Run_cases (w : World) (u : Legacy.DNSUpdater) :
  exists ipv4 ipv6 u',
    fst (fst (Legacy.Run w u)) = fst (fst (Legacy.Run_records ipv4 ipv6 w u'))
    \/ exists e, fst (fst (Legacy.Run w u)) = ("", Some e).
Proof.
  unfold Legacy.Run, Legacy.detectIPv4. mstep.
  repeat (mstep;
          match goal with
          | |- context [if ?c then _ else _] => destruct c
          | |- context [match http_get ?w0 ?s with _ => _ end] =>
              destruct (http_get w0 s)
          | |- context [Legacy.detectIPv6 ?w0 ?u0] =>
              destruct (Legacy.detectIPv6 w0 u0) as [[[? ?] ?] ?]
          end);
    mstep;
    try match goal with
        | |- context [Legacy.Run_records ?a ?b w ?u0] =>
            exists a, b, u0; left;
            destruct (Legacy.Run_records a b w u0) as [[? ?] ?]; reflexivity
        end;
    exists "", "", u; right; eexists; reflexivity.
Qed.

Lemma Legacy_Run_results (w : World) (u : Legacy.DNSUpdater) :
  status_result (fst (fst (Legacy.Run w u))).
Proof.
  destruct (Legacy_Run_cases w u) as (ipv4 & ipv6 & u' & [-> | [e ->]]).
  - apply Legacy_Run_records_results.
  - left. cbn. eauto.
Qed.

Lemma main_prints_status {U : Type}
    (NewDNSUpdater : string -> string -> string -> string -> bool -> U)
    (Run : M U (string * option error)) :
  (forall w u, status_result (fst (fst (Run w u)))) ->
  forall w zoneID apiToken hostname ipAddr enableIPv6,
    prints_status (main NewDNSUpdater Run w zoneID apiToken hostname ipAddr
                     enableIPv6).
Proof.
  intros HR w zoneID apiToken hostname ipAddr enableIPv6.
  assert (T : forall s, (s = "missing-credentials" \/ s = "authentication-error"
                         \/ s = "no changes needed" \/ s = "update successful"
                         \/ exists e, s = ("Error: " ++ e)%string) ->
                        ~ public_token s).
  { intros s H [P | [P | P]]; subst s;
      repeat match goal with
      | H : _ \/ _ |- _ => destruct H
      | H : exists _, _ |- _ => destruct H
      end; discriminate. }
  unfold main, prints_status.
  destruct ((zoneID =? "")%string || (apiToken =? "")%string
            || (hostname =? "")%string).
  { cbn [stdout]. split; [do 2 eexists; split; [reflexivity | tauto] |].
    constructor; [apply T; tauto |].
    constructor; [| constructor].
    apply T. do 4 right. eexists. reflexivity. }
  specialize (HR w (NewDNSUpdater zoneID apiToken hostname ipAddr enableIPv6)).
  destruct (Run w (NewDNSUpdater zoneID apiToken hostname ipAddr enableIPv6))
    as [[[result err] u'] trace].
  cbn [fst snd] in HR.
  destruct HR as [[e He] | [He | He]]; cbn [snd] in He.
  - subst err. cbn [stdout].
    split; [do 2 eexists; split; [reflexivity | tauto] |].
    constructor; [apply T; tauto |].
    constructor; [| constructor].
    apply T. do 4 right. eexists. reflexivity.
  - injection He as -> ->. cbn [stdout].
    split; [do 2 eexists; split; [reflexivity | tauto] |].
    constructor; [apply T; tauto | constructor].
  - injection He as -> ->. cbn [stdout].
    split; [do 2 eexists; split; [reflexivity | tauto] |].
    constructor; [apply T; tauto | constructor].
Qed.

(** C2. Whatever the configuration and the world, the first line the
    command prints is one of "missing-credentials", "authentication-error",
    "no changes needed" and "update successful", and it prints none of the
    tokens "good", "nochg" and "badauth"; this holds with either updater. *)
Theorem main_prints_no_public_token (w : World)
    (zoneID apiToken hostname ipAddr : string) (enableIPv6 : bool) :
  prints_status (main_refactored w zoneID apiToken hostname ipAddr enableIPv6)
  /\ prints_status (main_legacy w zoneID apiToken hostname ipAddr enableIPv6).
Proof.
  split.
  - apply main_prints_status, Refactored_Run_results.
  - apply main_prints_status, Legacy_Run_results.
Qed.

(** C2: the lines the command prints when nothing has changed, after an
    update, when detection fails, and without a zone identifier. *)
Lemma main_prints_other_lines :
  let run w zoneID := main_refactored w zoneID Examples.token Examples.host "" true in
  stdout (run Examples.up_to_date Examples.zone) = [ "no changes needed" ]
  /\ exit_status (run Examples.up_to_date Examples.zone) = 0
  /\ stdout (run (Examples.both_stale (Examples.answered true)
                    (Examples.answered true)) Examples.zone)
     = [ "update successful" ]
  /\ stdout (run Examples.cut_off Examples.zone)
     = [ "authentication-error";
         "Error: IP detection failed: detect IPv4: failed to detect public IPv4 address" ]
  /\ stdout (run Examples.cut_off "")
     = [ "missing-credentials";
         "Error: zone-id, api-token, and hostname are required" ].
Proof. vm_compute. repeat split. Qed.

End MainFacts.

(** ** The detector, endpoint by endpoint *)

Module DetectorFacts.
Import DetectorNotions.

Lemma tryServices_outcome (valid : string -> bool) (services : list string)
    (w : World) :
  (exists ip t,
     tryServices valid services w = (Some ip, t)
     /\ answered_by valid w services ip t)
  \/ (tryServices valid services w = (None, map LookupCall services)
      /\ Forall (skipped valid w) services).
Proof.
  induction services as [| s rest IH]; cbn [tryServices]; mstep.
  { right. split; [reflexivity | constructor]. }
  destruct (http_get w s) as [e | body] eqn:Hs.
  - destruct IH as [(ip & t & -> & pre & s' & post & body & E & Hp & Hg & Hi & Hv & Ht)
                   | [-> Hf]].
    + left. exists ip, (LookupCall s :: t). split; [reflexivity |].
      exists (s :: pre), s', post, body. subst rest t.
      repeat split; auto. constructor; [| exact Hp].
      unfold skipped. now rewrite Hs.
    + right. split; [reflexivity |]. constructor; [| exact Hf].
      unfold skipped. now rewrite Hs.
  - destruct (valid (strings.TrimSpace body)) eqn:Hv.
    + left. exists (strings.TrimSpace body), [LookupCall s].
      split; [reflexivity |]. exists [], s, rest, body. repeat split; auto.
    + destruct IH as [(ip & t & -> & pre & s' & post & body' & E & Hp & Hg & Hi & Hv' & Ht)
                     | [-> Hf]].
      * left. exists ip, (LookupCall s :: t). split; [reflexivity |].
        exists (s :: pre), s', post, body'. subst rest t.
        repeat split; auto. constructor; [| exact Hp].
        unfold skipped. now rewrite Hs.
      * right. split; [reflexivity |]. constructor; [| exact Hf].
        unfold skipped. now rewrite Hs.
Qed.

(** X1. [DetectIPv4] ends in one of two ways.  Either an endpoint
    answered: the result is its trimmed body, which [IsIPv4] accepts, the
    endpoints before it were skipped and the lookups are those up to it,
    each once and in order.  Or every endpoint was skipped: all three were
    looked up and the result is the empty string with the error. *)
Theorem DetectIPv4_outcome (w : World) :
  (exists ip t,
     DetectIPv4 w = (ip, None, t) /\ answered_by IsIPv4 w ipv4Services ip t)
  \/ (DetectIPv4 w
      = ("", Some "failed to detect public IPv4 address",
         map LookupCall ipv4Services)
      /\ Forall (skipped IsIPv4 w) ipv4Services).
Proof.
  unfold DetectIPv4. mstep.
  destruct (tryServices_outcome IsIPv4 ipv4Services w)
    as [(ip & t & -> & H) | [-> H]]; mstep.
  - left. exists ip, t. rewrite ?app_nil_r. auto.
  - right. rewrite ?app_nil_r. auto.
Qed.

Lemma scanAddrs_first (addrs : list IfaceAddr) :
  scanAddrs addrs = hd_error (map ipString (filter suitable addrs)).
Proof.
  induction addrs as [| a addrs IH]; cbn [scanAddrs filter]; [reflexivity |].
  unfold suitable at 1.
  destruct (isIPNet a), (hasTo4 a), (IsLinkLocalUnicast a), (hasTo16 a),
    (IsGlobalUnicast a); cbn [negb orb andb map hd_error]; auto.
Qed.

Lemma hd_error_app {A : Type} (l1 l2 : list A) :
  hd_error (l1 ++ l2)
  = match hd_error l1 with Some x => Some x | None => hd_error l2 end.
Proof. destruct l1; reflexivity. Qed.

Lemma scanInterfaces_first (interfaces : list Interface) :
  scanInterfaces interfaces = hd_error (map ipString (candidates interfaces)).
Proof.
  induction interfaces as [| i rest IH]; cbn [scanInterfaces candidates flat_map];
    [reflexivity |].
  fold (candidates rest). rewrite map_app, hd_error_app. unfold usable.
  destruct (FlagUp i), (FlagLoopback i); cbn [negb orb andb map hd_error]; auto.
  destruct (Addrs i) as [e | addrs]; cbn [map hd_error]; auto.
  rewrite scanAddrs_first.
  destruct (hd_error (map ipString (filter suitable addrs))); auto.
Qed.

(** X3. The fallback on the interfaces returns the address of the first
    accepted address, in the order of the interfaces and of their
    addresses: one of an interface that is up and not a loopback and whose
    addresses can be read, that is an IP network address, not an IPv4
    address, not link-local, and a global unicast address.  It finds
    nothing exactly when there is no such address. *)
Theorem fallback_takes_first_candidate (interfaces : list Interface) :
  scanInterfaces interfaces = hd_error (map ipString (candidates interfaces))
  /\ (scanInterfaces interfaces = None <-> candidates interfaces = [])
  /\ (forall ip, scanInterfaces interfaces = Some ip ->
      exists iface addrs addr,
        In iface interfaces /\ usable iface = true
        /\ Addrs iface = inr addrs /\ In addr addrs
        /\ suitable addr = true /\ ipString addr = ip).
Proof.
  rewrite scanInterfaces_first. split; [reflexivity | split].
  - destruct (candidates interfaces); cbn [map hd_error]; split;
      intros H; try reflexivity; discriminate H.
  - intros ip H.
    destruct (candidates interfaces) as [| addr rest] eqn:E; [discriminate H |].
    cbn [map hd_error] in H. injection H as <-.
    assert (Hin : In addr (candidates interfaces)) by (rewrite E; now left).
    unfold candidates in Hin. apply in_flat_map in Hin.
    destruct Hin as (iface & Hi & Ha).
    destruct (usable iface) eqn:Hu; [| destruct Ha].
    destruct (Addrs iface) as [e | addrs] eqn:Hd; [destruct Ha |].
    apply filter_In in Ha. destruct Ha as [Ha Hs].
    exists iface, addrs, addr. repeat split; auto.
Qed.

(** X2. [DetectIPv6] looks at the interfaces only when every endpoint
    was skipped.  When an endpoint answers, the result is its trimmed
    body, which [IsIPv6] accepts, and the interfaces are not listed.
    Otherwise all three endpoints and then the interfaces are consulted,
    and the result is the first accepted interface address, or the empty
    string with one and the same error whether the interfaces could not
    be listed or held no accepted address. *)
Theorem DetectIPv6_outcome (w : World) :
  (exists ip t,
     DetectIPv6 w = (ip, None, t)
     /\ answered_by IsIPv6 w ipv6Services ip t
     /\ ~ In InterfacesCall t)
  \/ (DetectIPv6 w
      = (fallback w, map LookupCall ipv6Services ++ [InterfacesCall])
      /\ Forall (skipped IsIPv6 w) ipv6Services).
Proof.
  unfold DetectIPv6, detectIPv6FromInterfaces, fallback. mstep.
  destruct (tryServices_outcome IsIPv6 ipv6Services w)
    as [(ip & t & -> & H) | [-> H]]; mstep.
  - left. exists ip, t. rewrite ?app_nil_r. repeat split; auto.
    destruct H as (pre & s & post & body & _ & _ & _ & _ & _ & ->).
    intros Hin. apply in_map_iff in Hin. destruct Hin as (x & Hx & _).
    discriminate Hx.
  - right. split; [| exact H].
    destruct (net_Interfaces w) as [e | interfaces]; mstep.
    + now rewrite ?app_nil_r.
    + rewrite scanInterfaces_first.
      destruct (candidates interfaces) as [| addr rest]; cbn [map hd_error];
        mstep; now rewrite ?app_nil_r.
Qed.

(** X4. [detectIPv6] of the single-file updater returns the address of
    the detector's [DetectIPv6] after the same requests, and an error
    exactly when the detector returns one; only the message differs when
    the interfaces cannot be listed. *)
Theorem legacy_detectIPv6_agrees (w : World) (u : Legacy.DNSUpdater) :
  Legacy.detectIPv6 w u
  = (fst (fst (DetectIPv6 w)),
     match snd (fst (DetectIPv6 w)), net_Interfaces w with
     | None, _ => None
     | Some _, inl _ =>
         Some "failed to get IPv6 address: both external services and local interfaces failed"
     | Some e, inr _ => Some e
     end,
     u, snd (DetectIPv6 w)).
Proof.
  unfold Legacy.detectIPv6, DetectIPv6, detectIPv6FromInterfaces. mstep.
  change (tryServices Legacy.isIPv6 Legacy.ipv6Services w)
    with (tryServices IsIPv6 ipv6Services w).
  destruct (tryServices IsIPv6 ipv6Services w) as [[ipStr |] t]; mstep.
  - reflexivity.
  - destruct (net_Interfaces w) as [e | ifaces];
      [| destruct (scanInterfaces ifaces)]; mstep; reflexivity.
Qed.

End DetectorFacts.

(** ** The requests and the results of a run *)

Module RunFacts.
Import Refactored RefactoredNotions RefactoredFacts RunNotions.

Lemma mutationCall_write (u : DNSUpdater) (recordType : string)
    (record : option DNSRecordInfo.t) (ip : string) :
  write_of (cfClient u) recordType (Hostname u)
    (mutationCall u recordType record ip).
Proof.
  destruct record as [r |]; cbn [mutationCall]; [right | left]; eauto.
Qed.

Lemma Run_requests_of (w : World) (u : DNSUpdater) :
  exists t1 tA,
    snd (Run w u) = t1 ++ tA
    /\ t1 = snd (detectIPs w u)
    /\ api_requests (cfClient u) (Hostname u) tA.
Proof.
  rewrite Run_steps.
  destruct (detectIPs_fields w u) as (_ & _ & Hh & _ & Hc).
  destruct (detectIPs w u) as [[[[ipv4 ipv6] err] u1] t1]. cbn [fst snd] in *.
  rewrite Hh, Hc.
  destruct err as [e |].
  { exists t1, []. rewrite app_nil_r. repeat split. now left. }
  cbv zeta.
  destruct (currentRecord w u1 RecordTypeA) as [v4Record [e |]].
  { exists t1, [ListCall (cfClient u) RecordTypeA (Hostname u)].
    repeat split. right. exists [], [], []. repeat split; auto; now left. }
  set (fetch6 := EnableIPv6 u1 && negb (ipv6 =? "")%string).
  assert (L6 : (if fetch6 then [ListCall (cfClient u) RecordTypeAAAA (Hostname u)]
                else [])
               = []
               \/ (if fetch6 then [ListCall (cfClient u) RecordTypeAAAA (Hostname u)]
                   else [])
                  = [ListCall (cfClient u) "AAAA" (Hostname u)])
    by (destruct fetch6; auto).
  destruct (if fetch6 then currentRecord w u1 RecordTypeAAAA else (None, None))
    as [v6Record [e |]].
  { exists t1. eexists. split; [reflexivity |]. split; [reflexivity |].
    right. eexists _, [], []. rewrite !app_nil_r.
    repeat split; auto; now left. }
  destruct (negb (needsUpdate u1 ipv4 ipv6 v4Record v6Record)).
  { exists t1. eexists. split; [reflexivity |]. split; [reflexivity |].
    right. eexists _, [], []. rewrite !app_nil_r.
    repeat split; auto; now left. }
  rewrite updateRecords_run. cbn [snd].
  exists t1. eexists. split; [reflexivity |]. split; [reflexivity |].
  right. eexists _, _, _. split; [reflexivity |]. split; [exact L6 |].
  split; [| split].
  - destruct (requiresChange true ipv4 v4Record); [right | now left].
    eexists. split; [reflexivity |].
    rewrite <- Hh, <- Hc. apply mutationCall_write.
  - destruct (requiresChange (EnableIPv6 u1) ipv6 v6Record); [right | now left].
    eexists. split; [reflexivity |].
    rewrite <- Hh, <- Hc. apply mutationCall_write.
  - unfold requiresChange. fold fetch6. destruct fetch6; [discriminate |].
    reflexivity.
Qed.

(** X5. The requests of a run are those of address detection followed by
    the API requests.  For an updater made by [NewDNSUpdater] the API
    requests all carry the configured token and go to the configured zone
    for the configured host: the query for the A record, then possibly the
    query for the AAAA record, then at most one write of the A record and at
    most one of the AAAA record, the latter only after the AAAA query. *)
Theorem Run_requests (w : World) (zoneID apiToken hostname ipAddr : string)
    (enableIPv6 : bool) :
  let u := NewDNSUpdater zoneID apiToken hostname ipAddr enableIPv6 in
  exists t1 tA,
    snd (Run w u) = t1 ++ tA
    /\ filter is_api t1 = []
    /\ api_requests (CloudflareClient.NewCloudflareClient zoneID apiToken)
         hostname tA.
Proof.
  cbv zeta.
  destruct (Run_requests_of w
              (NewDNSUpdater zoneID apiToken hostname ipAddr enableIPv6))
    as (t1 & tA & E & -> & H).
  eexists _, tA. split; [exact E |]. split; [apply detectIPs_calls | exact H].
Qed.

(** X6. [Run] has three kinds of result: the status "authentication
    error" with an error; "no changes needed" without an error, and then
    no write was sent; "update successful" without an error, and then at
    least one write was sent. *)
Theorem Run_outcomes (w : World) (u : DNSUpdater) :
  (exists e, fst (fst (Run w u)) = (StatusAuthError, Some e))
  \/ (fst (fst (Run w u)) = (StatusNoChange, None)
      /\ filter is_mutation (snd (Run w u)) = [])
  \/ (fst (fst (Run w u)) = (StatusGood, None)
      /\ filter is_mutation (snd (Run w u)) <> []).
Proof.
  destruct (detectIPs w u) as [[[[ipv4 ipv6] err] u1] t1] eqn:Hd.
  destruct err as [e |].
  { left. rewrite Run_steps, Hd. cbv beta iota zeta. cbn [fst snd]. eauto. }
  destruct (currentRecord w u1 RecordTypeA) as [v4Record [e |]] eqn:HA.
  { left. rewrite Run_steps, Hd. cbv zeta. rewrite HA. cbn [fst snd]. eauto. }
  destruct (if EnableIPv6 u1 && negb (ipv6 =? "")%string
            then currentRecord w u1 RecordTypeAAAA else (None, None))
    as [v6Record [e |]] eqn:H6.
  { left. rewrite Run_steps, Hd. cbv zeta. rewrite HA, H6. cbn [fst snd]. eauto. }
  assert (H6' : if EnableIPv6 u1 && negb (ipv6 =? "")%string
                then currentRecord w u1 RecordTypeAAAA = (v6Record, None)
                else v6Record = None).
  { destruct (EnableIPv6 u1 && negb (ipv6 =? "")%string); congruence. }
  rewrite (Run_mutations w u u1 ipv4 ipv6 t1 v4Record v6Record Hd HA H6').
  rewrite Run_steps, Hd. cbv zeta. rewrite HA, H6.
  rewrite needsUpdate_requiresChange, updateRecords_run.
  destruct (requiresChange true ipv4 v4Record);
    destruct (requiresChange (EnableIPv6 u1) ipv6 v6Record);
    cbn [orb negb fst snd app].
  4: { right. left. split; reflexivity. }
  all: match goal with
       | |- context [combine ?a ?b] =>
           destruct (combine a b) as [res [e |]] eqn:C; cbn [fst snd];
           [left; eauto |]
       end;
    right; right;
    (split; [| discriminate]);
    unfold combine in C;
    repeat match type of C with
           | context [match ?x with _ => _ end] => destruct x
           end;
    congruence.
Qed.

(** X7. A write the provider refuses without an error.  When the A
    record is written and refused and the AAAA record is not written, the
    run fails if IPv6 is enabled and reports "update successful" if it is
    disabled.  When the A record needs no write and the AAAA write is
    refused, the run reports "update successful". *)
Theorem refused_write_outcome (w : World) (u u1 : DNSUpdater)
    (ipv4 ipv6 : string) (t1 : list Call)
    (v4Record v6Record : option DNSRecordInfo.t) :
  detectIPs w u = (ipv4, ipv6, None, u1, t1) ->
  currentRecord w u1 RecordTypeA = (v4Record, None) ->
  (if EnableIPv6 u1 && negb (ipv6 =? "")%string
   then currentRecord w u1 RecordTypeAAAA = (v6Record, None)
   else v6Record = None) ->
  (requiresChange true ipv4 v4Record = true ->
   mutation w u1 RecordTypeA v4Record ipv4 = (false, None) ->
   requiresChange (EnableIPv6 u1) ipv6 v6Record = false ->
   fst (fst (Run w u))
   = if EnableIPv6 u1
     then (StatusAuthError, Some "failed to update DNS records")
     else (StatusGood, None))
  /\ (requiresChange true ipv4 v4Record = false ->
      requiresChange (EnableIPv6 u1) ipv6 v6Record = true ->
      mutation w u1 RecordTypeAAAA v6Record ipv6 = (false, None) ->
      fst (fst (Run w u)) = (StatusGood, None)).
Proof.
  intros Hd HA H6.
  assert (F : (if EnableIPv6 u1 && negb (ipv6 =? "")%string
               then currentRecord w u1 RecordTypeAAAA else (None, None))
              = (v6Record, None)).
  { destruct (EnableIPv6 u1 && negb (ipv6 =? "")%string); congruence. }
  split.
  - intros R4 M4 R6.
    rewrite Run_steps, Hd. cbv zeta. rewrite HA, F.
    rewrite needsUpdate_requiresChange, R4. cbn [orb negb].
    rewrite updateRecords_run, R4, R6, M4. cbn [combine fst snd orb].
    destruct (EnableIPv6 u1); reflexivity.
  - intros R4 R6 M6.
    rewrite Run_steps, Hd. cbv zeta. rewrite HA, F.
    rewrite needsUpdate_requiresChange, R4, R6. cbn [orb negb].
    rewrite updateRecords_run, R4, R6, M6. reflexivity.
Qed.

Lemma refused_write_outcome_witness :
  (fst (fst (Run refused_A (Examples.updater "" true)))
   = (StatusAuthError, Some "failed to update DNS records")
   /\ fst (fst (Run refused_A (Examples.updater "" false))) = (StatusGood, None))
  /\ fst (fst (Run refused_AAAA (Examples.updater "" true))) = (StatusGood, None).
Proof.
  split; [split |].
  - apply (proj1 (refused_write_outcome refused_A
                    (Examples.updater "" true) (Examples.updater "" true)
                    "203.0.113.7" "2001:db8::7"
                    (map LookupCall ipv4Services
                       ++ [LookupCall "https://api6.ipify.org"])
                    (Some (DNSRecordInfo.mk "abc" "203.0.113.1" false))
                    (Some (DNSRecordInfo.mk "def" "2001:db8::7" false))
                    eq_refl eq_refl eq_refl));
      reflexivity.
  - apply (proj1 (refused_write_outcome refused_A
                    (Examples.updater "" false) (Examples.updater "" false)
                    "203.0.113.7" "" (map LookupCall ipv4Services)
                    (Some (DNSRecordInfo.mk "abc" "203.0.113.1" false)) None
                    eq_refl eq_refl eq_refl));
      reflexivity.
  - apply (proj2 (refused_write_outcome refused_AAAA
                    (Examples.updater "" true) (Examples.updater "" true)
                    "203.0.113.7" "2001:db8::7"
                    (map LookupCall ipv4Services
                       ++ [LookupCall "https://api6.ipify.org"])
                    (Some (DNSRecordInfo.mk "abc" "203.0.113.7" false)) None
                    eq_refl eq_refl eq_refl));
      reflexivity.
Defined.

Lemma currentRecord_client (w : World) (u u' : DNSUpdater) (recordType : string) :
  cfClient u' = cfClient u -> Hostname u' = Hostname u ->
  currentRecord w u' recordType = currentRecord w u recordType.
Proof.
  intros Hc Hh. unfold currentRecord, getCurrentRecord. mstep.
  rewrite Hc, Hh.
  destruct (CloudflareClient.GetDNSRecords _ _ _ w) as [[records [e |]] t];
    [| destruct records]; reflexivity.
Qed.

(** X8. An explicit IPv6 address is never written.  The run sends one
    request, the query for the A record, and reports "no changes needed",
    or the error of that query. *)
Theorem explicit_IPv6_is_never_written (w : World) (u : DNSUpdater) :
  IPAddr u <> "" -> IsIPv4 (IPAddr u) = false -> IsIPv6 (IPAddr u) = true ->
  snd (Run w u) = [ListCall (cfClient u) "A" (Hostname u)]
  /\ fst (fst (Run w u))
     = match snd (currentRecord w u "A") with
       | Some e => (StatusAuthError, Some e)
       | None => (StatusNoChange, None)
       end.
Proof.
  intros Hne H4 H6.
  rewrite Run_steps, (detectIPs_explicit_IPv6 w u Hne H4 H6). cbv zeta.
  rewrite (currentRecord_client w u (set_EnableIPv6 false u) RecordTypeA
             eq_refl eq_refl).
  cbn [EnableIPv6 set_EnableIPv6 cfClient Hostname andb app].
  unfold RecordTypeA.
  destruct (currentRecord w u "A") as [v4Record [e |]]; cbn [fst snd].
  - split; reflexivity.
  - rewrite needsUpdate_requiresChange. unfold requiresChange.
    cbn [EnableIPv6 set_EnableIPv6 String.eqb negb andb orb]. split; reflexivity.
Qed.

Lemma explicit_IPv6_is_never_written_witness :
  let w := Examples.both_stale (Examples.answered true) (Examples.answered true) in
  let u := Examples.updater "2001:db8::1" true in
  snd (Run w u) = [ListCall Examples.client "A" Examples.host]
  /\ fst (fst (Run w u)) = (StatusNoChange, None).
Proof.
  cbv zeta.
  apply (explicit_IPv6_is_never_written
           (Examples.both_stale (Examples.answered true) (Examples.answered true))
           (Examples.updater "2001:db8::1" true));
    [discriminate | reflexivity | reflexivity].
Defined.

(** X9. A query that fails ends the run with its error, which names the
    record type, before any write: when the query for the AAAA record
    fails, the A record is not written even if it is out of date. *)
Theorem failed_query_stops_run (w : World) (u u1 : DNSUpdater)
    (ipv4 ipv6 : string) (t1 : list Call) (e : error) :
  detectIPs w u = (ipv4, ipv6, None, u1, t1) ->
  snd (currentRecord w u1 "A") = Some e
  \/ (snd (currentRecord w u1 "A") = None
      /\ EnableIPv6 u1 = true /\ ipv6 <> ""
      /\ snd (currentRecord w u1 "AAAA") = Some e) ->
  fst (fst (Run w u)) = (StatusAuthError, Some e)
  /\ filter is_mutation (snd (Run w u)) = []
  /\ exists recordType msg,
       e = ("get " ++ recordType ++ " records: " ++ msg)%string.
Proof.
  intros Hd H.
  pose proof (detectIPs_calls w u) as Hc. rewrite Hd in Hc. cbn [snd] in Hc.
  apply no_api_no_mutation in Hc.
  assert (Hm : forall recordType e',
             snd (currentRecord w u1 recordType) = Some e' ->
             exists msg, e' = ("get " ++ recordType ++ " records: " ++ msg)%string).
  { intros recordType e'. unfold currentRecord, getCurrentRecord,
      CloudflareClient.GetDNSRecords. mstep.
    destruct (api_get w _ _) as [f | cfResp]; mstep.
    - cbn [fst snd]. intros [= <-]. eexists. reflexivity.
    - destruct (negb (Success cfResp)); mstep.
      + cbn [fst snd]. intros [= <-]. eexists. reflexivity.
      + destruct (Result cfResp); discriminate. }
  rewrite Run_steps, Hd. cbv zeta. unfold RecordTypeA, RecordTypeAAAA.
  destruct H as [HA | (HA & E6 & N6 & HAAAA)].
  - destruct (Hm "A" e HA) as [msg Em].
    destruct (currentRecord w u1 "A") as [v4Record err]. cbn [snd] in HA.
    subst err. cbn [fst snd]. split; [reflexivity |]. split; [| eauto].
    rewrite filter_app, Hc. reflexivity.
  - destruct (Hm "AAAA" e HAAAA) as [msg Em].
    destruct (currentRecord w u1 "A") as [v4Record err]. cbn [snd] in HA.
    subst err. apply String.eqb_neq in N6. rewrite E6, N6. cbn [negb andb].
    destruct (currentRecord w u1 "AAAA") as [v6Record err]. cbn [snd] in HAAAA.
    subst err. cbn [fst snd]. split; [reflexivity |]. split; [| eauto].
    rewrite filter_app, Hc. reflexivity.
Qed.

Lemma failed_query_stops_run_witness :
  let e := "get AAAA records: cloudflare API request failed" in
  fst (fst (Run unlisted_AAAA (Examples.updater "" true)))
  = (StatusAuthError, Some e)
  /\ filter is_mutation (snd (Run unlisted_AAAA (Examples.updater "" true))) = []
  /\ exists recordType msg, e = ("get " ++ recordType ++ " records: " ++ msg)%string.
Proof.
  cbv zeta.
  apply (failed_query_stops_run unlisted_AAAA
           (Examples.updater "" true) (Examples.updater "" true)
           "203.0.113.7" "2001:db8::7"
           (map LookupCall ipv4Services ++ [LookupCall "https://api6.ipify.org"])).
  - reflexivity.
  - right. repeat split. discriminate.
Defined.

Lemma detectIPs_IPv4_valid (w : World) (u u1 : DNSUpdater)
    (ipv4 ipv6 : string) (t1 : list Call) :
  detectIPs w u = (ipv4, ipv6, None, u1, t1) ->
  ipv4 = "" \/ IsIPv4 ipv4 = true.
Proof.
  destruct (String.eqb_spec (IPAddr u) "") as [He | Hne].
  - rewrite (detectIPs_detect w u He). unfold DetectIPv4. mstep.
    destruct (DetectorFacts.tryServices_outcome IsIPv4 ipv4Services w)
      as [(ip & t & -> & pre & s & post & body & _ & _ & _ & _ & Hv & _) | [-> _]];
      mstep.
    + destruct (EnableIPv6 u); [destruct (DetectIPv6 w) as [[? ?] ?] |];
        intros [= <- _ _ _]; now right.
    + discriminate.
  - destruct (IsIPv4 (IPAddr u)) eqn:H4.
    + rewrite (detectIPs_explicit_IPv4 w u Hne H4).
      destruct (EnableIPv6 u); [destruct (DetectIPv6 w) as [[? ?] ?] |];
        intros [= <- _ _ _]; now right.
    + destruct (IsIPv6 (IPAddr u)) eqn:H6.
      * rewrite (detectIPs_explicit_IPv6 w u Hne H4 H6).
        intros [= <- _ _ _]. now left.
      * rewrite (detectIPs_invalid w u Hne H4 H6). discriminate.
Qed.

Lemma Run_trace (w : World) (u u1 : DNSUpdater) (ipv4 ipv6 : string)
    (t1 : list Call) :
  detectIPs w u = (ipv4, ipv6, None, u1, t1) ->
  exists l6 m4 m6,
    snd (Run w u) = t1 ++ ListCall (cfClient u1) "A" (Hostname u1) :: l6 ++ m4 ++ m6
    /\ (l6 = [] \/ l6 = [ListCall (cfClient u1) "AAAA" (Hostname u1)])
    /\ (m4 = [] \/ (ipv4 <> "" /\ exists record, m4 = [mutationCall u1 "A" record ipv4]))
    /\ (m6 = [] \/ exists record, m6 = [mutationCall u1 "AAAA" record ipv6]).
Proof.
  intros Hd. rewrite Run_steps, Hd. cbv zeta.
  unfold RecordTypeA, RecordTypeAAAA.
  destruct (currentRecord w u1 "A") as [v4Record [e |]].
  { exists [], [], []. repeat split; auto. }
  set (fetch6 := EnableIPv6 u1 && negb (ipv6 =? "")%string).
  assert (L6 : (if fetch6 then [ListCall (cfClient u1) "AAAA" (Hostname u1)]
                else [])
               = []
               \/ (if fetch6 then [ListCall (cfClient u1) "AAAA" (Hostname u1)]
                   else [])
                  = [ListCall (cfClient u1) "AAAA" (Hostname u1)])
    by (destruct fetch6; auto).
  destruct (if fetch6 then currentRecord w u1 "AAAA" else (None, None))
    as [v6Record [e |]].
  { eexists _, [], []. rewrite !app_nil_r. repeat split; auto. }
  destruct (negb (needsUpdate u1 ipv4 ipv6 v4Record v6Record)).
  { eexists _, [], []. rewrite !app_nil_r. repeat split; auto. }
  rewrite updateRecords_run. cbn [snd]. unfold RecordTypeA, RecordTypeAAAA.
  eexists _, _, _. split; [reflexivity |]. split; [exact L6 |]. split.
  - destruct (requiresChange true ipv4 v4Record) eqn:R; [right | now left].
    split; [| eauto]. unfold requiresChange in R. cbn [andb] in R.
    apply andb_true_iff in R. destruct R as [R _].
    apply negb_true_iff in R. now apply String.eqb_neq.
  - destruct (requiresChange (EnableIPv6 u1) ipv6 v6Record); eauto.
Qed.

(** X16. A run never writes anything but an IPv4 address into an A
    record: every request that carries an A record has a content that
    [IsIPv4] accepts, whether the address was given or detected. *)
Theorem Run_writes_valid_IPv4 (w : World) (u : DNSUpdater)
    (m : Method) (url tok : string) (record : DNSRecord.t) :
  In (ApiCall m url tok (Some record)) (snd (Run w u)) ->
  DNSRecord.Type_ record = "A" ->
  IsIPv4 (DNSRecord.Content record) = true.
Proof.
  intros Hin Ht.
  pose proof (detectIPs_calls w u) as Hc.
  destruct (detectIPs w u) as [[[[ipv4 ipv6] err] u1] t1] eqn:Hd.
  cbn [snd] in Hc.
  assert (H1 : ~ In (ApiCall m url tok (Some record)) t1).
  { intros H. assert (Hf : In (ApiCall m url tok (Some record)) (filter is_api t1))
      by (apply filter_In; split; [exact H | reflexivity]).
    rewrite Hc in Hf. destruct Hf. }
  destruct err as [e |].
  { rewrite Run_steps, Hd in Hin. cbn [snd] in Hin. contradiction. }
  destruct (Run_trace w u u1 ipv4 ipv6 t1 Hd) as (l6 & m4 & m6 & E & L6 & M4 & M6).
  rewrite E in Hin. apply in_app_iff in Hin. destruct Hin as [Hin | Hin];
    [contradiction |].
  destruct Hin as [Hin | Hin]; [discriminate Hin |].
  apply in_app_iff in Hin. destruct Hin as [Hin | Hin].
  { destruct L6 as [-> | ->]; [destruct Hin |].
    destruct Hin as [Hin | []]. discriminate Hin. }
  apply in_app_iff in Hin. destruct Hin as [Hin | Hin].
  - destruct M4 as [-> | (Hne & r & ->)]; [destruct Hin |].
    destruct Hin as [Hin | []].
    assert (Ec : DNSRecord.Content record = ipv4).
    { destruct r; cbn [mutationCall CreateCall UpdateCall] in Hin;
        injection Hin as _ _ _ <-; reflexivity. }
    rewrite Ec.
    destruct (detectIPs_IPv4_valid w u u1 ipv4 ipv6 t1 Hd) as [-> | Hv];
      [contradiction | exact Hv].
  - destruct M6 as [-> | [r ->]]; [destruct Hin |].
    destruct Hin as [Hin | []].
    destruct r; cbn [mutationCall CreateCall UpdateCall] in Hin;
      injection Hin as _ _ _ <-; discriminate Ht.
Qed.

Lemma Run_writes_valid_IPv4_witness :
  let w := Examples.both_stale (Examples.answered true) (Examples.answered true) in
  let record := DNSRecord.mk "" "A" Examples.host "203.0.113.7" false in
  In (UpdateCall Examples.client "abc" "A" Examples.host "203.0.113.7" false)
    (snd (Run w (Examples.updater "" true)))
  /\ IsIPv4 (DNSRecord.Content record) = true.
Proof.
  cbv zeta.
  assert (Hin : In (UpdateCall Examples.client "abc" "A" Examples.host
                      "203.0.113.7" false)
                  (snd (Run (Examples.both_stale (Examples.answered true)
                               (Examples.answered true))
                          (Examples.updater "" true))))
    by (vm_compute; auto 10).
  split; [exact Hin |].
  exact (Run_writes_valid_IPv4 _ _ _ _ _ _ Hin eq_refl).
Defined.

Lemma DetectIPv4_lookups (w : World) :
  Forall (fun call => In call (map LookupCall ipv4Services)) (snd (DetectIPv4 w)).
Proof.
  unfold DetectIPv4. mstep.
  destruct (DetectorFacts.tryServices_outcome IsIPv4 ipv4Services w)
    as [(ip & t & -> & pre & s & post & body & E & _ & _ & _ & _ & ->) | [-> _]];
    mstep; cbn [snd]; rewrite ?app_nil_r; apply Forall_forall; intros call Hin;
    [| exact Hin].
  rewrite E, map_app. rewrite map_app in Hin. cbn [map] in *.
  apply in_app_iff in Hin. apply in_app_iff.
  destruct Hin as [Hin | [<- | []]]; [now left | right; now left].
Qed.

Lemma detectIPs_IPv6_disabled (w : World) (u : DNSUpdater) :
  EnableIPv6 u = false ->
  snd (fst (detectIPs w u)) = u
  /\ Forall (fun call => In call (map LookupCall ipv4Services))
       (snd (detectIPs w u)).
Proof.
  intros E6.
  assert (Hu : set_EnableIPv6 false u = u)
    by (rewrite <- E6; apply set_EnableIPv6_same).
  destruct (String.eqb_spec (IPAddr u) "") as [He | Hne].
  - rewrite (detectIPs_detect w u He), E6.
    pose proof (DetectIPv4_lookups w) as Hl.
    destruct (DetectIPv4 w) as [[ipv4 [e |]] t4]; cbn [fst snd] in *; auto.
  - destruct (IsIPv4 (IPAddr u)) eqn:H4.
    + rewrite (detectIPs_explicit_IPv4 w u Hne H4), E6. cbn [fst snd]. auto.
    + destruct (IsIPv6 (IPAddr u)) eqn:H6.
      * rewrite (detectIPs_explicit_IPv6 w u Hne H4 H6). cbn [fst snd]. auto.
      * rewrite (detectIPs_invalid w u Hne H4 H6). cbn [fst snd]. auto.
Qed.

(** X13. With IPv6 disabled a run touches nothing of IPv6: its requests
    are lookups of IPv4 endpoints and requests for the A record of the
    host, and the flag stays off. *)
Theorem disabled_IPv6_is_untouched (w : World) (u : DNSUpdater) :
  EnableIPv6 u = false ->
  Forall (IPv4_only u) (snd (Run w u))
  /\ snd (fst (Run w u)) = u.
Proof.
  intros E6. destruct (detectIPs_IPv6_disabled w u E6) as [Hu Hl].
  rewrite Run_state. split; [| exact Hu].
  destruct (detectIPs w u) as [[[[ipv4 ipv6] err] u1] t1] eqn:Hd.
  cbn [fst snd] in Hu, Hl. subst u1.
  assert (H1 : Forall (IPv4_only u) t1).
  { eapply Forall_impl; [| exact Hl]. intros call H. now left. }
  destruct err as [e |].
  - rewrite Run_steps, Hd. cbn [snd]. exact H1.
  - destruct (Run_continuation w u u ipv4 ipv6 t1 Hd) as (r & t2 & -> & _ & H2).
    cbn [snd]. apply Forall_app. split; [exact H1 |].
    eapply Forall_impl; [| exact (H2 E6)]. intros call H. now right.
Qed.

Lemma disabled_IPv6_is_untouched_witness :
  let w := Examples.both_stale (Examples.answered true) (Examples.answered true) in
  Forall (IPv4_only (Examples.updater "" false))
    (snd (Run w (Examples.updater "" false)))
  /\ snd (fst (Run w (Examples.updater "" false))) = Examples.updater "" false.
Proof.
  cbv zeta.
  apply (disabled_IPv6_is_untouched
           (Examples.both_stale (Examples.answered true) (Examples.answered true))
           (Examples.updater "" false)).
  reflexivity.
Defined.

End RunFacts.

(** ** Runs of the single-file updater *)

Module LegacyRunFacts.
Import Legacy LegacyNotions RefactoredNotions LegacyRunNotions.

(** One step of a run under the hypotheses at hand. *)
Ltac lstep :=
  repeat (progress (
    mstep;
    cbn [firstRecord fst snd EnableIPv6 set_EnableIPv6];
    change ("" =? "")%string with true;
    repeat match goal with
    | H : EnableIPv6 _ = _ |- _ => rewrite H
    | H : IPAddr _ = _ |- _ => rewrite H
    | H : http_get _ _ = _ |- _ => rewrite H
    | H : isIPv4 _ = _ |- _ => rewrite H
    | H : isIPv6 _ = _ |- _ => rewrite H
    | H : (_ =? _)%string = _ |- _ => rewrite H
    | |- context [("" =? ?b)%string] => is_var b; rewrite (String.eqb_sym "" b)
    end;
    cbn [negb andb orb])).

(** X10. For an explicit IPv6 address the single-file updater sends no
    request at all, switches IPv6 off and reports "update successful". *)
Theorem legacy_explicit_IPv6 (w : World) (u : DNSUpdater) :
  IPAddr u <> "" -> isIPv4 (IPAddr u) = false -> isIPv6 (IPAddr u) = true ->
  Run w u = ("update successful", None, set_EnableIPv6 false u, []).
Proof.
  intros Hne H4 H6. apply String.eqb_neq in Hne.
  unfold Run, Run_records, Run_update. lstep. reflexivity.
Qed.

Lemma legacy_explicit_IPv6_witness :
  Run Examples.cut_off (Examples.legacy_updater "2001:db8::1" true)
  = ("update successful", None, Examples.legacy_updater "2001:db8::1" false, []).
Proof.
  apply (legacy_explicit_IPv6 Examples.cut_off
           (Examples.legacy_updater "2001:db8::1" true));
    [discriminate | reflexivity | reflexivity].
Defined.

(** X11. Without an explicit address the single-file updater asks one
    endpoint and uses the body as it is, untrimmed and unchecked.  With
    IPv6 disabled: an empty body makes the run report "update successful"
    after the lookup alone; any other body, when the provider lists no A
    record, is sent as the content of a new A record, and the run reports
    "update successful" unless that request returns an error, also when
    the provider refuses the write. *)
Theorem legacy_uses_body_unchecked (w : World) (u : DNSUpdater) (body : string) :
  IPAddr u = "" -> EnableIPv6 u = false ->
  http_get w "https://api.ipify.org" = inr body ->
  (body = "" ->
   Run w u
   = ("update successful", None, u, [LookupCall "https://api.ipify.org"]))
  /\ (body <> "" -> records w u "A" = ([], None) ->
      snd (Run w u)
      = [ LookupCall "https://api.ipify.org";
          ListCall (client_of u) "A" (Hostname u);
          CreateCall (client_of u) "A" (Hostname u) body true ]
      /\ fst (fst (Run w u))
         = match created w u "A" body true with
           | (_, Some e) => ("", Some e)
           | (_, None) => ("update successful", None)
           end).
Proof.
  intros He E6 Hg. split.
  - intros ->. unfold Run, detectIPv4, Run_records, Run_update. lstep.
    reflexivity.
  - intros Hne HA. apply String.eqb_neq in Hne.
    unfold records, getRecords in HA. revert HA.
    unfold created, Run, detectIPv4, Run_records, Run_update, getRecords,
      createRecord.
    lstep.
    destruct (api_get w _ _) as [f | cfResp]; lstep; [discriminate |].
    destruct (negb (Success cfResp)); lstep; [discriminate |].
    intros [= ->]. lstep.
    destruct (api_send w POST _ _ _) as [f | cfResp']; lstep.
    + split; reflexivity.
    + destruct (UpdateSuccess cfResp'); lstep; split; reflexivity.
Qed.

Lemma legacy_uses_body_unchecked_witness :
  Run (answering "") (Examples.legacy_updater "" false)
  = ("update successful", None, Examples.legacy_updater "" false,
     [LookupCall "https://api.ipify.org"])
  /\ snd (Run (answering "<html>busy</html>") (Examples.legacy_updater "" false))
     = [ LookupCall "https://api.ipify.org";
         ListCall Examples.client "A" Examples.host;
         CreateCall Examples.client "A" Examples.host "<html>busy</html>" true ]
  /\ fst (fst (Run (answering "<html>busy</html>")
                 (Examples.legacy_updater "" false)))
     = ("update successful", None).
Proof.
  split.
  - apply (proj1 (legacy_uses_body_unchecked (answering "")
                    (Examples.legacy_updater "" false) ""
                    eq_refl eq_refl eq_refl)).
    reflexivity.
  - apply (proj2 (legacy_uses_body_unchecked (answering "<html>busy</html>")
                    (Examples.legacy_updater "" false) "<html>busy</html>"
                    eq_refl eq_refl eq_refl)).
    + discriminate.
    + reflexivity.
Defined.

(** X14. In the single-file updater an error of the write of the A
    record ends the run with that error: the write of the AAAA record is
    not attempted, whatever its state. *)
Theorem legacy_A_write_error_stops (w : World) (u : DNSUpdater)
    (ipv4 ipv6 recordID recordIP : string) (recordProxied : bool)
    (recordIDv6 recordIPv6 : string) (recordProxiedv6 : bool)
    (ok : bool) (e : error) :
  stale true ipv4 recordID recordIP = true ->
  mutated w u "A" ipv4 recordID recordProxied = (ok, Some e) ->
  Run_update ipv4 ipv6 recordID recordIP recordProxied
    recordIDv6 recordIPv6 recordProxiedv6 w u
  = ("", Some e, u,
     [ if (recordID =? "")%string
       then CreateCall (client_of u) "A" (Hostname u) ipv4 true
       else UpdateCall (client_of u) recordID "A" (Hostname u) ipv4
              recordProxied ]).
Proof.
  unfold stale, mutated, created, updated, Run_update, createRecord,
    updateRecord.
  cbn [andb]. intros Hs. rewrite Hs.
  destruct (recordID =? "")%string; mstep.
  - destruct (api_send w POST _ _ _) as [f | cfResp]; mstep; cbn [fst];
      intros [= <- <-] || intros [=]; reflexivity.
  - destruct (api_send w PUT _ _ _) as [f | cfResp]; mstep; cbn [fst];
      intros [= <- <-] || intros [=]; reflexivity.
Qed.

Lemma legacy_A_write_error_stops_witness :
  Run_update "203.0.113.7" "2001:db8::7" "abc" "203.0.113.1" false "" "" false
    (Examples.both_stale (inl (ExecuteFailed "timeout")) (Examples.answered true))
    (Examples.legacy_updater "" true)
  = ("", Some "timeout", Examples.legacy_updater "" true,
     [ UpdateCall Examples.client "abc" "A" Examples.host "203.0.113.7" false ]).
Proof.
  apply (legacy_A_write_error_stops
           (Examples.both_stale (inl (ExecuteFailed "timeout"))
              (Examples.answered true))
           (Examples.legacy_updater "" true)
           "203.0.113.7" "2001:db8::7" "abc" "203.0.113.1" false "" "" false
           false "timeout");
    reflexivity.
Defined.

(** X15. Without an explicit address the single-file updater depends
    on one endpoint: when its lookup fails, the run ends with that error
    after this one request, without trying another endpoint. *)
Theorem legacy_lookup_error_is_fatal (w : World) (u : DNSUpdater) (e : error) :
  IPAddr u = "" -> http_get w "https://api.ipify.org" = inl e ->
  Run w u = ("", Some e, u, [LookupCall "https://api.ipify.org"]).
Proof.
  intros He Hg. unfold Run, detectIPv4. lstep. reflexivity.
Qed.

Lemma legacy_lookup_error_is_fatal_witness :
  let w := Examples.both_stale (Examples.answered true) (Examples.answered true) in
  Run w (Examples.legacy_updater "" true)
  = ("", Some "connection refused", Examples.legacy_updater "" true,
     [LookupCall "https://api.ipify.org"]).
Proof.
  cbv zeta.
  apply (legacy_lookup_error_is_fatal
           (Examples.both_stale (Examples.answered true) (Examples.answered true))
           (Examples.legacy_updater "" true) "connection refused");
    reflexivity.
Defined.

End LegacyRunFacts.

(** ** The command's report *)

Module CommandFacts.
Import MainNotions CommandNotions Command InvocationNotions.

Lemma main_reported {U : Type}
    (NewDNSUpdater : string -> string -> string -> string -> bool -> U)
    (Run : M U (string * option error)) :
  (forall w u, status_result (fst (fst (Run w u)))) ->
  forall w zoneID apiToken hostname ipAddr enableIPv6,
    reported (main NewDNSUpdater Run w zoneID apiToken hostname ipAddr
                enableIPv6)
    /\ (zoneID = "" \/ apiToken = "" \/ hostname = "" ->
        calls (main NewDNSUpdater Run w zoneID apiToken hostname ipAddr
                 enableIPv6) = []
        /\ exit_status (main NewDNSUpdater Run w zoneID apiToken hostname
                          ipAddr enableIPv6) = 1).
Proof.
  intros HR w zoneID apiToken hostname ipAddr enableIPv6. unfold main.
  destruct ((zoneID =? "")%string || (apiToken =? "")%string
            || (hostname =? "")%string) eqn:E.
  - split; [| split; reflexivity]. right. left. repeat split.
  - pose proof (HR w (NewDNSUpdater zoneID apiToken hostname ipAddr enableIPv6))
      as H.
    split.
    + destruct (Run w _) as [[[result err] u'] t]. cbn [fst snd] in H.
      destruct H as [[e He] | [H | H]].
      * cbn [snd] in He. subst err. right. right. split; [reflexivity |].
        exists e. reflexivity.
      * injection H as -> ->. left. split; [reflexivity | now left].
      * injection H as -> ->. left. split; [reflexivity | now right].
    + intros [-> | [-> | ->]]; cbn [String.eqb orb] in E;
        rewrite ?orb_true_r in E; discriminate E.
Qed.

(** X12. After a request for help the command exits with status 0, after
    a flag that does not parse with status 2, both with nothing on
    standard output.  With the flags parsed it exits with status 0 after
    the single line "no changes needed" or "update successful", or with
    status 1 after two lines.  It sends requests only when the flags were
    parsed and the zone identifier, the token and the host name are not
    empty; with one of them empty it exits with status 1.  This holds
    with either updater. *)
Theorem command_exit_status (w : World) (inv : Invocation) :
  let o := command_refactored w inv in
  let ol := command_legacy w inv in
  (reported_for inv o /\ reported_for inv ol)
  /\ (calls o <> [] \/ calls ol <> [] -> complete inv)
  /\ (forall zoneID apiToken hostname ipAddr enableIPv6,
        inv = Parsed zoneID apiToken hostname ipAddr enableIPv6 ->
        zoneID = "" \/ apiToken = "" \/ hostname = "" ->
        exit_status o = 1 /\ exit_status ol = 1).
Proof.
  cbv zeta. destruct inv as [zoneID apiToken hostname ipAddr enableIPv6 | |].
  - pose proof (main_reported Refactored.NewDNSUpdater Refactored.Run
                  MainFacts.Refactored_Run_results
                  w zoneID apiToken hostname ipAddr enableIPv6) as [H1 H2].
    pose proof (main_reported Legacy.NewDNSUpdater Legacy.Run
                  MainFacts.Legacy_Run_results
                  w zoneID apiToken hostname ipAddr enableIPv6) as [H3 H4].
    unfold command_refactored, command_legacy.
    cbn [command reported_for complete].
    split; [split; assumption |]. split.
    + intros H.
      destruct (string_dec zoneID "") as [Ez | Nz];
        [destruct (H2 (or_introl Ez)) as [C2 _],
                  (H4 (or_introl Ez)) as [C4 _]; destruct H; contradiction |].
      destruct (string_dec apiToken "") as [Ea | Na];
        [destruct (H2 (or_intror (or_introl Ea))) as [C2 _],
                  (H4 (or_intror (or_introl Ea))) as [C4 _];
         destruct H; contradiction |].
      destruct (string_dec hostname "") as [Eh | Nh];
        [destruct (H2 (or_intror (or_intror Eh))) as [C2 _],
                  (H4 (or_intror (or_intror Eh))) as [C4 _];
         destruct H; contradiction |].
      auto.
    + intros z a h i e [= <- <- <- <- <-] H.
      split; [apply (H2 H) | apply (H4 H)].
  - cbn. split; [repeat split |]. split.
    + intros [H | H]; now contradiction H.
    + discriminate.
  - cbn. split; [repeat split |]. split.
    + intros [H | H]; now contradiction H.
    + discriminate.
Qed.

Lemma command_exit_status_witness :
  reported (main_refactored Examples.cut_off "" Examples.token Examples.host "" true)
  /\ exit_status (command_refactored Examples.cut_off
                    (Parsed "" Examples.token Examples.host "" true)) = 1
  /\ exit_status (command_legacy Examples.cut_off
                    (Parsed "" Examples.token Examples.host "" true)) = 1.
Proof.
  pose proof (command_exit_status Examples.cut_off
                (Parsed "" Examples.token Examples.host "" true)) as H.
  cbv zeta in H. destruct H as ((H1 & _) & _ & H3).
  destruct (H3 _ _ _ _ _ eq_refl (or_introl eq_refl)) as [Hc Hl].
  split; [exact H1 |]. split; [exact Hc | exact Hl].
Defined.

End CommandFacts.

(** ** The single-file updater, step by step *)

Module LegacyTrace.
Import Legacy LegacyNotions RefactoredNotions LegacyRunNotions ProviderNotions
  LegacyResolution.

(** [Run] is address resolution followed by the rest. *)
Lemma Run_resolveIPs (w : World) (u : DNSUpdater) :
  Run w u
  = let '(ipv4, ipv6, err, u1, t1) := resolveIPs w u in
    match err with
    | Some e => ("", Some e, u1, t1)
    | None =>
        let '(r, u2, t2) := Run_records ipv4 ipv6 w u1 in (r, u2, t1 ++ t2)
    end.
Proof.
  unfold Run, resolveIPs. mstep.
  repeat (match goal with
          | |- context [detectIPv4 w ?u'] =>
              destruct (detectIPv4 w u') as [[[? [? |]] ?] ?]
          | |- context [detectIPv6 w ?u'] =>
              destruct (detectIPv6 w u') as [[[? ?] ?] ?]
          | |- context [if ?b then _ else _] => destruct b
          end; mstep; cbn [EnableIPv6 set_EnableIPv6 andb]);
    repeat match goal with
           | |- context [Run_records ?a ?b w ?u'] =>
               destruct (Run_records a b w u') as [[? ?] ?]
           end;
    rewrite ?app_nil_r, <- ?app_assoc; reflexivity.
Qed.

(** The second step of address resolution: IPv6 detection when the flag
    is set. *)
Lemma resolveIPs_cases (w : World) (u : DNSUpdater) :
  let detect6 (ipv4 : string) (t : list Call) :=
    if EnableIPv6 u then
      let ipv6 := fst (fst (DetectIPv6 w)) in
      (ipv4, ipv6, None,
       if is_none (snd (fst (DetectIPv6 w))) && negb (ipv6 =? "")%string
       then u else set_EnableIPv6 false u,
       t ++ snd (DetectIPv6 w))
    else (ipv4, "", None, u, t) in
  resolveIPs w u
  = if (IPAddr u =? "")%string then
      match http_get w "https://api.ipify.org" with
      | inl e => ("", "", Some e, u, [LookupCall "https://api.ipify.org"])
      | inr body => detect6 body [LookupCall "https://api.ipify.org"]
      end
    else if isIPv4 (IPAddr u) then detect6 (IPAddr u) []
    else if isIPv6 (IPAddr u)
    then ("", IPAddr u, None, set_EnableIPv6 false u, [])
    else ("", "", Some "invalid IP address provided", u, []).
Proof.
  cbv zeta. unfold resolveIPs, detectIPv4. mstep.
  destruct (LegacyFacts.detectIPv6_DetectIPv6 w u) as (err & E6 & Herr).
  assert (N : is_none err = is_none (snd (fst (DetectIPv6 w)))).
  { destruct err, (snd (fst (DetectIPv6 w))); try reflexivity;
      destruct Herr as [H1 H2];
      [specialize (H2 eq_refl) | specialize (H1 eq_refl)]; discriminate. }
  destruct (IPAddr u =? "")%string;
    [destruct (http_get w "https://api.ipify.org") as [e | body]
    | destruct (isIPv4 (IPAddr u)); [| destruct (isIPv6 (IPAddr u))]];
    mstep; cbn [String.eqb andb EnableIPv6 set_EnableIPv6]; try reflexivity;
    (destruct (EnableIPv6 u); cbn [andb]; mstep;
     [| now rewrite ?app_nil_r]);
    rewrite E6; mstep; rewrite N;
    destruct (is_none (snd (fst (DetectIPv6 w)))
              && negb (fst (fst (DetectIPv6 w)) =? "")%string);
    mstep; now rewrite ?app_nil_r.
Qed.

Lemma getRecords_listed (w : World) (u : DNSUpdater) (recordType : string)
    (recs : list DNSRecord.t) :
  listed w (client_of u) recordType (Hostname u) recs ->
  getRecords recordType w u
  = (recs, None, u, [ListCall (client_of u) recordType (Hostname u)]).
Proof.
  intros (resp & H & Hs & <-). unfold getRecords. mstep.
  change (api_get w _ (APIToken u))
    with (api_get w (CloudflareClient.records_url (client_of u) recordType
                       (Hostname u))
            (CloudflareClient.apiToken (client_of u))).
  rewrite H, Hs. reflexivity.
Qed.

(** One step of a run under the hypotheses at hand. *)
Ltac legacy_step :=
  repeat (progress (
    mstep;
    cbn [firstRecord fst snd EnableIPv6 set_EnableIPv6];
    change ("" =? "")%string with true;
    repeat match goal with
    | H : EnableIPv6 _ = _ |- _ => rewrite H
    | H : (_ =? _)%string = _ |- _ => rewrite H
    | |- context [("" =? ?b)%string] => is_var b; rewrite (String.eqb_sym "" b)
    end;
    cbn [negb andb orb])).

Lemma Run_update_writes (w : World) (u : DNSUpdater) (ipv4 ipv6 : string)
    (recsA recsAAAA : list DNSRecord.t) :
  identified recsA -> identified recsAAAA ->
  let '(recordID, recordIP, recordProxied) := firstRecord recsA in
  let '(recordIDv6, recordIPv6, recordProxiedv6) := firstRecord recsAAAA in
  snd (Run_update ipv4 ipv6 recordID recordIP recordProxied
         recordIDv6 recordIPv6 recordProxiedv6 w u)
  = let wA := writes_for (client_of u) "A" (Hostname u) true ipv4 recsA in
    wA ++ (if existsb (write_failed w) wA then []
           else writes_for (client_of u) "AAAA" (Hostname u) (EnableIPv6 u)
                  ipv6 recsAAAA).
Proof.
  intros IA I6.
  assert (NA : forall r rest, recsA = r :: rest -> (DNSRecord.ID r =? "")%string = false)
    by (intros r rest E; apply String.eqb_neq; eauto).
  assert (N6 : forall r rest, recsAAAA = r :: rest -> (DNSRecord.ID r =? "")%string = false)
    by (intros r rest E; apply String.eqb_neq; eauto).
  clear IA I6.
  unfold writes_for, Run_update, createRecord, updateRecord.
  destruct recsA as [| rA restA], recsAAAA as [| r6 rest6];
    cbn [firstRecord out_of_date write_for];
    rewrite ?(NA rA restA eq_refl), ?(N6 r6 rest6 eq_refl);
    change ("" =? "")%string with true;
    destruct (ipv4 =? "")%string eqn:E4; destruct (ipv6 =? "")%string eqn:E6;
    destruct (EnableIPv6 u) eqn:En;
    rewrite ?(String.eqb_sym "" ipv4), ?(String.eqb_sym "" ipv6), ?E4, ?E6;
    cbn [negb andb orb];
    repeat match goal with
    | |- context [(DNSRecord.Content ?r =? ?ip)%string] =>
        destruct (DNSRecord.Content r =? ip)%string
    end;
    unfold CreateCall, UpdateCall, CloudflareClient.create_url,
      CloudflareClient.update_url, CloudflareClient.CloudflareAPIBaseURL,
      client_of;
    cbn [negb andb orb existsb write_failed app String.append
         CloudflareClient.zoneID CloudflareClient.apiToken]; mstep;
    rewrite ?En; cbn [negb andb orb]; mstep;
    repeat match goal with
    | |- context [api_send w ?m ?url ?tok ?body] =>
        destruct (api_send w m url tok body); mstep;
        rewrite ?En; cbn [negb andb orb]; mstep
    end;
    repeat match goal with
    | |- context [if ?b then _ else _] => destruct b; mstep
    end;
    reflexivity.
Qed.

Lemma Run_records_run (w : World) (u : DNSUpdater) (ipv4 ipv6 : string)
    (recsA recsAAAA : list DNSRecord.t) :
  (ipv4 <> "" -> listed w (client_of u) "A" (Hostname u) recsA) ->
  (EnableIPv6 u = true -> ipv6 <> "" ->
   listed w (client_of u) "AAAA" (Hostname u) recsAAAA) ->
  exists tq,
    filter is_mutation tq = []
    /\ Run_records ipv4 ipv6 w u
       = let '(recordID, recordIP, recordProxied) :=
           firstRecord (if negb (ipv4 =? "")%string then recsA else []) in
         let '(recordIDv6, recordIPv6, recordProxiedv6) :=
           firstRecord (if EnableIPv6 u && negb (ipv6 =? "")%string
                        then recsAAAA else []) in
         if (negb (ipv4 =? "")%string && (recordIP =? ipv4)%string)
            && (negb (ipv6 =? "")%string && (recordIPv6 =? ipv6)%string
                || negb (EnableIPv6 u))
         then ("no changes needed", None, u, tq)
         else
           let '(r, u', t) :=
             Run_update ipv4 ipv6 recordID recordIP recordProxied
               recordIDv6 recordIPv6 recordProxiedv6 w u in
           (r, u', tq ++ t).
Proof.
  intros HA H6. unfold Run_records. mstep.
  assert (L6 : EnableIPv6 u && negb (ipv6 =? "")%string = true ->
               getRecords "AAAA" w u
               = (recsAAAA, None, u, [ListCall (client_of u) "AAAA" (Hostname u)])).
  { intros F6. apply andb_true_iff in F6. destruct F6 as [En N6].
    apply negb_true_iff, String.eqb_neq in N6.
    apply getRecords_listed. auto. }
  assert (LA : negb (ipv4 =? "")%string = true ->
               getRecords "A" w u
               = (recsA, None, u, [ListCall (client_of u) "A" (Hostname u)])).
  { intros F4. apply negb_true_iff, String.eqb_neq in F4.
    apply getRecords_listed. auto. }
  destruct recsA as [| rA restA], recsAAAA as [| r6 rest6];
    destruct (negb (ipv4 =? "")%string) eqn:F4;
    destruct (EnableIPv6 u && negb (ipv6 =? "")%string) eqn:F6;
    repeat (progress (cbv beta iota; mstep; rewrite ?F4, ?F6;
                      try rewrite (LA eq_refl); try rewrite (L6 eq_refl);
                      cbn [firstRecord]));
    (eexists; split;
     [| match goal with
        | |- context [if ?b then _ else _] => destruct b
        end; mstep;
        repeat match goal with
        | |- context [Run_update ?a ?b ?c ?d ?e ?f ?g ?h w u] =>
            destruct (Run_update a b c d e f g h w u) as [[? ?] ?]
        end;
        rewrite ?app_nil_r; cbn [app]; reflexivity]);
    reflexivity.
Qed.

Lemma resolveIPs_fields (w : World) (u : DNSUpdater) :
  let u1 := snd (fst (resolveIPs w u)) in
  ZoneID u1 = ZoneID u /\ APIToken u1 = APIToken u /\ Hostname u1 = Hostname u
  /\ IPAddr u1 = IPAddr u.
Proof.
  cbv zeta. rewrite resolveIPs_cases. cbv zeta.
  destruct (IPAddr u =? "")%string;
    [destruct (http_get w "https://api.ipify.org")
    | destruct (isIPv4 (IPAddr u)); [| destruct (isIPv6 (IPAddr u))]];
    try destruct (EnableIPv6 u);
    try destruct (is_none _ && _);
    repeat split.
Qed.

Lemma resolveIPs_calls (w : World) (u : DNSUpdater) :
  filter is_api (snd (resolveIPs w u)) = [].
Proof.
  rewrite resolveIPs_cases. cbv zeta.
  pose proof (RefactoredFacts.DetectIPv6_calls w) as H6.
  destruct (IPAddr u =? "")%string;
    [destruct (http_get w "https://api.ipify.org")
    | destruct (isIPv4 (IPAddr u)); [| destruct (isIPv6 (IPAddr u))]];
    try destruct (EnableIPv6 u); cbn [snd app filter is_api];
    try reflexivity; exact H6.
Qed.

(** After address resolution, IPv6 is enabled only with an address. *)
Lemma resolveIPs_enabled (w : World) (u u1 : DNSUpdater) (ipv4 ipv6 : string)
    (t1 : list Call) :
  resolveIPs w u = (ipv4, ipv6, None, u1, t1) ->
  EnableIPv6 u1 = true -> ipv6 <> "".
Proof.
  rewrite resolveIPs_cases. cbv zeta. intros H En1.
  assert (K : forall ipv4' t,
             (if EnableIPv6 u then
                (ipv4', fst (fst (DetectIPv6 w)), @None error,
                 if is_none (snd (fst (DetectIPv6 w)))
                    && negb (fst (fst (DetectIPv6 w)) =? "")%string
                 then u else set_EnableIPv6 false u,
                 t ++ snd (DetectIPv6 w))
              else (ipv4', "", @None error, u, t))
             = (ipv4, ipv6, None, u1, t1) -> ipv6 <> "").
  { intros ipv4' t. destruct (EnableIPv6 u) eqn:En.
    - destruct (is_none (snd (fst (DetectIPv6 w)))
                && negb (fst (fst (DetectIPv6 w)) =? "")%string) eqn:C;
        intros [= <- <- <- <-].
      + apply andb_true_iff in C. destruct C as [_ C].
        apply negb_true_iff in C. now apply String.eqb_neq.
      + discriminate En1.
    - intros [= <- <- <- <-]. rewrite En in En1. discriminate En1. }
  destruct (IPAddr u =? "")%string;
    [destruct (http_get w "https://api.ipify.org")
    | destruct (isIPv4 (IPAddr u)); [| destruct (isIPv6 (IPAddr u))]];
    eauto; try discriminate H.
  injection H as <- <- <- <-. discriminate En1.
Qed.

Lemma writes_for_listed (c : CloudflareClient.t) (recordType hostname : string)
    (enabled : bool) (ip : string) (recs : list DNSRecord.t) :
  writes_for c recordType hostname enabled ip
    (if enabled && negb (ip =? "")%string then recs else [])
  = writes_for c recordType hostname enabled ip recs.
Proof.
  unfold writes_for. destruct enabled, (ip =? "")%string; reflexivity.
Qed.

Lemma identified_listed (b : bool) (recs : list DNSRecord.t) :
  identified recs -> identified (if b then recs else []).
Proof. destruct b; [auto |]. intros _ r rest H. discriminate H. Qed.

Lemma current_not_written (c : CloudflareClient.t) (recordType hostname : string)
    (enabled : bool) (ip : string) (recs : list DNSRecord.t) :
  negb (ip =? "")%string && (snd (fst (firstRecord recs)) =? ip)%string = true ->
  writes_for c recordType hostname enabled ip recs = [].
Proof.
  intros H. apply andb_true_iff in H. destruct H as [Hn He].
  unfold writes_for. rewrite Hn.
  destruct recs as [| r rest]; cbn [firstRecord fst snd out_of_date] in *.
  - apply negb_true_iff in Hn. rewrite String.eqb_sym, Hn in He. discriminate He.
  - rewrite He. now rewrite !andb_false_r.
Qed.

Lemma writes_are_mutations (c : CloudflareClient.t) (recordType hostname : string)
    (enabled : bool) (ip : string) (recs : list DNSRecord.t) :
  filter is_mutation (writes_for c recordType hostname enabled ip recs)
  = writes_for c recordType hostname enabled ip recs.
Proof.
  unfold writes_for. destruct (enabled && negb (ip =? "")%string && _);
    [destruct recs |]; reflexivity.
Qed.

Lemma Run_records_writes (w : World) (u : DNSUpdater) (ipv4 ipv6 : string)
    (recsA recsAAAA : list DNSRecord.t) :
  (ipv4 <> "" -> listed w (client_of u) "A" (Hostname u) recsA) ->
  identified recsA ->
  (EnableIPv6 u = true -> ipv6 <> "" ->
   listed w (client_of u) "AAAA" (Hostname u) recsAAAA) ->
  identified recsAAAA ->
  filter is_mutation (snd (Run_records ipv4 ipv6 w u))
  = let wA := writes_for (client_of u) "A" (Hostname u) true ipv4 recsA in
    wA ++ (if existsb (write_failed w) wA then []
           else writes_for (client_of u) "AAAA" (Hostname u) (EnableIPv6 u)
                  ipv6 recsAAAA).
Proof.
  intros HA IA H6 I6.
  destruct (Run_records_run w u ipv4 ipv6 recsA recsAAAA HA H6) as (tq & Hq & ->).
  pose proof (Run_update_writes w u ipv4 ipv6 _ _
                (identified_listed (negb (ipv4 =? "")%string) recsA IA)
                (identified_listed (EnableIPv6 u && negb (ipv6 =? "")%string)
                   recsAAAA I6)) as HW.
  pose proof (current_not_written (client_of u) "A" (Hostname u) true ipv4
                (if negb (ipv4 =? "")%string then recsA else [])) as CA.
  pose proof (current_not_written (client_of u) "AAAA" (Hostname u) (EnableIPv6 u)
                ipv6
                (if EnableIPv6 u && negb (ipv6 =? "")%string then recsAAAA else []))
    as C6.
  rewrite <- (writes_for_listed (client_of u) "A" (Hostname u) true ipv4 recsA).
  rewrite <- (writes_for_listed (client_of u) "AAAA" (Hostname u) (EnableIPv6 u)
                ipv6 recsAAAA).
  cbn [andb] in *.
  destruct (firstRecord (if negb (ipv4 =? "")%string then recsA else []))
    as [[recordID recordIP] recordProxied].
  destruct (firstRecord (if EnableIPv6 u && negb (ipv6 =? "")%string
                         then recsAAAA else []))
    as [[recordIDv6 recordIPv6] recordProxiedv6].
  cbn [fst snd] in CA, C6.
  destruct (negb (ipv4 =? "")%string && (recordIP =? ipv4)%string) eqn:NA;
    cbn [andb].
  - rewrite (CA eq_refl). cbn [app existsb].
    destruct (negb (ipv6 =? "")%string && (recordIPv6 =? ipv6)%string) eqn:N6;
      cbn [orb].
    + rewrite (C6 eq_refl). cbn [snd]. exact Hq.
    + destruct (EnableIPv6 u) eqn:En; cbn [negb].
      * destruct (Run_update _ _ _ _ _ _ _ _ w u) as [[r u'] t].
        cbn [snd] in *. rewrite filter_app, Hq. cbn [app].
        rewrite HW, (CA eq_refl). cbn [app existsb filter].
        apply writes_are_mutations.
      * cbn [snd]. rewrite Hq. unfold writes_for. reflexivity.
  - destruct (Run_update _ _ _ _ _ _ _ _ w u) as [[r u'] t].
    cbn [snd] in *. rewrite filter_app, Hq. cbn [app]. rewrite HW.
    rewrite filter_app, writes_are_mutations.
    destruct (existsb (write_failed w) _); [reflexivity |].
    now rewrite writes_are_mutations.
Qed.

End LegacyTrace.

(** ** Unchanged records and writes, in both updaters *)

Module BothUpdaters.
Import RefactoredNotions RefactoredFacts AgreementNotions LegacyNotions
  LegacyRunNotions ProviderNotions LegacyResolution LegacyTrace Scenes.

Lemma currentRecord_listed (w : World) (u : Refactored.DNSUpdater)
    (recordType : string) (recs : list DNSRecord.t) :
  listed w (Refactored.cfClient u) recordType (Refactored.Hostname u) recs ->
  currentRecord w u recordType = (option_map info (hd_error recs), None).
Proof.
  intros (resp & H & Hs & <-).
  unfold currentRecord, Refactored.getCurrentRecord,
    CloudflareClient.GetDNSRecords. mstep.
  rewrite H, Hs. cbn [negb]. mstep.
  destruct (Result resp); reflexivity.
Qed.

Lemma writes_for_mutationCall (u : Refactored.DNSUpdater)
    (recordType : string) (enabled : bool) (ip : string)
    (recs : list DNSRecord.t) :
  (if requiresChange enabled ip (option_map info (hd_error recs))
   then [mutationCall u recordType (option_map info (hd_error recs)) ip]
   else [])
  = writes_for (Refactored.cfClient u) recordType (Refactored.Hostname u)
      enabled ip recs.
Proof.
  unfold requiresChange, writes_for.
  destruct recs as [| r rest]; reflexivity.
Qed.

Lemma Refactored_Run_writes (w : World) (u u1 : Refactored.DNSUpdater)
    (ipv4 ipv6 : string) (t1 : list Call) (recsA recsAAAA : list DNSRecord.t) :
  Refactored.detectIPs w u = (ipv4, ipv6, None, u1, t1) ->
  listed w (Refactored.cfClient u) "A" (Refactored.Hostname u) recsA ->
  (Refactored.EnableIPv6 u1 = true -> ipv6 <> "" ->
   listed w (Refactored.cfClient u) "AAAA" (Refactored.Hostname u) recsAAAA) ->
  filter is_mutation (snd (Refactored.Run w u))
  = writes_for (Refactored.cfClient u) "A" (Refactored.Hostname u) true ipv4
      recsA
    ++ writes_for (Refactored.cfClient u) "AAAA" (Refactored.Hostname u)
         (Refactored.EnableIPv6 u1) ipv6 recsAAAA.
Proof.
  intros Hd HA H6.
  destruct (detectIPs_fields w u) as (_ & _ & Hh & _ & Hc).
  rewrite Hd in Hh, Hc. cbn [fst snd] in Hh, Hc.
  rewrite <- Hh, <- Hc in *.
  assert (F : if Refactored.EnableIPv6 u1 && negb (ipv6 =? "")%string
              then currentRecord w u1 Refactored.RecordTypeAAAA
                   = (option_map info
                        (hd_error
                           (if Refactored.EnableIPv6 u1
                               && negb (ipv6 =? "")%string
                            then recsAAAA else [])), None)
              else option_map info
                     (hd_error
                        (if Refactored.EnableIPv6 u1 && negb (ipv6 =? "")%string
                         then recsAAAA else [])) = None).
  { destruct (Refactored.EnableIPv6 u1 && negb (ipv6 =? "")%string) eqn:E;
      [| reflexivity].
    apply andb_true_iff in E. destruct E as [En N6].
    apply negb_true_iff, String.eqb_neq in N6.
    apply currentRecord_listed. auto. }
  rewrite (Run_mutations w u u1 ipv4 ipv6 t1 _ _ Hd
             (currentRecord_listed w u1 "A" recsA HA) F).
  rewrite !writes_for_mutationCall. now rewrite writes_for_listed.
Qed.

Lemma legacy_Run_writes (w : World) (lu lu1 : Legacy.DNSUpdater)
    (ipv4 ipv6 : string) (t1 : list Call) (recsA recsAAAA : list DNSRecord.t) :
  resolveIPs w lu = (ipv4, ipv6, None, lu1, t1) ->
  (ipv4 <> "" -> listed w (client_of lu) "A" (Legacy.Hostname lu) recsA) ->
  identified recsA ->
  (Legacy.EnableIPv6 lu1 = true -> ipv6 <> "" ->
   listed w (client_of lu) "AAAA" (Legacy.Hostname lu) recsAAAA) ->
  identified recsAAAA ->
  filter is_mutation (snd (Legacy.Run w lu))
  = let wA := writes_for (client_of lu) "A" (Legacy.Hostname lu) true ipv4
                recsA in
    wA ++ (if existsb (write_failed w) wA then []
           else writes_for (client_of lu) "AAAA" (Legacy.Hostname lu)
                  (Legacy.EnableIPv6 lu1) ipv6 recsAAAA).
Proof.
  intros Hr HA IA H6 I6.
  destruct (resolveIPs_fields w lu) as (Hz & Ht & Hh & _).
  pose proof (resolveIPs_calls w lu) as Hc.
  rewrite Hr in Hz, Ht, Hh, Hc. cbn [fst snd] in Hz, Ht, Hh, Hc.
  apply no_api_no_mutation in Hc.
  assert (Ec : client_of lu1 = client_of lu)
    by (unfold client_of; now rewrite Hz, Ht).
  rewrite <- Hh, <- Ec in *.
  rewrite Run_resolveIPs, Hr.
  pose proof (Run_records_writes w lu1 ipv4 ipv6 recsA recsAAAA HA IA H6 I6) as HW.
  destruct (Legacy.Run_records ipv4 ipv6 w lu1) as [[r u2] t2].
  cbn [snd] in *. rewrite filter_app, Hc. exact HW.
Qed.

Lemma legacy_no_change (w : World) (lu lu1 : Legacy.DNSUpdater)
    (ipv4 ipv6 : string) (t1 : list Call) :
  resolveIPs w lu = (ipv4, ipv6, None, lu1, t1) ->
  ipv4 <> "" ->
  (exists r rest,
     listed w (client_of lu) "A" (Legacy.Hostname lu) (r :: rest)
     /\ DNSRecord.Content r = ipv4) ->
  (Legacy.EnableIPv6 lu1 = true ->
   exists r rest,
     listed w (client_of lu) "AAAA" (Legacy.Hostname lu) (r :: rest)
     /\ DNSRecord.Content r = ipv6) ->
  fst (fst (Legacy.Run w lu)) = ("no changes needed", None)
  /\ filter is_mutation (snd (Legacy.Run w lu)) = [].
Proof.
  intros Hr Hne (rA & restA & LA & CA) H6.
  destruct (resolveIPs_fields w lu) as (Hz & Ht & Hh & _).
  pose proof (resolveIPs_calls w lu) as Hc.
  pose proof (resolveIPs_enabled w lu lu1 ipv4 ipv6 t1 Hr) as He.
  rewrite Hr in Hz, Ht, Hh, Hc. cbn [fst snd] in Hz, Ht, Hh, Hc.
  apply no_api_no_mutation in Hc.
  assert (Ec : client_of lu1 = client_of lu)
    by (unfold client_of; now rewrite Hz, Ht).
  rewrite <- Hh, <- Ec in *.
  rewrite Run_resolveIPs, Hr.
  assert (L6 : exists r6 rest6,
             (Legacy.EnableIPv6 lu1 = true -> ipv6 <> "" ->
              listed w (client_of lu1) "AAAA" (Legacy.Hostname lu1) (r6 :: rest6))
             /\ (Legacy.EnableIPv6 lu1 = true -> DNSRecord.Content r6 = ipv6)).
  { destruct (Legacy.EnableIPv6 lu1) eqn:En.
    - destruct (H6 eq_refl) as (r6 & rest6 & L & C). exists r6, rest6. auto.
    - exists rA, restA. split; intros E; discriminate E. }
  destruct L6 as (r6 & rest6 & L6 & C6).
  destruct (Run_records_run w lu1 ipv4 ipv6 (rA :: restA) (r6 :: rest6)
              (fun _ => LA) L6) as (tq & Hq & ->).
  apply String.eqb_neq in Hne. rewrite Hne. cbn [negb Legacy.firstRecord andb].
  rewrite CA, String.eqb_refl. cbn [andb].
  destruct (Legacy.EnableIPv6 lu1) eqn:En; cbn [andb negb orb Legacy.firstRecord].
  - specialize (He eq_refl). apply String.eqb_neq in He.
    rewrite He. cbn [negb Legacy.firstRecord].
    rewrite (C6 eq_refl), String.eqb_refl. cbn [negb andb orb fst snd].
    split; [reflexivity |]. now rewrite filter_app, Hc.
  - rewrite orb_true_r. cbn [fst snd].
    split; [reflexivity |]. now rewrite filter_app, Hc.
Qed.

Lemma legacy_without_IPv4 (w : World) (lu lu1 : Legacy.DNSUpdater)
    (ipv6 : string) (t1 : list Call) :
  resolveIPs w lu = ("", ipv6, None, lu1, t1) ->
  (Legacy.EnableIPv6 lu1 = true ->
   exists r rest,
     listed w (client_of lu) "AAAA" (Legacy.Hostname lu) (r :: rest)
     /\ DNSRecord.ID r <> "" /\ DNSRecord.Content r = ipv6) ->
  fst (fst (Legacy.Run w lu)) = ("update successful", None)
  /\ filter is_mutation (snd (Legacy.Run w lu)) = [].
Proof.
  intros Hr H6.
  destruct (resolveIPs_fields w lu) as (Hz & Ht & Hh & _).
  pose proof (resolveIPs_calls w lu) as Hc.
  pose proof (resolveIPs_enabled w lu lu1 "" ipv6 t1 Hr) as He.
  rewrite Hr in Hz, Ht, Hh, Hc. cbn [fst snd] in Hz, Ht, Hh, Hc.
  apply no_api_no_mutation in Hc.
  assert (Ec : client_of lu1 = client_of lu)
    by (unfold client_of; now rewrite Hz, Ht).
  rewrite <- Hh, <- Ec in *.
  assert (L6 : exists r6 rest6,
             (Legacy.EnableIPv6 lu1 = true -> ipv6 <> "" ->
              listed w (client_of lu1) "AAAA" (Legacy.Hostname lu1) (r6 :: rest6))
             /\ DNSRecord.ID r6 <> ""
             /\ (Legacy.EnableIPv6 lu1 = true -> DNSRecord.Content r6 = ipv6)).
  { destruct (Legacy.EnableIPv6 lu1) eqn:En.
    - destruct (H6 eq_refl) as (r6 & rest6 & L & I & C). exists r6, rest6. auto.
    - exists (DNSRecord.mk "x" "" "" "" false), [].
      split; [intros E; discriminate E |]. split; [discriminate |].
      intros E; discriminate E. }
  destruct L6 as (r6 & rest6 & L6 & I6 & C6).
  assert (IA : identified []) by (intros r rest E; discriminate E).
  assert (I6' : identified (r6 :: rest6)) by (intros r rest [= <- _]; exact I6).
  assert (HA : "" <> "" -> listed w (client_of lu1) "A" (Legacy.Hostname lu1) [])
    by (intros E; now destruct E).
  split.
  - assert (HR : fst (Legacy.Run_records "" ipv6 w lu1)
                 = ("update successful", None, lu1)).
    { rewrite LegacyFacts.Run_records_result.
      change (negb ("" =? "")%string) with false. cbv beta iota.
      cbn [Legacy.firstRecord andb].
      destruct (Legacy.EnableIPv6 lu1) eqn:En; cbn [andb negb].
      - specialize (He eq_refl). apply String.eqb_neq in He. rewrite He.
        cbn [negb]. unfold records.
        rewrite (getRecords_listed w lu1 "AAAA" (r6 :: rest6)
                   (L6 eq_refl (proj1 (String.eqb_neq _ _) He))).
        cbn [fst Legacy.firstRecord]. rewrite (C6 eq_refl).
        unfold stale. apply String.eqb_neq in I6.
        rewrite I6, He, !String.eqb_refl. cbn [negb andb orb update_result].
        reflexivity.
      - unfold stale. change ("" =? "")%string with true.
        cbn [negb andb orb update_result]. reflexivity. }
    rewrite Run_resolveIPs, Hr.
    destruct (Legacy.Run_records "" ipv6 w lu1) as [[r u2] t2].
    cbn [fst snd] in *. now injection HR as -> _.
  - rewrite (legacy_Run_writes w lu lu1 "" ipv6 t1 [] (r6 :: rest6) Hr);
      rewrite <- ?Hh, <- ?Ec; auto.
    unfold writes_for. change ("" =? "")%string with true.
    cbn [negb andb app existsb out_of_date].
    destruct (Legacy.EnableIPv6 lu1) eqn:En; [| reflexivity].
    rewrite (C6 eq_refl), String.eqb_refl. cbn [negb].
    now rewrite !andb_false_r.
Qed.

Lemma refactored_no_change (w : World) (u u1 : Refactored.DNSUpdater)
    (ipv4 ipv6 : string) (t1 : list Call) (recsA : list DNSRecord.t) :
  Refactored.detectIPs w u = (ipv4, ipv6, None, u1, t1) ->
  listed w (Refactored.cfClient u) "A" (Refactored.Hostname u) recsA ->
  (ipv4 <> "" ->
   exists r rest, recsA = r :: rest /\ DNSRecord.Content r = ipv4) ->
  (Refactored.EnableIPv6 u1 = true -> ipv6 <> "" ->
   exists r rest,
     listed w (Refactored.cfClient u) "AAAA" (Refactored.Hostname u) (r :: rest)
     /\ DNSRecord.Content r = ipv6) ->
  fst (fst (Refactored.Run w u)) = (Refactored.StatusNoChange, None)
  /\ filter is_mutation (snd (Refactored.Run w u)) = [].
Proof.
  intros Hd HA H4 H6.
  destruct (detectIPs_fields w u) as (_ & _ & Hh & _ & Hc).
  rewrite Hd in Hh, Hc. cbn [fst snd] in Hh, Hc.
  rewrite <- Hh, <- Hc in *.
  apply (no_change_when_records_match w u u1 ipv4 ipv6 t1 Hd);
    unfold Refactored.RecordTypeA, Refactored.RecordTypeAAAA.
  - now rewrite (currentRecord_listed w u1 "A" recsA HA).
  - intros N4. destruct (H4 N4) as (r & rest & -> & C).
    rewrite (currentRecord_listed w u1 "A" (r :: rest) HA).
    exists (info r). split; [reflexivity | exact C].
  - intros En N6. destruct (H6 En N6) as (r & rest & L & C).
    rewrite (currentRecord_listed w u1 "AAAA" (r :: rest) L).
    exists (info r). split; [reflexivity | exact C].
Qed.

(** C3 (amended). In the refactored updater, when the provider lists for
    every resolved and enabled family a first record that has exactly the
    resolved address as its content, [Run] returns "no changes needed"
    without an error and sends no write.  In the single-file updater the
    same holds when an IPv4 address was resolved; when none was resolved
    (an explicit IPv6 address, or an empty lookup body) and the AAAA
    record, if IPv6 is enabled, is current, it sends no write either but
    returns "update successful". *)
Theorem no_change_in_either_updater (w : World) (ipv4 ipv6 : string) :
  (forall (u u1 : Refactored.DNSUpdater) (t1 : list Call)
          (recsA : list DNSRecord.t),
     Refactored.detectIPs w u = (ipv4, ipv6, None, u1, t1) ->
     listed w (Refactored.cfClient u) "A" (Refactored.Hostname u) recsA ->
     (ipv4 <> "" ->
      exists r rest, recsA = r :: rest /\ DNSRecord.Content r = ipv4) ->
     (Refactored.EnableIPv6 u1 = true -> ipv6 <> "" ->
      exists r rest,
        listed w (Refactored.cfClient u) "AAAA" (Refactored.Hostname u)
          (r :: rest)
        /\ DNSRecord.Content r = ipv6) ->
     fst (fst (Refactored.Run w u)) = (Refactored.StatusNoChange, None)
     /\ filter is_mutation (snd (Refactored.Run w u)) = [])
  /\ (forall (lu lu1 : Legacy.DNSUpdater) (t1 : list Call),
        LegacyResolution.resolveIPs w lu = (ipv4, ipv6, None, lu1, t1) ->
        (ipv4 <> "" ->
         (exists r rest,
            listed w (client_of lu) "A" (Legacy.Hostname lu) (r :: rest)
            /\ DNSRecord.Content r = ipv4) ->
         (Legacy.EnableIPv6 lu1 = true ->
          exists r rest,
            listed w (client_of lu) "AAAA" (Legacy.Hostname lu) (r :: rest)
            /\ DNSRecord.Content r = ipv6) ->
         fst (fst (Legacy.Run w lu)) = ("no changes needed", None)
         /\ filter is_mutation (snd (Legacy.Run w lu)) = [])
        /\ (ipv4 = "" ->
            (Legacy.EnableIPv6 lu1 = true ->
             exists r rest,
               listed w (client_of lu) "AAAA" (Legacy.Hostname lu) (r :: rest)
               /\ DNSRecord.ID r <> "" /\ DNSRecord.Content r = ipv6) ->
            fst (fst (Legacy.Run w lu)) = ("update successful", None)
            /\ filter is_mutation (snd (Legacy.Run w lu)) = [])).
Proof.
  split.
  - intros u u1 t1 recsA. apply refactored_no_change.
  - intros lu lu1 t1 Hr. split.
    + apply (legacy_no_change w lu lu1 ipv4 ipv6 t1 Hr).
    + intros ->. apply (legacy_without_IPv4 w lu lu1 ipv6 t1 Hr).
Qed.

Lemma no_change_in_either_updater_witness :
  (fst (fst (Refactored.Run both_current (Examples.updater "203.0.113.7" true)))
   = (Refactored.StatusNoChange, None)
   /\ filter is_mutation
        (snd (Refactored.Run both_current (Examples.updater "203.0.113.7" true)))
      = [])
  /\ (fst (fst (Legacy.Run both_current
                  (Examples.legacy_updater "203.0.113.7" true)))
      = ("no changes needed", None)
      /\ filter is_mutation
           (snd (Legacy.Run both_current
                   (Examples.legacy_updater "203.0.113.7" true)))
         = [])
  /\ (fst (fst (Legacy.Run empty_answer (Examples.legacy_updater "" true)))
      = ("update successful", None)
      /\ filter is_mutation
           (snd (Legacy.Run empty_answer (Examples.legacy_updater "" true)))
         = []).
Proof.
  split; [| split].
  - apply (proj1 (no_change_in_either_updater both_current
                    "203.0.113.7" "2001:db8::7")
             (Examples.updater "203.0.113.7" true)
             (Examples.updater "203.0.113.7" true)
             [LookupCall "https://api6.ipify.org"]
             [Examples.recordA "203.0.113.7" false]).
    + reflexivity.
    + eexists. repeat split; reflexivity.
    + intros _. eexists _, _. split; reflexivity.
    + intros _ _. eexists _, _.
      split; [eexists; repeat split; reflexivity | reflexivity].
  - apply (proj1 (proj2 (no_change_in_either_updater both_current
                           "203.0.113.7" "2001:db8::7")
                    (Examples.legacy_updater "203.0.113.7" true)
                    (Examples.legacy_updater "203.0.113.7" true)
                    [LookupCall "https://api6.ipify.org"] eq_refl)).
    + discriminate.
    + eexists _, _. split; [eexists; repeat split; reflexivity | reflexivity].
    + intros _. eexists _, _.
      split; [eexists; repeat split; reflexivity | reflexivity].
  - apply (proj2 (proj2 (no_change_in_either_updater empty_answer
                           "" "2001:db8::7")
                    (Examples.legacy_updater "" true)
                    (Examples.legacy_updater "" true)
                    [LookupCall "https://api.ipify.org";
                     LookupCall "https://api6.ipify.org"] eq_refl)).
    + reflexivity.
    + intros _. eexists _, _.
      split; [eexists; repeat split; reflexivity |].
      split; [discriminate | reflexivity].
Defined.

(** C3, as stated, fails for the single-file updater.  When the first
    IPv4 endpoint answers with an empty body and the AAAA record is
    current, and when the address is an explicit IPv6 address, it sends no
    write but returns "update successful", where the refactored updater
    returns "no changes needed" for the explicit IPv6 address. *)
Lemma legacy_reports_update_without_change :
  (Legacy.Run empty_answer (Examples.legacy_updater "" true)
   = ("update successful", None, Examples.legacy_updater "" true,
      [ LookupCall "https://api.ipify.org";
        LookupCall "https://api6.ipify.org";
        ListCall Examples.client "AAAA" Examples.host ]))
  /\ Legacy.Run both_current (Examples.legacy_updater "2001:db8::7" true)
     = ("update successful", None, Examples.legacy_updater "2001:db8::7" false, [])
  /\ fst (fst (Refactored.Run both_current (Examples.updater "2001:db8::7" true)))
     = ("no changes needed", None).
Proof. vm_compute. repeat split. Qed.

(** C4 (amended). The writes of a run, in terms of what the provider
    lists.  In the refactored updater, per family that requires a change:
    a create with the proxy flag [true] when no record is listed, and
    otherwise an update of the first listed record, by its identifier and
    with its proxy flag; the A write comes first.  In the single-file
    updater the writes are the same, for listed records that have an
    identifier, but when the request of the A write returns an error the
    AAAA write is not sent. *)
Theorem writes_of_either_updater (w : World) (ipv4 ipv6 : string)
    (recsA recsAAAA : list DNSRecord.t) :
  (forall (u u1 : Refactored.DNSUpdater) (t1 : list Call),
     Refactored.detectIPs w u = (ipv4, ipv6, None, u1, t1) ->
     listed w (Refactored.cfClient u) "A" (Refactored.Hostname u) recsA ->
     (Refactored.EnableIPv6 u1 = true -> ipv6 <> "" ->
      listed w (Refactored.cfClient u) "AAAA" (Refactored.Hostname u) recsAAAA) ->
     filter is_mutation (snd (Refactored.Run w u))
     = writes_for (Refactored.cfClient u) "A" (Refactored.Hostname u) true ipv4
         recsA
       ++ writes_for (Refactored.cfClient u) "AAAA" (Refactored.Hostname u)
            (Refactored.EnableIPv6 u1) ipv6 recsAAAA)
  /\ (forall (lu lu1 : Legacy.DNSUpdater) (t1 : list Call),
        resolveIPs w lu = (ipv4, ipv6, None, lu1, t1) ->
        (ipv4 <> "" -> listed w (client_of lu) "A" (Legacy.Hostname lu) recsA) ->
        identified recsA ->
        (Legacy.EnableIPv6 lu1 = true -> ipv6 <> "" ->
         listed w (client_of lu) "AAAA" (Legacy.Hostname lu) recsAAAA) ->
        identified recsAAAA ->
        filter is_mutation (snd (Legacy.Run w lu))
        = let wA := writes_for (client_of lu) "A" (Legacy.Hostname lu) true ipv4
                      recsA in
          wA ++ (if existsb (write_failed w) wA then []
                 else writes_for (client_of lu) "AAAA" (Legacy.Hostname lu)
                        (Legacy.EnableIPv6 lu1) ipv6 recsAAAA)).
Proof.
  split.
  - intros u u1 t1. apply Refactored_Run_writes.
  - intros lu lu1 t1. apply legacy_Run_writes.
Qed.

Lemma writes_of_either_updater_witness :
  let w := both_out_of_date (Examples.answered true) (Examples.answered true) in
  let writes :=
    [ UpdateCall Examples.client "abc" "A" Examples.host "203.0.113.7" false;
      UpdateCall Examples.client "def" "AAAA" Examples.host "2001:db8::7" true ] in
  filter is_mutation
    (snd (Refactored.Run w (Examples.updater "203.0.113.7" true))) = writes
  /\ filter is_mutation
       (snd (Legacy.Run w (Examples.legacy_updater "203.0.113.7" true))) = writes.
Proof.
  cbv zeta.
  destruct (writes_of_either_updater
              (both_out_of_date (Examples.answered true) (Examples.answered true))
              "203.0.113.7" "2001:db8::7"
              [Examples.recordA "203.0.113.1" false]
              [Examples.recordAAAA "2001:db8::1" true]) as [HR HL].
  split.
  - apply (HR (Examples.updater "203.0.113.7" true)
             (Examples.updater "203.0.113.7" true)
             [LookupCall "https://api6.ipify.org"]).
    + reflexivity.
    + eexists. repeat split; reflexivity.
    + intros _ _. eexists. repeat split; reflexivity.
  - apply (HL (Examples.legacy_updater "203.0.113.7" true)
             (Examples.legacy_updater "203.0.113.7" true)
             [LookupCall "https://api6.ipify.org"]).
    + reflexivity.
    + intros _. eexists. repeat split; reflexivity.
    + intros r rest [= <- _]. discriminate.
    + intros _ _. eexists. repeat split; reflexivity.
    + intros r rest [= <- _]. discriminate.
Defined.

(** C4, as stated, fails for the single-file updater: the AAAA record is
    out of date, but the request of the A write returns an error and the
    run ends without the AAAA write.  The refactored updater sends both. *)
Lemma legacy_skips_AAAA_write :
  let w := both_out_of_date (inl (ExecuteFailed "timeout")) (Examples.answered true) in
  out_of_date [Examples.recordAAAA "2001:db8::1" true] "2001:db8::7" = true
  /\ snd (Legacy.Run w (Examples.legacy_updater "203.0.113.7" true))
     = [ LookupCall "https://api6.ipify.org";
         ListCall Examples.client "A" Examples.host;
         ListCall Examples.client "AAAA" Examples.host;
         UpdateCall Examples.client "abc" "A" Examples.host "203.0.113.7" false ]
  /\ filter is_mutation
       (snd (Refactored.Run w (Examples.updater "203.0.113.7" true)))
     = [ UpdateCall Examples.client "abc" "A" Examples.host "203.0.113.7" false;
         UpdateCall Examples.client "def" "AAAA" Examples.host "2001:db8::7" true ].
Proof. vm_compute. repeat split. Qed.

End BothUpdaters.

(** ** The configuration after a run, and the endpoints, in both updaters *)

Module BothUpdatersConfig.
Import RefactoredNotions RefactoredFacts LegacyNotions LegacyRunNotions
  LegacyResolution LegacyTrace ConfigNotions.

Lemma legacy_Run_state (w : World) (lu : Legacy.DNSUpdater) :
  snd (fst (Legacy.Run w lu)) = snd (fst (resolveIPs w lu)).
Proof.
  rewrite Run_resolveIPs.
  destruct (resolveIPs w lu) as [[[[ipv4 ipv6] [e |]] lu1] t1]; [reflexivity |].
  pose proof (LegacyFacts.Run_records_result ipv4 ipv6 w lu1) as H.
  destruct (Legacy.Run_records ipv4 ipv6 w lu1) as [[r u2] t2].
  cbn [fst snd] in *.
  repeat match type of H with
         | context [match ?x with _ => _ end] => destruct x
         | context [if ?x then _ else _] => destruct x
         end;
    now injection H as _ ->.
Qed.

Lemma refactored_flag (w : World) (u : Refactored.DNSUpdater) :
  let u' := snd (fst (Refactored.Run w u)) in
  (explicit_IPv6 (Refactored.IPAddr u) -> Refactored.EnableIPv6 u' = false)
  /\ (snd (fst (fst (Refactored.detectIPs w u))) = None ->
      (exists e, snd (fst (DetectIPv6 w)) = Some e) ->
      Refactored.EnableIPv6 u' = false)
  /\ (~ explicit_IPv6 (Refactored.IPAddr u) ->
      (exists e, snd (fst (fst (Refactored.detectIPs w u))) = Some e)
      \/ snd (fst (DetectIPv6 w)) = None ->
      Refactored.EnableIPv6 u' = Refactored.EnableIPv6 u).
Proof.
  cbv zeta. rewrite Run_state. unfold explicit_IPv6.
  destruct (String.eqb_spec (Refactored.IPAddr u) "") as [He | Hne].
  - rewrite (detectIPs_detect w u He).
    destruct (DetectIPv4 w) as [[ipv4 [e4 |]] t4];
      [| destruct (Refactored.EnableIPv6 u) eqn:En;
         [destruct (DetectIPv6 w) as [[ipv6 [e6 |]] t6] |]];
      cbn [fst snd Refactored.EnableIPv6 Refactored.set_EnableIPv6];
      (split; [intros (H & _); contradiction |]);
      (split; [intros H1 [e H2]; try discriminate; try reflexivity;
               assumption |]);
      intros _ [[e H] | H]; try discriminate; try reflexivity; assumption.
  - destruct (IsIPv4 (Refactored.IPAddr u)) eqn:H4.
    + rewrite (detectIPs_explicit_IPv4 w u Hne H4).
      destruct (Refactored.EnableIPv6 u) eqn:En;
        [destruct (DetectIPv6 w) as [[ipv6 [e6 |]] t6] |];
        cbn [fst snd Refactored.EnableIPv6 Refactored.set_EnableIPv6];
        (split; [intros (_ & H & _); discriminate |]);
        (split; [intros H1 [e H2]; try discriminate; try reflexivity;
                 assumption |]);
        intros _ [[e H] | H]; try discriminate; try reflexivity; assumption.
    + destruct (IsIPv6 (Refactored.IPAddr u)) eqn:H6.
      * rewrite (detectIPs_explicit_IPv6 w u Hne H4 H6).
        cbn [fst snd Refactored.EnableIPv6 Refactored.set_EnableIPv6].
        split; [reflexivity |]. split; [reflexivity |].
        intros H. exfalso. apply H. auto.
      * rewrite (detectIPs_invalid w u Hne H4 H6). cbn [fst snd].
        split; [intros (_ & _ & H); discriminate |].
        split; [intros H; discriminate |]. reflexivity.
Qed.

Lemma legacy_flag (w : World) (lu : Legacy.DNSUpdater) :
  let lu' := snd (fst (Legacy.Run w lu)) in
  (explicit_IPv6 (Legacy.IPAddr lu) -> Legacy.EnableIPv6 lu' = false)
  /\ (snd (fst (fst (resolveIPs w lu))) = None ->
      (exists e, snd (fst (DetectIPv6 w)) = Some e)
      \/ fst (fst (DetectIPv6 w)) = "" ->
      Legacy.EnableIPv6 lu' = false)
  /\ (~ explicit_IPv6 (Legacy.IPAddr lu) ->
      (exists e, snd (fst (fst (resolveIPs w lu))) = Some e)
      \/ (snd (fst (DetectIPv6 w)) = None /\ fst (fst (DetectIPv6 w)) <> "") ->
      Legacy.EnableIPv6 lu' = Legacy.EnableIPv6 lu).
Proof.
  cbv zeta. rewrite legacy_Run_state, resolveIPs_cases. cbv zeta.
  unfold explicit_IPv6.
  change Legacy.isIPv4 with IsIPv4. change Legacy.isIPv6 with IsIPv6.
  assert (K : forall (ipv4 : string) (t : list Call),
             let r := if Legacy.EnableIPv6 lu then
                        (ipv4, fst (fst (DetectIPv6 w)), @None error,
                         (if is_none (snd (fst (DetectIPv6 w)))
                             && negb (fst (fst (DetectIPv6 w)) =? "")%string
                          then lu else Legacy.set_EnableIPv6 false lu),
                         t ++ snd (DetectIPv6 w))
                      else (ipv4, "", @None error, lu, t) in
             ((exists e, snd (fst (DetectIPv6 w)) = Some e)
              \/ fst (fst (DetectIPv6 w)) = "" ->
              Legacy.EnableIPv6 (snd (fst r)) = false)
             /\ (snd (fst (DetectIPv6 w)) = None
                 /\ fst (fst (DetectIPv6 w)) <> "" ->
                 Legacy.EnableIPv6 (snd (fst r)) = Legacy.EnableIPv6 lu)).
  { intros ipv4 t. cbv zeta.
    destruct (Legacy.EnableIPv6 lu) eqn:En; cbn [fst snd]; [| auto].
    destruct (snd (fst (DetectIPv6 w))) as [e6 |]; cbn [is_none andb].
    - split; [reflexivity |]. intros [H _]. discriminate H.
    - destruct (String.eqb_spec (fst (fst (DetectIPv6 w))) "") as [E | N];
        cbn [negb]; cbn [Legacy.EnableIPv6 Legacy.set_EnableIPv6].
      + split; [reflexivity |]. intros [_ H]. contradiction.
      + split; [| intros _; exact En].
        intros [[e H] | H]; [discriminate H | contradiction]. }
  destruct (String.eqb_spec (Legacy.IPAddr lu) "") as [He | Hne].
  - destruct (http_get w "https://api.ipify.org") as [e | body].
    + cbn [fst snd]. split; [intros (H & _); contradiction |].
      split; [intros H; discriminate H | reflexivity].
    + destruct (K body [LookupCall "https://api.ipify.org"]) as [K1 K2].
      cbv zeta in K1, K2.
      split; [intros (H & _); contradiction |]. split; [intros _; exact K1 |].
      intros _ [[e H] | H]; [| exact (K2 H)].
      destruct (Legacy.EnableIPv6 lu); discriminate H.
  - destruct (IsIPv4 (Legacy.IPAddr lu)) eqn:H4.
    + destruct (K (Legacy.IPAddr lu) []) as [K1 K2]. cbv zeta in K1, K2.
      split; [intros (_ & H & _); discriminate |]. split; [intros _; exact K1 |].
      intros _ [[e H] | H]; [| exact (K2 H)].
      destruct (Legacy.EnableIPv6 lu); discriminate H.
    + destruct (IsIPv6 (Legacy.IPAddr lu)) eqn:H6; cbn [fst snd].
      * cbn [Legacy.EnableIPv6 Legacy.set_EnableIPv6].
        split; [reflexivity |]. split; [reflexivity |].
        intros H. exfalso. apply H. auto.
      * split; [intros (_ & _ & H); discriminate |].
        split; [intros H; discriminate | reflexivity].
Qed.

(** C7 (amended). In both updaters [Run] leaves the zone identifier, the
    credential, the host name and the explicit address of the updater as
    they were, and changes the IPv6 flag as follows.  It ends as [false]
    when the explicit address is an IPv6 address, and when address
    resolution returns no error and IPv6 detection fails (in the
    single-file updater also when it yields an empty address).  In every
    other case it keeps its value. *)
Theorem configuration_after_either_run (w : World) :
  (forall u : Refactored.DNSUpdater,
     let u' := snd (fst (Refactored.Run w u)) in
     (Refactored.ZoneID u' = Refactored.ZoneID u
      /\ Refactored.APIToken u' = Refactored.APIToken u
      /\ Refactored.Hostname u' = Refactored.Hostname u
      /\ Refactored.IPAddr u' = Refactored.IPAddr u)
     /\ (explicit_IPv6 (Refactored.IPAddr u) -> Refactored.EnableIPv6 u' = false)
     /\ (snd (fst (fst (Refactored.detectIPs w u))) = None ->
         (exists e, snd (fst (DetectIPv6 w)) = Some e) ->
         Refactored.EnableIPv6 u' = false)
     /\ (~ explicit_IPv6 (Refactored.IPAddr u) ->
         (exists e, snd (fst (fst (Refactored.detectIPs w u))) = Some e)
         \/ snd (fst (DetectIPv6 w)) = None ->
         Refactored.EnableIPv6 u' = Refactored.EnableIPv6 u))
  /\ (forall lu : Legacy.DNSUpdater,
        let lu' := snd (fst (Legacy.Run w lu)) in
        (Legacy.ZoneID lu' = Legacy.ZoneID lu
         /\ Legacy.APIToken lu' = Legacy.APIToken lu
         /\ Legacy.Hostname lu' = Legacy.Hostname lu
         /\ Legacy.IPAddr lu' = Legacy.IPAddr lu)
        /\ (explicit_IPv6 (Legacy.IPAddr lu) -> Legacy.EnableIPv6 lu' = false)
        /\ (snd (fst (fst (resolveIPs w lu))) = None ->
            (exists e, snd (fst (DetectIPv6 w)) = Some e)
            \/ fst (fst (DetectIPv6 w)) = "" ->
            Legacy.EnableIPv6 lu' = false)
        /\ (~ explicit_IPv6 (Legacy.IPAddr lu) ->
            (exists e, snd (fst (fst (resolveIPs w lu))) = Some e)
            \/ (snd (fst (DetectIPv6 w)) = None
                /\ fst (fst (DetectIPv6 w)) <> "") ->
            Legacy.EnableIPv6 lu' = Legacy.EnableIPv6 lu)).
Proof.
  split.
  - intros u. cbv zeta. split; [| apply refactored_flag].
    rewrite Run_state.
    destruct (detectIPs_fields w u) as (H1 & H2 & H3 & H4 & _). auto.
  - intros lu. cbv zeta. split; [| apply legacy_flag].
    rewrite legacy_Run_state. apply resolveIPs_fields.
Qed.

Lemma configuration_after_either_run_witness :
  Refactored.EnableIPv6
    (snd (fst (Refactored.Run Examples.up_to_date (Examples.updater "" true))))
  = false
  /\ Legacy.EnableIPv6
       (snd (fst (Legacy.Run Examples.up_to_date
                    (Examples.legacy_updater "2001:db8::1" true))))
     = false
  /\ Legacy.EnableIPv6
       (snd (fst (Legacy.Run Examples.cut_off (Examples.legacy_updater "" true))))
     = true.
Proof.
  destruct (configuration_after_either_run Examples.up_to_date) as [HR HL].
  destruct (configuration_after_either_run Examples.cut_off) as [_ HC].
  specialize (HR (Examples.updater "" true)).
  specialize (HL (Examples.legacy_updater "2001:db8::1" true)).
  specialize (HC (Examples.legacy_updater "" true)).
  cbv zeta in HR, HL, HC.
  destruct HR as (_ & _ & HR & _), HL as (_ & HL & _), HC as (_ & _ & _ & HC).
  split; [| split].
  - apply HR; [reflexivity |].
    eexists. vm_compute. reflexivity.
  - apply HL. split; [discriminate | split; reflexivity].
  - rewrite HC; [reflexivity | |].
    + intros (_ & _ & H). discriminate H.
    + left. eexists. vm_compute. reflexivity.
Defined.

(** C8 (amended). The detector and [detectIPv6] of the single-file
    updater have at least three endpoints per family; when the endpoints
    before [s] fail or answer with a body that does not validate after
    trimming, and [s] answers with a body that validates after trimming,
    they return that trimmed body and have called exactly the endpoints
    up to [s], in order.  [detectIPv4] of the single-file updater asks
    one endpoint only and returns its body as it is, or its error. *)
Theorem endpoints_of_either_detector (f : Family) (w : World)
    (pre post : list string) (s body : string) (lu : Legacy.DNSUpdater) :
  services f = pre ++ s :: post ->
  Forall (skipped (validates f) w) pre ->
  http_get w s = inr body ->
  validates f (strings.TrimSpace body) = true ->
  (3 <= length (services f)
   /\ Detect f w = ((strings.TrimSpace body, None), map LookupCall (pre ++ [s])))
  /\ (f = V6 ->
      Legacy.ipv6Services = services V6
      /\ Legacy.detectIPv6 w lu
         = (strings.TrimSpace body, None, lu, map LookupCall (pre ++ [s])))
  /\ Legacy.detectIPv4 w lu
     = (match http_get w "https://api.ipify.org" with
        | inl e => ("", Some e)
        | inr answer => (answer, None)
        end, lu, [LookupCall "https://api.ipify.org"]).
Proof.
  intros E Hpre Hs Hv.
  split; [exact (detect_first_valid_endpoint f w pre post s body E Hpre Hs Hv) |].
  split.
  - intros ->. split; [reflexivity |].
    unfold Legacy.detectIPv6. mstep.
    change (tryServices Legacy.isIPv6 Legacy.ipv6Services w)
      with (tryServices IsIPv6 ipv6Services w).
    cbn [services validates] in *. rewrite E.
    rewrite (tryServices_first_valid _ w pre post s body Hpre Hs Hv). mstep.
    now rewrite app_nil_r.
  - unfold Legacy.detectIPv4. mstep.
    destruct (http_get w "https://api.ipify.org"); reflexivity.
Qed.

Lemma endpoints_of_either_detector_witness :
  let w := Examples.both_stale (Examples.answered true) (Examples.answered true) in
  (3 <= length (services V4)
   /\ Detect V4 w = ("203.0.113.7", None, map LookupCall ipv4Services))
  /\ Legacy.detectIPv4 w (Examples.legacy_updater "" true)
     = ("", Some "connection refused", Examples.legacy_updater "" true,
        [LookupCall "https://api.ipify.org"]).
Proof.
  cbv zeta.
  destruct (endpoints_of_either_detector V4
              (Examples.both_stale (Examples.answered true) (Examples.answered true))
              [ "https://api.ipify.org"; "https://v4.ident.me/" ] []
              "https://ipv4.icanhazip.com/" ("203.0.113.7" ++ Examples.newline)
              (Examples.legacy_updater "" true)
              eq_refl) as (H1 & _ & H3).
  - repeat constructor.
  - reflexivity.
  - reflexivity.
  - split; [exact H1 | exact H3].
Defined.

(** C8, as stated, fails for [detectIPv4] of the single-file updater.
    With the first endpoint down and the third answering, it returns the
    error of the first lookup where the detector returns the address;
    and it returns the body of the first endpoint untrimmed, and a page
    unchecked. *)
Lemma legacy_detectIPv4_asks_one_endpoint :
  let w := Examples.both_stale (Examples.answered true) (Examples.answered true) in
  (fst (fst (Legacy.detectIPv4 w (Examples.legacy_updater "" true)))
   = ("", Some "connection refused")
   /\ snd (Legacy.detectIPv4 w (Examples.legacy_updater "" true))
      = [LookupCall "https://api.ipify.org"]
   /\ fst (DetectIPv4 w) = ("203.0.113.7", None))
  /\ (fst (fst (Legacy.detectIPv4
                  (answering ("203.0.113.7" ++ Examples.newline))
                  (Examples.legacy_updater "" true)))
      = (("203.0.113.7" ++ Examples.newline)%string, None)
      /\ fst (DetectIPv4 (answering ("203.0.113.7" ++ Examples.newline)))
         = ("203.0.113.7", None))
  /\ (fst (fst (Legacy.detectIPv4 (answering "<html>busy</html>")
                  (Examples.legacy_updater "" true)))
      = ("<html>busy</html>", None)
      /\ fst (DetectIPv4 (answering "<html>busy</html>"))
         = ("", Some "failed to detect public IPv4 address")).
Proof. vm_compute. repeat split. Qed.

End BothUpdatersConfig.
